(* ===== verification/_CoqProject ===== *)
-Q . S2P
Prelude.v
Types.v
IsoDate.v
AiResponses.v
Storage.v
DailyLog.v
OnboardingPage.v
MorningPage.v
AfternoonPage.v
NightPage.v
Session.v
AppShell.v
App.v
Notifications.v
