(* ===== verification/Prelude.v ===== *)
(** * A verification development of "3 Momentos" (app-3-momentos)

    "3 Momentos" is a Next.js client application: three daily check-ins
    (morning, afternoon, night) that collect a few answers, answer with a
    canned piece of advice chosen from static tables by the answers and
    the stored profile, and keep the profile and a day-keyed log in the
    browser's [localStorage].  Its parts and how they interact:
    - [src/src/lib/types.ts]: the data (unions of string literals,
      [UserProfile], the three responses, [DailyInteraction], [AIResponse]);
    - [src/src/lib/ai-responses.ts]: the advice engine, three pure
      functions [getMorningAdvice], [getAfternoonSuggestion],
      [getNightReflection] over the answers and the profile;
    - [src/src/lib/storage.ts]: the store, read and written by every page;
    - [src/src/app/onboarding/page.tsx]: the five-step form that writes
      the profile and the onboarding flag;
    - [src/src/app/{morning,afternoon,night}/page.tsx]: the check-ins, each
      of which reads the profile, calls the engine, shows the response and
      upserts today's record with [saveDailyInteraction];
    - [src/src/app/page.tsx], [settings/page.tsx], [profile/page.tsx]: the
      home page (redirect or greeting), the reset and the profile view;
    - [src/src/lib/notifications.ts]: service-worker registration, permission and
      reminders (never called by a page).

    ** Files, in dependency order
    - [Prelude] (this file): the JavaScript primitives the sources use
      ([includes], [findIndex], object spread [⊕] on optional fields,
      [split]/[join] on one character, [trim] truthiness, JSX truthiness
      [shown]), the generic list lemmas on them, termination by a
      bounded variant ([wf_by_rank]), the hint databases
      [momentos] and [momentos_rw], and the tactics [case_includes] and
      [case_Zcmp] that drive the case analyses of the engine.
    - [Types]: the data of [types.ts]; enums as inductive types with
      [EqDecision] and [Finite] instances, interfaces as records, [?:]
      fields as options, a [Date] as its time value in milliseconds.
    - [IsoDate]: [new Date().toISOString().split('T')[0]], the date key
      of the daily log; [toISOString] is a platform builtin, modelled from
      its ECMAScript definition ([Day], [DayFromYear], [YearFromTime] in
      closed form as [YearFromDay], [MonthFromTime], [DateFromTime], the
      ISO string, [RangeError] outside the time range), and the shape
      [YYYY-MM-DD] of a key ([is_date_key]).
    - [AiResponses]: Modules [Morning], [Afternoon], [Night], one Rocq
      function per exported function and per branch closure, the tables
      as functions by pattern matching, strings copied byte for byte.
    - [Storage]: [localStorage] as a [gmap] from keys to stored values,
      the [window] guard as a flag, every function of [storage.ts]
      ([saveDailyInteraction] through [upsertInteraction]: [findIndex],
      in-place merge [{...old, ...new}] or push); [storage_inv] and the
      step relation [storage_step]/[reachable] of the calls the pages make.
    - [DailyLog]: the class [InteractionLog], what the pages rely on from
      the store (a save is visible to today's lookup, other days and
      users untouched); the instance [browser_log] discharges it; the
      Section [Refinement] proves any instance refines an abstract map
      from (user, date) to the merged record, and [browser_log_refines]
      applies it to the code's store from an empty [localStorage].
    - [OnboardingPage], [MorningPage], [AfternoonPage], [NightPage],
      [AppShell] (Modules [Home], [Settings], [Profile]): each page as a
      state record (its [useState]s), an event type (its buttons and
      inputs), a guard [*_rendered] (whether the JSX shows or enables the
      control), a step function (its handlers; [None] where the handler
      throws), a view, and an inductive reachability relation from the
      initial state.  A handler returns a [PageOutcome]: page state, store
      and the route of [router.push].
    - [Session]: the check-in pages composed with the store and the
      clock: [clock_at t] gives a handler both [new Date()] reads at the
      instant [t], and [run_page] replays a list of clicks on a page.
    - [App]: every writing page on one store: [app_reachable] is the set
      of stores any interleaving of the onboarding, the three check-ins
      (clocks in the years 1970-9999) and the settings page produces;
      [wt_interaction] is the type [DailyInteraction] of [types.ts] with
      its refinements ([dayRating] in [0..10], a [YYYY-MM-DD] date).
    - [Notifications]: the module as lists of browser effects: the
      service-worker registration, [requestNotificationPermission] over
      an explicit browser state, and [scheduleLocalNotification] ([Number]
      on the [HH:MM] pieces, [setHours]/[setDate] arithmetic with
      [TimeClip],
      [setTimeout]'s 32-bit conversion [ToInt32], the [Notification] it
      shows).

    ** What the theorems show
    - Engine (C2-C5, C13-C15): every table lookup is total (the source
      throws on a missing key; no enum value misses), the music prompts
      are attached exactly under their conditions, the first-match order
      and the rating thresholds of each rule chain.
    - Store (C6, C7, C23, C25) and log (C12): upsert then lookup, the
      upsert equals a plain recursive reference, other records untouched,
      the invariant of every reachable store (one record per user and
      date; the onboarding flag implies a profile), and from an empty
      store [getTodayInteraction] after any run of saves answers as the
      specification's map of shallow-merged records (C12).
    - Date key (C19, C24): the key is the UTC day (same string iff same
      UTC day, 1970-9999) and reads back to a valid date of that day.
    - Pages (C8-C11, C26-C28, C30, C34-C38): invariants of each page by
      rule induction, no reachable state makes a handler throw, each
      check-in end to end, the reset needs two clicks, what the profile
      page shows after the onboarding.
    - Composition (C16-C18, C20-C22, C29): three check-ins of one UTC day
      through the pages make one record with the three answers; the pages
      on one store only write through the store's operations, so its
      invariant holds (C18), and every stored record is well typed (C17);
      a check-in just after local midnight is filed under the previous
      local date (C20); from every reachable state of a check-in page a
      few clicks complete it (liveness, C21); the night page's cards only
      move forward, so its flow terminates (C22, by a bounded variant,
      [wf_by_rank]); the option cards list every value of their type once
      and are on screen exactly while the page accepts the choice (C29).
    - Findings: C1 (the onboarding offers capitalised options while the
      engine tests lower-case ones, so an onboarded profile never gets a
      personalised afternoon suggestion), C30 (the label "Normal" of
      rating 4 sits in the hard advice tier), C11 (Pular saves the typed
      text), C32 (a time without ':' fires at once), C37 (Editar Perfil
      cannot edit), C20 (the day is the UTC day, not the user's).
    - Notifications (C31-C33): the timer and notification for valid
      times, an immediate notification for an invalid time, the
      permission prompt.

    ** Assumptions and bounds
    - [JSON.parse (JSON.stringify x) = x] for the stored values (numbers,
      strings, booleans and arrays of them), so the store keeps the values.
    - [new Date()] is read twice by each saving handler (date and
      timestamp); the page files take them as a [Clock], and [Session]
      and [App] take both at one instant ([clock_at]).
    - Whitespace for [trim] is ASCII; [setHours] has no daylight-saving
      jump (a day is 86 400 000 ms).  [Number] on a time piece is decided
      only where the model is exact (short digit strings, or a character
      no numeric literal contains); other numerals put the call outside
      the model ([scheduleLocalNotification] returns [None]).
    - The slider reports integers of [0..10] ([min], [max], [step] of the
      UI component, outside [src/]).
    - Every recursion is structural; the one bounded search,
      [year_search], is the specification's reading of [YearFromTime],
      and one step per day is enough fuel ([YearFromDay_search]).  The
      date theorems are stated for the years 1970 to 9999, where the year
      has four digits
      (after 9999 the key is [+YYYYYY-MM-DD] and no longer fits the
      [YYYY-MM-DD] shape, so C17 assumes clocks before year 10000).
    - In [App], a check-in page may be in any state its page can reach;
      the store does not influence the page state beyond the redirect.

    ** Not modelled
    Styling, icons and static text of the JSX (headers, backgrounds, the
    CSS width of the onboarding's progress bar); the UI component library
    ([@/components/ui], outside [src/]); the object logged beside each
    console message and the locale text of [toLocaleString]; the Next.js
    router beyond the route given to [router.push].

    ** Plan
    The views are split into cards mapped to their JSX: the onboarding
    step cards ([basics_card] to [times_card]), the check-in step cards
    ([morning_view], [afternoon_view], [night_view]) and result cards
    ([morning_result_card], [afternoon_result_card], [night_result_card]).
    Next: the option cards as functions of their tables (each button's
    label and the event it sends). *)

From stdpp Require Import base list strings.
From Stdlib Require Import String Ascii ZArith Lia Wf_nat Inclusion.
Open Scope string_scope.

(** ** JavaScript list primitives used by the sources *)

(** [Array.prototype.includes] on an array of strings: strict equality of
    the strings, first to last. *)
Definition includes (x : string) (l : list string) : bool :=
  existsb (String.eqb x) l.

Lemma includes_In x l : includes x l = true <-> In x l.
Proof.
  unfold includes. rewrite existsb_exists. split.
  - intros (y & Hy & E). apply String.eqb_eq in E. now subst.
  - intros H. exists x. split; [exact H | apply String.eqb_refl].
Qed.

Lemma includes_false x l : includes x l = false <-> ~ In x l.
Proof.
  rewrite <- includes_In. destruct (includes x l); split; congruence.
Qed.

Lemma includes_nil x : includes x [] = false.
Proof. reflexivity. Qed.

(** Membership in a list of string literals is decided by computation:
    this is the form in which the case analyses below use it. *)
Lemma not_In_includes x l : (forall y, In y l -> y <> x) -> includes x l = false.
Proof.
  intros H. apply includes_false. intros Hin. exact (H x Hin eq_refl).
Qed.

(** [Array.prototype.findIndex]: the index of the first element that
    satisfies [p], or [-1]. *)
Fixpoint findIndex {A} (p : A -> bool) (l : list A) : Z :=
  match l with
  | [] => (-1)%Z
  | x :: l' => if p x then 0%Z else
      let i := findIndex p l' in if (i <? 0)%Z then (-1)%Z else (i + 1)%Z
  end.

(** [Array.prototype.find] is the Standard Library's [List.find]. *)

Lemma findIndex_neg {A} (p : A -> bool) l :
  (findIndex p l < 0)%Z <-> find p l = None.
Proof.
  induction l as [|x l IH]; simpl; [split; auto; lia|].
  destruct (p x); [split; [lia|discriminate]|].
  destruct (findIndex p l <? 0)%Z eqn:E.
  - apply Z.ltb_lt in E. split; [intros _; now apply IH | lia].
  - apply Z.ltb_ge in E. split; [lia|intros H; apply IH in H; lia].
Qed.

Lemma findIndex_nonneg {A} (p : A -> bool) l i :
  findIndex p l = i -> (0 <= i)%Z ->
  exists x, l !! Z.to_nat i = Some x /\ p x = true /\ find p l = Some x.
Proof.
  revert i; induction l as [|x l IH]; intros i Hi Hpos; simpl in *; [lia|].
  destruct (p x) eqn:Px.
  - subst. exists x. auto.
  - destruct (findIndex p l <? 0)%Z eqn:E; [lia|]. apply Z.ltb_ge in E.
    destruct (IH _ eq_refl E) as (y & Hy & Py & Fy). subst i.
    exists y. rewrite Z2Nat.inj_add by lia. simpl.
    rewrite Nat.add_1_r. simpl. auto.
Qed.

(** [find] after an in-place update ([arr[i] = f(arr[i])], stdpp's list
    [alter]) of the element [findIndex] located. *)
Lemma find_alter_found {A} (p : A -> bool) (f : A -> A) (l : list A) x :
  (0 <= findIndex p l)%Z -> find p l = Some x -> p (f x) = true ->
  find p (alter f (Z.to_nat (findIndex p l)) l) = Some (f x).
Proof.
  induction l as [|y l IH]; simpl; [lia|]. intros Hi Hf Hp.
  destruct (p y) eqn:Py.
  - injection Hf as ->. simpl. by rewrite Hp.
  - destruct (findIndex p l <? 0)%Z eqn:E; [lia|]. apply Z.ltb_ge in E.
    rewrite Z2Nat.inj_add, Nat.add_1_r by lia. simpl. rewrite Py. auto.
Qed.

(** An update at an index whose element is not matched by [q], before or
    after the update, is invisible to [find q]. *)
Lemma find_alter_other {A} (q : A -> bool) (f : A -> A) (l : list A) n x :
  l !! n = Some x -> q x = false -> q (f x) = false ->
  find q (alter f n l) = find q l.
Proof.
  revert n. induction l as [|y l IH]; intros [|n]; simpl; try discriminate.
  - intros [= ->] Hq Hqf. by rewrite Hq, Hqf.
  - intros Hn Hq Hqf. destruct (q y); [done|]. eauto.
Qed.

Lemma find_app_single {A} (p : A -> bool) (l : list A) x :
  find p (l ++ [x]) = match find p l with
                      | Some y => Some y
                      | None => if p x then Some x else None
                      end.
Proof. induction l as [|y l IH]; simpl; [done|]. by destruct (p y). Qed.

(** An update that keeps the key of the updated element keeps the list of
    keys. *)
Lemma map_alter_key {A K} (key : A -> K) (f : A -> A) (l : list A) n x :
  l !! n = Some x -> key (f x) = key x -> map key (alter f n l) = map key l.
Proof.
  revert n. induction l as [|y l IH]; intros [|n]; simpl; try discriminate.
  - intros [= ->] Hk. by rewrite Hk.
  - intros Hn Hk. f_equal. eauto.
Qed.

(** [Array.prototype.filter] keeps a list free of duplicates. *)
Lemma NoDup_List_filter {A} (f : A -> bool) (l : list A) :
  NoDup l -> NoDup (List.filter f l).
Proof.
  induction l as [|x l IH]; simpl; [by constructor|].
  intros [Hx Hl]%NoDup_cons. destruct (f x); [|auto].
  apply NoDup_cons. split; [|auto]. intros Hin. apply Hx.
  apply list_elem_of_In in Hin. apply list_elem_of_In. apply filter_In in Hin. tauto.
Qed.

(** ** Object spread on an optional field

    [{ ...old, ...upd }] keeps a field of [old] unless [upd] has it. *)
Definition spread {A} (old upd : option A) : option A :=
  match upd with Some x => Some x | None => old end.

Declare Scope momentos_scope.
Delimit Scope momentos_scope with momentos.
Notation "old '⊕' upd" := (spread old upd) (at level 50, left associativity) : momentos_scope.
Open Scope momentos_scope.

Lemma spread_Some {A} (old : option A) x : old ⊕ Some x = Some x.
Proof. reflexivity. Qed.

Lemma spread_None {A} (old : option A) : old ⊕ None = old.
Proof. reflexivity. Qed.

Lemma spread_is_Some {A} (old upd : option A) :
  is_Some old -> is_Some (old ⊕ upd).
Proof. destruct upd; simpl; eauto. Qed.

(** ** JavaScript string primitives *)

Definition newline : ascii := Ascii.ascii_of_nat 10.

(** [s.split(sep)] for a one-character separator: the pieces between
    separators; the empty string splits into one empty piece. *)
Fixpoint split_on (sep : ascii) (s : string) : list string :=
  match s with
  | EmptyString => [EmptyString]
  | String c rest =>
      let parts := split_on sep rest in
      if Ascii.eqb c sep then EmptyString :: parts
      else match parts with
           | p :: ps => String c p :: ps
           | [] => [String c EmptyString]
           end
  end.

(** The pieces joined back with the separator. *)
Fixpoint join_on (sep : ascii) (l : list string) : string :=
  match l with
  | [] => EmptyString
  | [p] => p
  | p :: ps => p ++ String sep (join_on sep ps)
  end.

Abbreviation split_newline := (split_on newline).
Abbreviation join_newline := (join_on newline).

(** The white space [String.prototype.trim] removes, restricted to ASCII:
    tab, line feed, vertical tab, form feed, carriage return, space. *)
Definition is_ws (c : ascii) : bool :=
  let n := Ascii.nat_of_ascii c in ((9 <=? n) && (n <=? 13))%nat || (n =? 32)%nat.

(** [t.trim()] is truthy: some character is not white space. *)
Fixpoint trim_nonempty (t : string) : bool :=
  match t with
  | EmptyString => false
  | String c rest => negb (is_ws c) || trim_nonempty rest
  end.

Lemma split_on_nonnil sep s : split_on sep s <> [].
Proof.
  induction s as [|c s IH]; cbn; [discriminate|].
  destruct (Ascii.eqb c sep); [discriminate|]. destruct (split_on sep s); discriminate.
Qed.

(** A character occurs in a string. *)
Fixpoint has_char (c : ascii) (s : string) : bool :=
  match s with
  | EmptyString => false
  | String c' rest => Ascii.eqb c' c || has_char c rest
  end.

Lemma split_on_nosep sep s : has_char sep s = false -> split_on sep s = [s].
Proof.
  induction s as [|c s IH]; simpl; [done|].
  intros [Hc Hs]%orb_false_iff. rewrite Hc, IH by done. done.
Qed.

Lemma string_single_app c b : String c "" ++ b = String c b.
Proof. reflexivity. Qed.

(** Splitting at the first separator: the piece before it, then the rest. *)
Lemma split_on_app_sep sep a b :
  has_char sep a = false -> split_on sep (a ++ String sep b) = a :: split_on sep b.
Proof.
  induction a as [|c a IH]; simpl; [by rewrite Ascii.eqb_refl|].
  intros [Hc Ha]%orb_false_iff. rewrite Hc, IH by done. done.
Qed.

Lemma string_length_app a b : String.length (a ++ b) = (String.length a + String.length b)%nat.
Proof. induction a as [|c a IH]; simpl; [done|]. by rewrite IH. Qed.

Lemma has_char_app c a b : has_char c (a ++ b) = has_char c a || has_char c b.
Proof.
  induction a as [|c' a IH]; simpl; [done|]. by rewrite IH, orb_assoc.
Qed.

(** ** Decimal digits

    A digit character and its value, the value of a string of digits
    read left to right, and the [k]-digit zero-padded numeral of [n]
    ([String(n).padStart(k, '0')] for [0 <= n < 10^k]). *)
Definition digit_value (c : ascii) : option Z :=
  let n := Ascii.nat_of_ascii c in
  if ((48 <=? n) && (n <=? 57))%nat then Some (Z.of_nat (n - 48)) else None.

Fixpoint digits_value (acc : Z) (s : string) : option Z :=
  match s with
  | EmptyString => Some acc
  | String c rest =>
      match digit_value c with
      | Some d => digits_value (acc * 10 + d)%Z rest
      | None => None
      end
  end.

Definition digit_char (d : Z) : ascii := Ascii.ascii_of_nat (48 + Z.to_nat d).

Fixpoint pad (k : nat) (n : Z) : string :=
  match k with
  | O => EmptyString
  | S k' => pad k' (n / 10)%Z ++ String (digit_char (n mod 10)%Z) EmptyString
  end.

Lemma digit_value_char d : (0 <= d < 10)%Z -> digit_value (digit_char d) = Some d.
Proof.
  intros Hd. unfold digit_value, digit_char.
  rewrite Ascii.nat_ascii_embedding by lia.
  replace (48 <=? 48 + Z.to_nat d)%nat with true by (symmetry; apply Nat.leb_le; lia).
  replace (48 + Z.to_nat d <=? 57)%nat with true by (symmetry; apply Nat.leb_le; lia).
  cbn. f_equal. lia.
Qed.

Lemma digits_value_app acc a b :
  digits_value acc (a ++ b) = digits_value acc a ≫= fun v => digits_value v b.
Proof.
  revert acc. induction a as [|c a IH]; intros acc; simpl; [done|].
  destruct (digit_value c); [apply IH|done].
Qed.

Lemma digits_value_pad k n acc :
  (0 <= n < 10 ^ Z.of_nat k)%Z ->
  digits_value acc (pad k n) = Some (acc * 10 ^ Z.of_nat k + n)%Z.
Proof.
  revert n acc. induction k as [|k IH]; intros n acc Hn; cbn [pad].
  - cbn in *. f_equal. lia.
  - rewrite Nat2Z.inj_succ, Z.pow_succ_r in Hn by lia.
    rewrite digits_value_app, IH by (split; [apply Z.div_pos|apply Z.div_lt_upper_bound]; lia).
    cbn. rewrite digit_value_char by (apply Z.mod_pos_bound; lia). cbn.
    f_equal. rewrite Nat2Z.inj_succ, Z.pow_succ_r by lia.
    pose proof (Z.div_mod n 10 ltac:(lia)). lia.
Qed.

(** A numeral holds only digits: no other character occurs in it. *)
Lemma has_char_pad c k n :
  digit_value c = None -> has_char c (pad k n) = false.
Proof.
  intros Hc. induction k as [|k IH] in n |- *; cbn [pad]; [done|].
  rewrite has_char_app, IH. cbn. rewrite orb_false_r.
  destruct (Ascii.eqb_spec (digit_char (n mod 10)) c) as [<-|]; [|done].
  rewrite digit_value_char in Hc by (apply Z.mod_pos_bound; lia). discriminate.
Qed.

(** ** JSX conditional rendering

    [{x && <.../>}] renders when [x] is truthy: an optional string shows
    when it is present and not empty. *)
Definition shown (s : option string) : option string :=
  match s with Some x => if String.eqb x "" then None else Some x | None => None end.

Lemma shown_nonempty s x : x <> "" -> s = Some x -> shown s = Some x.
Proof. intros Hx ->. cbn. by destruct (String.eqb_spec x ""). Qed.

(** ** Termination by a bounded variant *)

(** A relation whose every edge strictly raises a rank bounded by [top]
    has no infinite chain: the variant [top - rank] decreases in [lt].
    The pages' forward moves are such relations, with the index of the
    card on screen as the rank. *)
Section Variant.
Context {S : Type} (R : S -> S -> Prop) (rank : S -> nat) (top : nat).
Hypothesis R_rank : forall s' s, R s' s -> rank s < rank s' /\ rank s' <= top.

Lemma wf_by_rank : well_founded R.
Proof.
  apply (wf_incl _ _ (ltof S (fun s => top - rank s))); [|apply well_founded_ltof].
  intros s' s H. unfold ltof. destruct (R_rank _ _ H). lia.
Qed.
End Variant.

(** ** Automation *)

Create HintDb momentos discriminated.
Create Rewrite HintDb momentos_rw.
#[export] Hint Rewrite @spread_Some @spread_None includes_nil : momentos_rw.
#[export] Hint Resolve spread_is_Some : momentos.

(** Case analysis on every [includes] test of the goal, keeping the
    equation so that the membership facts stay available. *)
Ltac case_includes :=
  repeat match goal with
  | |- context [includes ?x ?l] =>
      let E := fresh "Inc" in destruct (includes x l) eqn:E
  end.

(** Case analysis on every integer comparison of the goal. *)
Ltac case_Zcmp :=
  repeat match goal with
  | |- context [(?a >=? ?b)%Z] =>
      let E := fresh "Cmp" in destruct (Z.geb_spec a b) as [E|E]
  | |- context [(?a <? ?b)%Z] =>
      let E := fresh "Cmp" in destruct (Z.ltb_spec a b) as [E|E]
  end.

(** The same for the equality and [<=] tests. *)
Ltac case_Zeq :=
  repeat match goal with
  | |- context [(?a =? ?b)%Z] =>
      let E := fresh "Eq" in destruct (Z.eqb_spec a b) as [E|E]
  | |- context [(?a <=? ?b)%Z] =>
      let E := fresh "Cmp" in destruct (Z.leb_spec a b) as [E|E]
  end.
