(* ===== verification/Types.v ===== *)
(** * Types: the data model of [src/src/lib/types.ts]

    The string-literal unions of the source become inductive types with
    one constructor per literal (capitalised, since [advice] is also a
    field of [AIResponse]); the interfaces become records.  A field that
    the interface marks optional ([?:]) is an [option].  A JavaScript
    [Date] is kept as its time value, milliseconds since the epoch, in
    [Z]; a [number] that the UI only fills with integers is a [Z]. *)

From stdpp Require Import base list strings finite.
From Stdlib Require Import String ZArith.
From S2P Require Import Prelude.

(** ** Enumerations *)

Inductive MoodType := Tired | Ok | Motivated | Down.
Inductive PriorityType := Work | Family | Money | Health | Relationship.
Inductive ConcernType := Dinner | Movie | Create | Advice.
Inductive DayRatingType := Better | Same | Worse.
Inductive MomentType := Morning | Afternoon | Night.

#[export] Instance MoodType_eq_dec : EqDecision MoodType.
Proof. solve_decision. Defined.
#[export] Instance PriorityType_eq_dec : EqDecision PriorityType.
Proof. solve_decision. Defined.
#[export] Instance ConcernType_eq_dec : EqDecision ConcernType.
Proof. solve_decision. Defined.
#[export] Instance DayRatingType_eq_dec : EqDecision DayRatingType.
Proof. solve_decision. Defined.
#[export] Instance MomentType_eq_dec : EqDecision MomentType.
Proof. solve_decision. Defined.

(** The closed sets are finite: [enum] lists every value, so a property
    of the whole table can be decided by computation. *)
#[export] Program Instance MoodType_finite : Finite MoodType :=
  {| enum := [Tired; Ok; Motivated; Down] |}.
Next Obligation. apply (bool_decide_unpack _). by vm_compute. Qed.
Next Obligation. intros []; apply (bool_decide_unpack _); by vm_compute. Qed.

#[export] Program Instance PriorityType_finite : Finite PriorityType :=
  {| enum := [Work; Family; Money; Health; Relationship] |}.
Next Obligation. apply (bool_decide_unpack _). by vm_compute. Qed.
Next Obligation. intros []; apply (bool_decide_unpack _); by vm_compute. Qed.

#[export] Program Instance ConcernType_finite : Finite ConcernType :=
  {| enum := [Dinner; Movie; Create; Advice] |}.
Next Obligation. apply (bool_decide_unpack _). by vm_compute. Qed.
Next Obligation. intros []; apply (bool_decide_unpack _); by vm_compute. Qed.

#[export] Program Instance DayRatingType_finite : Finite DayRatingType :=
  {| enum := [Better; Same; Worse] |}.
Next Obligation. apply (bool_decide_unpack _). by vm_compute. Qed.
Next Obligation. intros []; apply (bool_decide_unpack _); by vm_compute. Qed.

(** ** Records *)

Record UserProfile := mkUserProfile {
  id : option string;
  name : string;
  age : Z;
  country : string;
  timezone : string;
  zodiacSign : string;
  gender : option string;
  foodPreferences : list string;
  movieGenres : list string;
  musicStyles : list string;
  wantsSunoPrompts : bool;
  mainGoal : list string;
  morningTime : string;
  afternoonTime : string;
  nightTime : string;
  createdAt : option Z
}.

(** [timestamp] is a field of three interfaces; Rocq projections share
    one name space, so each carries its moment as a prefix. *)
Record MorningResponse := mkMorningResponse {
  mood : MoodType;
  priority : PriorityType;
  morning_timestamp : Z
}.

Record AfternoonResponse := mkAfternoonResponse {
  dayRating : Z;
  concern : ConcernType;
  afternoon_timestamp : Z
}.

Record NightResponse := mkNightResponse {
  dayComparison : DayRatingType;
  didSomethingGood : bool;
  positiveThings : option (list string);
  night_timestamp : Z
}.

Record DailyInteraction := mkDailyInteraction {
  interaction_id : option string;
  userId : string;
  date : string;
  morning : option MorningResponse;
  afternoon : option AfternoonResponse;
  night : option NightResponse
}.

Record AIResponse := mkAIResponse {
  advice : string;
  action : option string;
  suggestion : option string;
  sunoPrompt : option string
}.

#[export] Instance AIResponse_eq_dec : EqDecision AIResponse.
Proof. solve_decision. Defined.

(** A profile with the given preferences and the onboarding defaults for
    the rest; the examples of the development instantiate it. *)
Definition sample_profile (foods movies music : list string) (suno : bool) : UserProfile :=
  mkUserProfile None "Ana" 30 "Portugal" "Europe/Lisbon" "Leão" None
    foods movies music suno ["Reduzir ansiedade"] "08:00" "15:00" "21:00" None.
