(* ===== verification/IsoDate.v ===== *)
(** * IsoDate: [new Date().toISOString().split('T')[0]]

    The four places that compute "today" ([morning/page.tsx],
    [afternoon/page.tsx], [night/page.tsx] and [getTodayInteraction] of
    [storage.ts]) all write [new Date().toISOString().split('T')[0]].
    [Date.prototype.toISOString] is not code of the repository; it is
    modelled from its ECMAScript definition (sections "Time Values and
    Time Range" to "Date Time String Format"): a time value is an integer
    number of milliseconds since 1970-01-01T00:00:00Z, [Day] and
    [TimeWithinDay] split it, [YearFromTime] is "the largest year [y]
    such that [TimeFromYear y <= t]", [MonthFromTime] and [DateFromTime]
    are the spec's tables, and the result is the UTC date and time
    [YYYY-MM-DDTHH:mm:ss.sssZ] (years outside [0..9999] in the expanded
    form [+YYYYYY] / [-YYYYYY]).  A time value outside [+-8.64e15] is an
    invalid date, whose [toISOString] throws a [RangeError] ([None]).

    [YearFromDay] computes the year in closed form (an estimate by the
    mean Gregorian year, corrected by one); [year_spec] shows it is the
    year the specification defines. *)

From stdpp Require Import base list strings.
From Stdlib Require Import String Ascii ZArith Lia.
From S2P Require Import Prelude.
Open Scope string_scope.
Open Scope Z_scope.

Definition msPerDay : Z := 86400000.

(** [Day(t)] and [TimeWithinDay(t)]: floor division and its modulo. *)
Definition Day (t : Z) : Z := t / msPerDay.
Definition TimeWithinDay (t : Z) : Z := t mod msPerDay.

Definition DaysInYear (y : Z) : Z :=
  if negb (y mod 4 =? 0) then 365
  else if negb (y mod 100 =? 0) then 366
  else if negb (y mod 400 =? 0) then 365
  else 366.

Definition DayFromYear (y : Z) : Z :=
  365 * (y - 1970) + (y - 1969) / 4 - (y - 1901) / 100 + (y - 1601) / 400.

(** [YearFromTime] on the day number: the mean Gregorian year is
    146097 / 400 days; the estimate is off by at most one year. *)
Definition YearFromDay (z : Z) : Z :=
  let y0 := 1970 + (400 * z) / 146097 in
  if DayFromYear (y0 + 1) <=? z then y0 + 1
  else if DayFromYear y0 <=? z then y0
  else y0 - 1.

(** [InLeapYear] as 0 or 1. *)
Definition InLeapYear (y : Z) : Z := if DaysInYear y =? 366 then 1 else 0.

(** The first day of each month within the year ([DayWithinYear] bounds
    of [MonthFromTime]). *)
Definition month_start (m leap : Z) : Z :=
  if m =? 0 then 0 else if m =? 1 then 31 else if m =? 2 then 59 + leap
  else if m =? 3 then 90 + leap else if m =? 4 then 120 + leap
  else if m =? 5 then 151 + leap else if m =? 6 then 181 + leap
  else if m =? 7 then 212 + leap else if m =? 8 then 243 + leap
  else if m =? 9 then 273 + leap else if m =? 10 then 304 + leap
  else 334 + leap.

(** [MonthFromTime], 0-based, from the day number. *)
Definition MonthFromDay (z : Z) : Z :=
  let y := YearFromDay z in
  let d := z - DayFromYear y in
  let l := InLeapYear y in
  if d <? 31 then 0 else if d <? 59 + l then 1 else if d <? 90 + l then 2
  else if d <? 120 + l then 3 else if d <? 151 + l then 4
  else if d <? 181 + l then 5 else if d <? 212 + l then 6
  else if d <? 243 + l then 7 else if d <? 273 + l then 8
  else if d <? 304 + l then 9 else if d <? 334 + l then 10 else 11.

(** [DateFromTime], 1-based: [d+1], [d-30], [d-58-l], ... *)
Definition DateFromDay (z : Z) : Z :=
  let y := YearFromDay z in
  z - DayFromYear y - month_start (MonthFromDay z) (InLeapYear y) + 1.

(** [MakeDay(year, month, date)] for a month of [0..11]. *)
Definition MakeDay (y m d : Z) : Z := DayFromYear y + month_start m (InLeapYear y) + d - 1.

Definition HourFromTime (t : Z) : Z := (t / 3600000) mod 24.
Definition MinFromTime (t : Z) : Z := (t / 60000) mod 60.
Definition SecFromTime (t : Z) : Z := (t / 1000) mod 60.
Definition msFromTime (t : Z) : Z := t mod 1000.

(** The year field: four digits for [0..9999], otherwise a sign and six
    digits. *)
Definition year_field (y : Z) : string :=
  if (0 <=? y) && (y <=? 9999) then pad 4 y
  else (if y <? 0 then "-" else "+") ++ pad 6 (Z.abs y).

Definition date_part (z : Z) : string :=
  year_field (YearFromDay z) ++ "-" ++ pad 2 (MonthFromDay z + 1) ++ "-" ++ pad 2 (DateFromDay z).

(** [Date.prototype.toISOString]; [None] is the [RangeError] of an
    invalid date. *)
Definition toISOString (t : Z) : option string :=
  if 8640000000000000 <? Z.abs t then None
  else Some (date_part (Day t) ++ "T" ++ pad 2 (HourFromTime t) ++ ":" ++ pad 2 (MinFromTime t)
             ++ ":" ++ pad 2 (SecFromTime t) ++ "." ++ pad 3 (msFromTime t) ++ "Z").

(** [new Date().toISOString().split('T')[0]] at the time value [t]. *)
Definition today_at (t : Z) : option string :=
  match toISOString t with
  | Some s => Some (List.hd "" (split_on "T"%char s))
  | None => None
  end.

(** The specification's [YearFromTime] read literally: from a year whose
    first day is not after [z], step to the next year while its first day
    is not after [z] either; [fuel] bounds the steps. *)
Fixpoint year_search (fuel : nat) (y z : Z) : Z :=
  match fuel with
  | O => y
  | S f => if DayFromYear (y + 1) <=? z then year_search f (y + 1) z else y
  end.

(** [String(s).split('-')] read back as three numbers: the inverse of the
    date part on the years [0..9999]. *)
Definition parse_date (s : string) : option (Z * Z * Z) :=
  match split_on "-"%char s with
  | [ys; ms; ds] =>
      y ← digits_value 0 ys; m ← digits_value 0 ms; d ← digits_value 0 ds; Some (y, m, d)
  | _ => None
  end.

(** ** The shape of a date key

    A string fits a pattern when it has the pattern's length and, place
    by place, a digit where the pattern has [d] and the pattern's own
    character elsewhere. *)
Fixpoint fits_shape (pat s : string) : bool :=
  match pat, s with
  | EmptyString, EmptyString => true
  | String p pat', String c s' =>
      (if Ascii.eqb p "d"%char then bool_decide (is_Some (digit_value c)) else Ascii.eqb c p)
      && fits_shape pat' s'
  | _, _ => false
  end.

(** The pattern of [k] digits. *)
Fixpoint digit_shape (k : nat) : string :=
  match k with O => EmptyString | S k' => digit_shape k' ++ "d" end.

(** A key of the daily log: [YYYY-MM-DD] with a month in [1..12] and a
    day in [1..31]. *)
Definition is_date_key (s : string) : bool :=
  fits_shape "dddd-dd-dd" s &&
  match parse_date s with
  | Some (y, m, d) => (1 <=? m) && (m <=? 12) && (1 <=? d) && (d <=? 31)
  | None => false
  end.

(** ** The calendar *)

Lemma DayFromYear_succ y : DayFromYear (y + 1) = DayFromYear y + DaysInYear y.
Proof.
  unfold DayFromYear, DaysInYear.
  destruct (Z.eqb_spec (y mod 4) 0), (Z.eqb_spec (y mod 100) 0), (Z.eqb_spec (y mod 400) 0);
    cbn [negb]; Z.div_mod_to_equations; lia.
Qed.

Lemma DaysInYear_range y : 365 <= DaysInYear y <= 366.
Proof. unfold DaysInYear. repeat case_match; lia. Qed.

Lemma DayFromYear_le y1 y2 : y1 <= y2 -> DayFromYear y1 + 365 * (y2 - y1) <= DayFromYear y2.
Proof.
  intros H. remember (Z.to_nat (y2 - y1)) as n eqn:En.
  assert (y2 = y1 + Z.of_nat n) as -> by lia. clear H En.
  induction n as [|n IH]; [rewrite Z.add_0_r; lia|].
  rewrite Nat2Z.inj_succ, <- Z.add_1_r, Z.add_assoc, DayFromYear_succ.
  pose proof (DaysInYear_range (y1 + Z.of_nat n)). lia.
Qed.

Lemma DayFromYear_lt y1 y2 : y1 < y2 -> DayFromYear y1 < DayFromYear y2.
Proof. intros H. pose proof (DayFromYear_le y1 y2). lia. Qed.

(** The estimate of [YearFromDay] is within a year of the answer. *)
Lemma year_window z :
  let y0 := 1970 + (400 * z) / 146097 in
  DayFromYear (y0 - 1) <= z < DayFromYear (y0 + 2).
Proof. cbn zeta. unfold DayFromYear. Z.div_mod_to_equations. lia. Qed.

(** [YearFromDay] is the year of the specification: the largest [y] with
    [DayFromYear y <= z], i.e. the one whose days contain [z]. *)
Lemma year_spec z : DayFromYear (YearFromDay z) <= z < DayFromYear (YearFromDay z + 1).
Proof.
  pose proof (year_window z) as W. cbn zeta in W. unfold YearFromDay.
  set (y0 := 1970 + 400 * z / 146097) in *.
  destruct (Z.leb_spec (DayFromYear (y0 + 1)) z).
  - split; [done|]. replace (y0 + 1 + 1) with (y0 + 2) by lia. lia.
  - destruct (Z.leb_spec (DayFromYear y0) z); [split; lia|].
    replace (y0 - 1 + 1) with y0 by lia. lia.
Qed.

Lemma year_unique z y1 y2 :
  DayFromYear y1 <= z < DayFromYear (y1 + 1) ->
  DayFromYear y2 <= z < DayFromYear (y2 + 1) -> y1 = y2.
Proof.
  intros H1 H2. destruct (Z.lt_total y1 y2) as [Hl|[|Hl]]; [|done|];
    pose proof (DayFromYear_le _ _ (Zlt_le_succ _ _ Hl)) as M; unfold Z.succ in M; lia.
Qed.

(** The day of the year is in [0, DaysInYear). *)
Lemma day_within_year z :
  0 <= z - DayFromYear (YearFromDay z) < DaysInYear (YearFromDay z).
Proof. pose proof (year_spec z). rewrite DayFromYear_succ in H. lia. Qed.

Lemma InLeapYear_days y : DaysInYear y = 365 + InLeapYear y /\ 0 <= InLeapYear y <= 1.
Proof. unfold InLeapYear. pose proof (DaysInYear_range y). case_Zeq; lia. Qed.

(** Month in [0..11] and date in [1..31]. *)
Lemma month_date_range z : 0 <= MonthFromDay z <= 11 /\ 1 <= DateFromDay z <= 31.
Proof.
  pose proof (day_within_year z) as Hd. pose proof (InLeapYear_days (YearFromDay z)) as [Hl Hl'].
  unfold DateFromDay, MonthFromDay. cbn zeta.
  set (y := YearFromDay z) in *. set (l := InLeapYear y) in *.
  case_Zcmp; unfold month_start; cbn; lia.
Qed.

(** [MakeDay] inverts the three fields. *)
Lemma MakeDay_fields z : MakeDay (YearFromDay z) (MonthFromDay z) (DateFromDay z) = z.
Proof. unfold MakeDay, DateFromDay. cbn zeta. lia. Qed.

(** Days of the years 1970 to 9999. *)
Lemma year_range z : 0 <= z < 2932897 -> 1970 <= YearFromDay z <= 9999.
Proof.
  intros Hz. pose proof (year_spec z) as [H1 H2]. split.
  - destruct (Z.lt_ge_cases (YearFromDay z) 1970) as [Hl|]; [|done].
    pose proof (DayFromYear_le (YearFromDay z + 1) 1970 ltac:(lia)) as M.
    change (DayFromYear 1970) with 0 in M. lia.
  - destruct (Z.lt_ge_cases 9999 (YearFromDay z)) as [Hl|]; [|done].
    pose proof (DayFromYear_le 10000 (YearFromDay z) ltac:(lia)) as M.
    change (DayFromYear 10000) with 2932897 in M. lia.
Qed.

(** ** The string *)

Lemma has_char_year_field c y :
  digit_value c = None -> c <> "-"%char -> c <> "+"%char -> has_char c (year_field y) = false.
Proof.
  intros Hd Hm Hp. unfold year_field.
  destruct (_ && _)%bool; [by apply has_char_pad|].
  rewrite has_char_app, has_char_pad by done.
  assert (E1 : Ascii.eqb "-" c = false) by (apply Ascii.eqb_neq; congruence).
  assert (E2 : Ascii.eqb "+" c = false) by (apply Ascii.eqb_neq; congruence).
  destruct (y <? 0); cbn [has_char]; by rewrite ?E1, ?E2.
Qed.

Lemma has_char_date_part c z :
  digit_value c = None -> c <> "-"%char -> c <> "+"%char -> has_char c (date_part z) = false.
Proof.
  intros Hd Hm Hp. unfold date_part.
  rewrite !has_char_app, has_char_year_field, !has_char_pad by done.
  assert (E : Ascii.eqb "-" c = false) by (apply Ascii.eqb_neq; congruence).
  cbn [has_char]. by rewrite E.
Qed.

(** [.split('T')[0]] cuts the date part off the ISO string. *)
Lemma today_at_date_part t :
  Z.abs t <= 8640000000000000 -> today_at t = Some (date_part (Day t)).
Proof.
  intros Ht. unfold today_at, toISOString.
  destruct (Z.ltb_spec 8640000000000000 (Z.abs t)); [lia|].
  rewrite string_single_app, split_on_app_sep by (apply has_char_date_part; vm_compute; done).
  done.
Qed.

Lemma split_on_three sep a b c :
  has_char sep a = false -> has_char sep b = false -> has_char sep c = false ->
  split_on sep (a ++ String sep "" ++ b ++ String sep "" ++ c) = [a; b; c].
Proof.
  intros Ha Hb Hc. rewrite !string_single_app, !split_on_app_sep, split_on_nosep by done. done.
Qed.

Lemma year_field_small y : 0 <= y <= 9999 -> year_field y = pad 4 y.
Proof. intros Hy. unfold year_field. case_Zeq; cbn; first [reflexivity | lia]. Qed.

(** Reading the date part back gives the year, the 1-based month and the
    date. *)
Lemma parse_date_part z :
  0 <= YearFromDay z <= 9999 ->
  parse_date (date_part z) = Some (YearFromDay z, MonthFromDay z + 1, DateFromDay z).
Proof.
  intros Hy. pose proof (month_date_range z) as [Hm Hd].
  unfold parse_date, date_part. rewrite year_field_small by done.
  rewrite split_on_three by (apply has_char_pad; vm_compute; done).
  rewrite !digits_value_pad by (cbn; lia). done.
Qed.

(** Enough fuel: a year has at least 365 days, so [fuel] steps cover
    [365 * fuel] days. *)
Lemma year_search_spec fuel y z :
  DayFromYear y <= z -> z - DayFromYear y < 365 * Z.of_nat fuel ->
  DayFromYear (year_search fuel y z) <= z < DayFromYear (year_search fuel y z + 1).
Proof.
  revert y. induction fuel as [|fuel IH]; intros y H1 H2; [lia|]. cbn [year_search].
  destruct (Z.leb_spec (DayFromYear (y + 1)) z) as [Hn|Hn]; [|lia].
  apply IH; [done|]. pose proof (DayFromYear_le y (y + 1)). lia.
Qed.

Lemma year_search_from_epoch z :
  0 <= z -> year_search (S (Z.to_nat z)) 1970 z = YearFromDay z.
Proof.
  intros Hz. apply (year_unique z); [|apply year_spec].
  apply year_search_spec; change (DayFromYear 1970) with 0; lia.
Qed.

Lemma Day_range t : 0 <= t < 253402300800000 -> 0 <= Day t < 2932897.
Proof. unfold Day, msPerDay. intros. Z.div_mod_to_equations. lia. Qed.

(** The date part tells the days of 1970 to 9999 apart. *)
Lemma date_part_inj z1 z2 :
  0 <= z1 < 2932897 -> 0 <= z2 < 2932897 -> date_part z1 = date_part z2 -> z1 = z2.
Proof.
  intros H1 H2 E. apply (f_equal parse_date) in E.
  pose proof (year_range _ H1). pose proof (year_range _ H2).
  rewrite !parse_date_part in E by lia. injection E as Ey Em Ed.
  rewrite <- (MakeDay_fields z1), <- (MakeDay_fields z2), Ey, Ed.
  f_equal. lia.
Qed.

Lemma fits_shape_app p1 p2 s1 s2 :
  String.length p1 = String.length s1 ->
  fits_shape (p1 ++ p2) (s1 ++ s2) = fits_shape p1 s1 && fits_shape p2 s2.
Proof.
  revert s1. induction p1 as [|c p1 IH]; intros [|c' s1] E; simpl in E |- *; try lia; [done|].
  rewrite IH by lia. by rewrite andb_assoc.
Qed.

Lemma length_pad k n : String.length (pad k n) = k.
Proof.
  induction k as [|k IH] in n |- *; [done|]. cbn [pad].
  rewrite string_length_app, IH. cbn. lia.
Qed.

Lemma length_digit_shape k : String.length (digit_shape k) = k.
Proof. induction k as [|k IH]; [done|]. cbn [digit_shape]. rewrite string_length_app, IH. cbn. lia. Qed.

(** A [k]-digit numeral fits the pattern of [k] digits. *)
Lemma fits_pad k n : fits_shape (digit_shape k) (pad k n) = true.
Proof.
  induction k as [|k IH] in n |- *; [done|]. cbn [digit_shape pad].
  rewrite fits_shape_app by (by rewrite length_digit_shape, length_pad).
  rewrite IH. cbn. rewrite digit_value_char by (apply Z.mod_pos_bound; lia). done.
Qed.

(** The date part of a day of the years [0..9999] is a key of the log. *)
Lemma date_part_key z : 0 <= YearFromDay z <= 9999 -> is_date_key (date_part z) = true.
Proof.
  intros Hy. pose proof (month_date_range z) as [Hm Hd].
  unfold is_date_key. rewrite parse_date_part by done.
  unfold date_part. rewrite year_field_small by done.
  change "dddd-dd-dd" with (digit_shape 4 ++ "-" ++ digit_shape 2 ++ "-" ++ digit_shape 2).
  rewrite !fits_shape_app by (rewrite ?length_digit_shape, ?length_pad; done).
  rewrite !fits_pad. cbn -[Z.leb]. case_Zeq; lia || done.
Qed.

Lemma today_at_day t1 t2 :
  0 <= t1 < 253402300800000 -> 0 <= t2 < 253402300800000 ->
  (today_at t1 = today_at t2 <-> Day t1 = Day t2).
Proof.
  intros H1 H2. pose proof (Day_range _ H1). pose proof (Day_range _ H2).
  rewrite !today_at_date_part by lia. split; [|by intros ->].
  intros [= E]. by apply date_part_inj.
Qed.

(** C19. The key of the daily log is the UTC day: between 1970 and 9999,
    [new Date().toISOString().split('T')[0]] gives the same string at two
    instants exactly when they fall in the same UTC day
    ([floor(t / 86400000)]). *)
Theorem today_at_same_day t1 t2 :
  0 <= t1 < 253402300800000 -> 0 <= t2 < 253402300800000 ->
  (today_at t1 = today_at t2 <-> Day t1 = Day t2).
Proof. apply today_at_day. Qed.

(** For a user whose clock is [offset] milliseconds ahead of UTC, an
    instant in the first [offset] milliseconds of the local day has the
    key of the previous local date, which differs from the local date. *)
Lemma today_at_previous_local_day t offset :
  0 < offset < msPerDay -> 0 <= t -> t + offset < 253402300800000 ->
  TimeWithinDay (t + offset) < offset ->
  today_at t = Some (date_part (Day (t + offset) - 1)) /\
  date_part (Day (t + offset) - 1) <> date_part (Day (t + offset)).
Proof.
  intros Ho Ht Hr Hw.
  assert (E : Day t = Day (t + offset) - 1)
    by (unfold Day, TimeWithinDay, msPerDay in *; Z.div_mod_to_equations; lia).
  pose proof (Day_range (t + offset) ltac:(lia)) as Hd. pose proof (Day_range t ltac:(lia)).
  split.
  - rewrite today_at_date_part by lia. by rewrite E.
  - intros Eq. apply date_part_inj in Eq; lia.
Qed.

(** The closed form computes the year the specification defines:
    [YearFromDay z] is the one year whose days contain [z], and from the
    epoch it is what the specification's step-by-step search returns when
    given one step per day. *)
Theorem YearFromDay_search z y :
  (DayFromYear y <= z < DayFromYear (y + 1) <-> YearFromDay z = y) /\
  (0 <= z -> year_search (S (Z.to_nat z)) 1970 z = YearFromDay z).
Proof.
  split; [|apply year_search_from_epoch]. split.
  - intros H. symmetry. exact (year_unique z _ _ H (year_spec z)).
  - intros <-. apply year_spec.
Qed.

(** C24. The stored date string is a well-formed [YYYY-MM-DD] of the
    instant's UTC day: reading it back gives a year of 1970..9999, a
    month of 1..12 and a date of 1..31 from which [MakeDay] rebuilds the
    day number. *)
Theorem today_at_roundtrip t :
  0 <= t < 253402300800000 ->
  exists s y m d, today_at t = Some s /\ parse_date s = Some (y, m, d) /\
    1970 <= y <= 9999 /\ 1 <= m <= 12 /\ 1 <= d <= 31 /\ MakeDay y (m - 1) d = Day t.
Proof.
  intros Ht. pose proof (Day_range _ Ht) as Hz. pose proof (year_range _ Hz) as Hy.
  pose proof (month_date_range (Day t)) as [Hm Hd].
  exists (date_part (Day t)), (YearFromDay (Day t)), (MonthFromDay (Day t) + 1), (DateFromDay (Day t)).
  rewrite today_at_date_part, parse_date_part by lia.
  split_and!; try done; try lia. rewrite Z.add_simpl_r. apply MakeDay_fields.
Qed.

(** ** Witnesses *)

(** 08:00 and 16:00 UTC of 14 July 2026 share the key "2026-07-14". *)
Lemma today_at_same_day_witness :
  today_at 1784016000000 = Some "2026-07-14" /\
  today_at 1784016000000 = today_at 1784044800000.
Proof.
  split; [vm_compute; reflexivity|].
  apply (today_at_same_day 1784016000000 1784044800000); [lia | lia | vm_compute; reflexivity].
Defined.

Lemma today_at_roundtrip_witness :
  exists s y m d, today_at 1784071800000 = Some s /\ parse_date s = Some (y, m, d) /\
    1970 <= y <= 9999 /\ 1 <= m <= 12 /\ 1 <= d <= 31 /\ MakeDay y (m - 1) d = Day 1784071800000.
Proof. apply today_at_roundtrip. lia. Defined.

Lemma YearFromDay_search_witness :
  YearFromDay 20648 = 2026 /\ year_search (S (Z.to_nat 20648)) 1970 20648 = YearFromDay 20648.
Proof.
  split; [vm_compute; reflexivity|].
  exact (proj2 (YearFromDay_search 20648 2026) ltac:(lia)).
Defined.
