(* ===== verification/AiResponses.v ===== *)
(** * AiResponses: the advice engine of [src/src/lib/ai-responses.ts]

    [getMorningAdvice], [getAfternoonSuggestion] and [getNightReflection]
    with their tables.  Each exported function is a Rocq function of the
    same name; the [Record<..., ...>] tables become functions by pattern
    matching (a fresh object per call, as in the source, which builds the
    table inside the function body); the per-concern closures of
    [getAfternoonSuggestion] are the four [*_suggestion] functions.  The
    night table is keyed by the strings ['yes'] and ['no'], so its lookup
    is partial and [getNightReflection] returns an [option] whose [None]
    is the [TypeError] that assigning to [undefined.sunoPrompt] raises. *)

From stdpp Require Import base list strings finite.
From Stdlib Require Import String ZArith Lia.
From S2P Require Import Prelude Types.
Open Scope string_scope.

Module Morning.

(** [adviceMap] of [getMorningAdvice]. *)
Definition adviceMap (m : MoodType) (p : PriorityType) : AIResponse :=
  let r a c := mkAIResponse a (Some c) None None in
  match m, p with
  | Tired, Work => r "Começa devagar hoje. A tua energia vai aumentar ao longo do dia."
                    "Escolhe apenas 2 tarefas importantes e aceita que o resto pode esperar."
  | Tired, Family => r "Mesmo cansado, pequenos gestos fazem diferença para quem amas."
                      "Envia uma mensagem carinhosa a alguém especial hoje."
  | Tired, Money => r "Decisões financeiras importantes podem esperar. Descansa primeiro."
                     "Revê apenas o essencial das tuas finanças hoje."
  | Tired, Health => r "O teu corpo está a pedir descanso. Ouve-o."
                      "Bebe água, faz pausas e dorme cedo hoje."
  | Tired, Relationship => r "Relações precisam de energia. Cuida de ti primeiro."
                            "Comunica como te sentes e pede compreensão."
  | Ok, Work => r "Estás num bom ponto de equilíbrio. Aproveita!"
                 "Foca-te nas tarefas que exigem mais concentração agora."
  | Ok, Family => r "É um bom dia para estar presente com quem importa."
                   "Planeia um momento de qualidade com a família hoje."
  | Ok, Money => r "Momento neutro é bom para decisões financeiras equilibradas."
                  "Revê um objetivo financeiro e dá um pequeno passo."
  | Ok, Health => r "Mantém o ritmo. Consistência é a chave."
                   "Faz pelo menos 20 minutos de movimento hoje."
  | Ok, Relationship => r "Relações florescem com atenção constante."
                         "Pergunta a alguém especial como está o dia dele."
  | Motivated, Work => r "Aproveita esta energia! É o momento perfeito para avançar."
                        "Ataca aquela tarefa que tens adiado há dias."
  | Motivated, Family => r "A tua energia positiva contagia quem está à tua volta."
                          "Surpreende alguém da família com um gesto especial."
  | Motivated, Money => r "Motivação é ótima, mas mantém os pés no chão nas finanças."
                         "Pesquisa uma forma de aumentar os teus rendimentos."
  | Motivated, Health => r "Este é o dia perfeito para desafiar-te fisicamente!"
                          "Experimenta um treino mais intenso ou uma nova atividade."
  | Motivated, Relationship => r "Usa esta energia para fortalecer as tuas relações."
                                "Planeia algo especial para fazer com alguém que amas."
  | Down, Work => r "Dias difíceis fazem parte. Sê gentil contigo mesmo."
                   "Faz apenas o essencial hoje. Amanhã será melhor."
  | Down, Family => r "Está tudo bem não estar bem. A família entende."
                     "Partilha como te sentes com alguém de confiança."
  | Down, Money => r "Não tomes decisões financeiras importantes quando estás em baixo."
                    "Adia decisões importantes. Foca-te em estabilizar primeiro."
  | Down, Health => r "A saúde mental é tão importante quanto a física."
                     "Faz algo que te acalme: caminha, respira, descansa."
  | Down, Relationship => r "Vulnerabilidade fortalece relações verdadeiras."
                           "Deixa alguém cuidar de ti hoje. Aceita ajuda."
  end.

(** [sunoPrompts] of [getMorningAdvice]: keyed by the mood only. *)
Definition sunoPrompts (m : MoodType) : string :=
  match m with
  | Tired => "Cria uma música suave e relaxante, estilo lo-fi, para começar o dia com calma"
  | Ok => "Cria uma música equilibrada e positiva, estilo pop acústico, para manter o foco"
  | Motivated => "Cria uma música energética e inspiradora, estilo pop/rock, para potenciar a motivação"
  | Down => "Cria uma música reconfortante e esperançosa, estilo balada suave, para acolher as emoções"
  end.

(** [response.sunoPrompt = ...] on the fresh table entry. *)
Definition set_sunoPrompt (r : AIResponse) (s : string) : AIResponse :=
  mkAIResponse (advice r) (action r) (suggestion r) (Some s).

Definition getMorningAdvice (m : MoodType) (p : PriorityType) (profile : UserProfile)
    : AIResponse :=
  let response := adviceMap m p in
  if wantsSunoPrompts profile then set_sunoPrompt response (sunoPrompts m)
  else response.

End Morning.

Module Afternoon.

(** The responses of the four closures, in source order. *)
Definition sug (a s : string) : AIResponse := mkAIResponse a None (Some s) None.
Definition sug_prompt (a s p : string) : AIResponse := mkAIResponse a None (Some s) (Some p).
Definition act (a c : string) : AIResponse := mkAIResponse a (Some c) None None.

Definition dinner_healthy := sug "O dia está a correr bem! Mantém a energia com algo nutritivo."
  "Que tal um salmão grelhado com legumes assados e quinoa? Simples e delicioso.".
Definition dinner_comfort := sug "Dias difíceis pedem conforto. Está tudo bem."
  "Um hambúrguer caseiro ou uma pizza pode ser exatamente o que precisas hoje.".
Definition dinner_pasta := sug "Massa é sempre uma boa escolha!"
  "Esparguete à carbonara ou penne ao pesto. Rápido e reconfortante.".
Definition dinner_sushi := sug "Sushi é uma excelente opção equilibrada."
  "Pede um combinado variado ou faz temaki em casa - é mais fácil do que parece!".
Definition dinner_generic := sug "Escolhe algo que te faça sentir bem."
  "Um prato que gostes, feito com calma. A comida também é autocuidado.".

Definition movie_comedy := sug "O dia está bom! Continua com algo leve e divertido."
  "Uma comédia romântica ou um stand-up comedy. Rir faz sempre bem!".
Definition movie_drama := sug "Às vezes precisamos de algo que nos faça sentir compreendidos."
  "Um drama emocional pode ajudar a processar o dia. Escolhe algo que ressoe contigo.".
Definition movie_action := sug "Ação para desligar a mente!"
  "Um filme de ação ou aventura para te transportar para outro mundo.".
Definition movie_romance := sug "Romance para aquecer o coração."
  "Um romance que te faça acreditar no amor e nas conexões humanas.".
Definition movie_generic := sug "Escolhe algo que te apeteça ver."
  "Segue a tua intuição. O melhor filme é aquele que te chama agora.".

Definition create_no_music := sug "Criar é uma forma poderosa de expressar o que sentes."
  "Escreve, desenha, fotografa... deixa a criatividade fluir sem julgamento.".
Definition create_pop := sug_prompt "Canaliza esta energia positiva para criar!"
  "Cria algo alegre e dançante."
  "Cria uma música pop alegre e dançante, com batida contagiante, sobre aproveitar os bons momentos da vida".
Definition create_gospel := sug_prompt "A música pode ser cura e esperança."
  "Cria algo que te reconforte espiritualmente."
  "Cria uma música gospel reconfortante e esperançosa, com mensagem de fé e superação".
Definition create_kizomba := sug_prompt "Deixa o ritmo guiar as tuas emoções."
  "Cria algo sensual e envolvente."
  "Cria uma kizomba suave e sensual, com batida envolvente, sobre conexão e sentimentos".
Definition create_generic := sug_prompt "Expressa o que sentes através da música."
  "Cria algo autêntico, que reflita o teu momento atual."
  "Cria uma música que expresse os sentimentos de hoje, autêntica e pessoal".

Definition advice_great := act "O dia está ótimo! Aproveita este momento."
  "Guarda esta sensação. Lembra-te dela nos dias mais difíceis.".
Definition advice_normal := act "Está a ser um dia normal, e isso é perfeitamente ok."
  "Faz uma pausa, respira fundo e reconhece o que já conquistaste hoje.".
Definition advice_hard := act "Dias difíceis são temporários. Amanhã é um novo começo."
  "Sê gentil contigo. Faz algo pequeno que te traga conforto agora.".

(** The [dinner] closure of [getAfternoonSuggestion]. *)
Definition dinner_suggestion (profile : UserProfile) (rating : Z) : AIResponse :=
  let foods := foodPreferences profile in
  let isGoodDay := (rating >=? 6)%Z in
  if includes "saudável" foods && isGoodDay then dinner_healthy
  else if includes "fast food" foods && negb isGoodDay then dinner_comfort
  else if includes "massa" foods then dinner_pasta
  else if includes "sushi" foods then dinner_sushi
  else dinner_generic.

(** The [movie] closure. *)
Definition movie_suggestion (profile : UserProfile) (rating : Z) : AIResponse :=
  let genres := movieGenres profile in
  let isGoodDay := (rating >=? 6)%Z in
  if isGoodDay && includes "comédia" genres then movie_comedy
  else if negb isGoodDay && includes "drama" genres then movie_drama
  else if includes "ação" genres then movie_action
  else if includes "romance" genres then movie_romance
  else movie_generic.

(** The [create] closure: the early return when the user does not want
    music prompts, then the rule chain over the music styles. *)
Definition create_suggestion (profile : UserProfile) (rating : Z) : AIResponse :=
  if negb (wantsSunoPrompts profile) then create_no_music else
  let styles := musicStyles profile in
  let isGoodDay := (rating >=? 6)%Z in
  if isGoodDay && includes "pop" styles then create_pop
  else if negb isGoodDay && includes "gospel" styles then create_gospel
  else if includes "kizomba" styles then create_kizomba
  else create_generic.

(** The [advice] closure: three tiers on the rating. *)
Definition advice_suggestion (rating : Z) : AIResponse :=
  if (rating >=? 8)%Z then advice_great
  else if (rating >=? 5)%Z then advice_normal
  else advice_hard.

(** [suggestions[concern](dayRating)]. *)
Definition getAfternoonSuggestion (c : ConcernType) (dayRating : Z) (profile : UserProfile)
    : AIResponse :=
  match c with
  | Dinner => dinner_suggestion profile dayRating
  | Movie => movie_suggestion profile dayRating
  | Create => create_suggestion profile dayRating
  | Advice => advice_suggestion dayRating
  end.

End Afternoon.

Module Night.

(** [reflections[dayComparison][key]]: a [Record<string, AIResponse>] per
    comparison, defined at the keys ['yes'] and ['no'] only. *)
Definition reflections (dc : DayRatingType) (key : string) : option AIResponse :=
  let r a c := Some (mkAIResponse a (Some c) None None) in
  match dc, key with
  | Better, "yes" => r "Que dia incrível! Fizeste bem por ti e o dia superou as expectativas. Celebra estas vitórias, por mais pequenas que pareçam."
      "Antes de dormir, escreve 3 coisas boas que aconteceram hoje. Vais dormir com o coração mais leve."
  | Better, "no" => r "O dia foi melhor que esperavas, mas sentes que podias ter feito mais por ti. Está tudo bem. Amanhã é uma nova oportunidade."
      "Perdoa-te. Reconhece o que correu bem e descansa. Amanhã cuidas melhor de ti."
  | Same, "yes" => r "O dia foi como esperavas e ainda assim cuidaste de ti. Isso é consistência e merece reconhecimento."
      "A consistência constrói grandes mudanças. Continua assim, um dia de cada vez."
  | Same, "no" => r "Foi um dia normal, mas sentes que te esqueceste de ti. Acontece a todos nós."
      "Faz algo pequeno por ti agora: um chá, uma música que gostes, 5 minutos de silêncio. Conta como autocuidado."
  | Worse, "yes" => r "O dia foi difícil, mas fizeste algo bom por ti. Isso mostra força e autocuidado mesmo na adversidade."
      "Orgulha-te de teres cuidado de ti num dia difícil. Isso é coragem. Descansa agora."
  | Worse, "no" => r "Foi um dia difícil e sentes que não cuidaste de ti. Respira. Estás a fazer o melhor que podes."
      "Amanhã é um novo dia. Por agora, descansa. O simples facto de chegares ao fim do dia já é uma vitória."
  | _, _ => None
  end.

Definition calmPrompt : string :=
  "Cria uma música calma e introspectiva para relaxar antes de dormir, estilo ambient/lo-fi".

(** [None] is the [TypeError] of [response.sunoPrompt = ...] or of
    returning [undefined] where an [AIResponse] is promised. *)
Definition getNightReflection (dc : DayRatingType) (didSomethingGood : bool)
    (profile : UserProfile) : option AIResponse :=
  let key := if didSomethingGood then "yes" else "no" in
  match reflections dc key with
  | None => None
  | Some response =>
      if wantsSunoPrompts profile && (0 <? List.length (musicStyles profile))%nat
      then Some (Morning.set_sunoPrompt response calmPrompt)
      else Some response
  end.

End Night.

(** ** Properties of the advice engine *)

Import Morning Afternoon Night.

(** The guard of the night music prompt. *)
Lemma night_guard_spec p :
  wantsSunoPrompts p && (0 <? List.length (musicStyles p))%nat = true <->
  wantsSunoPrompts p = true /\ musicStyles p <> [].
Proof.
  destruct (wantsSunoPrompts p), (musicStyles p); cbn;
    intuition (try discriminate; try congruence).
Qed.

Lemma set_sunoPrompt_fields r s :
  advice (set_sunoPrompt r s) = advice r /\ action (set_sunoPrompt r s) = action r /\
  suggestion (set_sunoPrompt r s) = suggestion r /\ sunoPrompt (set_sunoPrompt r s) = Some s.
Proof. done. Qed.

(** The text of a night reflection does not depend on the profile. *)
Lemma getNightReflection_advice dc did p :
  option_map advice (getNightReflection dc did p) =
  option_map advice (reflections dc (if did then "yes" else "no")).
Proof.
  unfold getNightReflection. destruct (reflections _ _); [|done].
  by destruct (_ && _).
Qed.

(** The night table is defined at both keys the handler uses. *)
Lemma getNightReflection_some dc did p : exists r, getNightReflection dc did p = Some r.
Proof.
  unfold getNightReflection. destruct dc, did; cbn; destruct (_ && _); eauto.
Qed.

(** The tactic that closes the case analyses of the afternoon closures:
    unfold the closure, split on every membership and threshold test, and
    let the distinct string literals and [lia] settle each branch. *)
Ltac afternoon_cases :=
  rewrite <- ?includes_In, ?includes_false;
  unfold getAfternoonSuggestion, dinner_suggestion, movie_suggestion,
    create_suggestion, advice_suggestion;
  case_includes; case_Zcmp;
  repeat match goal with
  | |- context [wantsSunoPrompts ?p] => destruct (wantsSunoPrompts p)
  end; cbn [andb negb];
  intuition (try discriminate; try congruence; try lia).

(** C2. The morning music prompt is attached exactly when the profile
    asks for music prompts, and its text depends on the mood only, never
    on the priority. *)
Theorem getMorningAdvice_sunoPrompt m p profile :
  sunoPrompt (getMorningAdvice m p profile) =
  if wantsSunoPrompts profile then Some (sunoPrompts m) else None.
Proof.
  unfold getMorningAdvice. destruct (wantsSunoPrompts profile); [done|].
  by destruct m, p.
Qed.

(** Totality of the morning table: for each of the 4 x 5 (mood,
    priority) pairs the response carries a non-empty advice and a
    non-empty action, the profile does not change them, and no morning
    response carries a suggestion. *)
Theorem getMorningAdvice_total m p profile :
  let r := getMorningAdvice m p profile in
  advice r = advice (adviceMap m p) /\ action r = action (adviceMap m p) /\
  advice r <> "" /\ (exists a, action r = Some a /\ a <> "") /\ suggestion r = None.
Proof.
  unfold getMorningAdvice. destruct (wantsSunoPrompts profile);
    destruct m, p; cbn; repeat split; try discriminate; eexists; split; done.
Qed.

(** The morning table has no repeated entry: two (mood, priority)
    pairs with the same advice text are the same pair. *)
Theorem adviceMap_injective m1 p1 m2 p2 :
  advice (adviceMap m1 p1) = advice (adviceMap m2 p2) -> m1 = m2 /\ p1 = p2.
Proof. destruct m1, p1, m2, p2; cbn; intros H; try discriminate H; done. Qed.

(** C3. Rule order of the dinner chain: with "saudável" among the food
    preferences and a rating of at least 6 the healthy suggestion is
    given, whatever else the profile holds. *)
Theorem dinner_healthy_first rating profile :
  In "saudável" (foodPreferences profile) -> (6 <= rating)%Z ->
  getAfternoonSuggestion Dinner rating profile = dinner_healthy.
Proof. afternoon_cases. Qed.

(** C14. The comfort-food suggestion is given exactly on a bad day (rating
    below 6) to a profile that lists "fast food". *)
Theorem dinner_comfort_iff rating profile :
  getAfternoonSuggestion Dinner rating profile = dinner_comfort <->
  In "fast food" (foodPreferences profile) /\ (rating < 6)%Z.
Proof. afternoon_cases. Qed.

(** C15. The movie chain mirrors the dinner chain: the comedy suggestion
    is given exactly on a good day (rating at least 6) to a profile that
    lists "comédia", and the drama suggestion exactly on a bad day to a
    profile that lists "drama". *)
Theorem movie_threshold_rules rating profile :
  (getAfternoonSuggestion Movie rating profile = movie_comedy <->
     In "comédia" (movieGenres profile) /\ (6 <= rating)%Z) /\
  (getAfternoonSuggestion Movie rating profile = movie_drama <->
     In "drama" (movieGenres profile) /\ (rating < 6)%Z).
Proof. afternoon_cases. Qed.

(** C4. The [advice] concern has three tiers on the rating: 8 and above
    celebrates, 5 to 7 affirms (5 included), below 5 consoles; the
    profile plays no part. *)
Theorem advice_tiers rating profile :
  ((8 <= rating)%Z -> getAfternoonSuggestion Advice rating profile = advice_great) /\
  ((5 <= rating < 8)%Z -> getAfternoonSuggestion Advice rating profile = advice_normal) /\
  ((rating < 5)%Z -> getAfternoonSuggestion Advice rating profile = advice_hard).
Proof. afternoon_cases. Qed.

(** C13. An afternoon response carries a music prompt exactly when the
    concern is [create] and the profile asks for music prompts: every
    branch of the [create] chain attaches one, no other concern does. *)
Theorem afternoon_sunoPrompt c rating profile :
  is_Some (sunoPrompt (getAfternoonSuggestion c rating profile)) <->
  c = Create /\ wantsSunoPrompts profile = true.
Proof.
  destruct c; afternoon_cases; cbn in *;
    match goal with H : is_Some None |- _ => by destruct H | _ => eauto end.
Qed.

(** Shape of an afternoon response: its advice is never empty; the
    [advice] concern answers with an action and no suggestion, every other
    concern with a suggestion and no action. *)
Theorem afternoon_shape c rating profile :
  let r := getAfternoonSuggestion c rating profile in
  advice r <> "" /\
  (c = Advice -> is_Some (action r) /\ suggestion r = None) /\
  (c <> Advice -> action r = None /\ is_Some (suggestion r)).
Proof.
  destruct c; afternoon_cases; cbn; eauto; try discriminate;
    match goal with H : ?c <> ?c |- _ => by destruct H | _ => idtac end.
Qed.

(** C5. The night lookup never fails: for each of the 3 x 2 (comparison,
    self-care) pairs there is a response with a non-empty advice and an
    action, the same text for every profile; it carries the one calming
    music prompt exactly when the profile asks for prompts and lists at
    least one music style, and no prompt otherwise. *)
Theorem getNightReflection_total dc did profile :
  exists r, getNightReflection dc did profile = Some r /\
    advice r <> "" /\ is_Some (action r) /\ suggestion r = None /\
    (forall profile', option_map advice (getNightReflection dc did profile') = Some (advice r)) /\
    ((sunoPrompt r = Some calmPrompt /\ wantsSunoPrompts profile = true /\ musicStyles profile <> [])
     \/ (sunoPrompt r = None /\ (wantsSunoPrompts profile = false \/ musicStyles profile = []))).
Proof.
  pose proof (night_guard_spec profile) as G.
  setoid_rewrite getNightReflection_advice.
  unfold getNightReflection.
  destruct dc, did; cbn;
    destruct (wantsSunoPrompts profile && _) eqn:E; eexists; split; try reflexivity; cbn;
    (split; [discriminate|]); (split; [eauto|]); (split; [done|]); (split; [done|]);
    destruct G as [G1 G2];
    destruct (wantsSunoPrompts profile), (musicStyles profile); naive_solver.
Qed.

(** ** Witnesses *)

Lemma adviceMap_injective_witness :
  advice (adviceMap Motivated Health) = advice (adviceMap Motivated Health) /\
  Motivated = Motivated /\ Health = Health.
Proof.
  split; [reflexivity|]. apply (adviceMap_injective Motivated Health Motivated Health).
  reflexivity.
Defined.

(** The rule-order example of the specification: a rating of 8 and both
    "saudável" and "fast food" among the food preferences. *)
Lemma dinner_healthy_first_witness :
  let p := sample_profile ["saudável"; "fast food"] [] [] false in
  In "saudável" (foodPreferences p) /\ (6 <= 8)%Z /\
  getAfternoonSuggestion Dinner 8 p = dinner_healthy.
Proof.
  split; [simpl; auto|]. split; [lia|].
  apply (dinner_healthy_first 8); [simpl; auto | lia].
Defined.
