(* ===== verification/Storage.v ===== *)
(** * Storage: the local persistence layer of [src/src/lib/storage.ts]

    [localStorage] is a map from keys to stored values.  The source writes
    [JSON.stringify(x)] and reads back [JSON.parse(data)]; the model keeps
    the value itself, tagged with what was serialised ([StoredValue]), so
    that [JSON.parse (JSON.stringify x) = x] holds by construction (the
    timestamps are numbers here, so the Date-to-string change of a real
    round trip does not arise).  The [typeof window !== 'undefined'] guard
    of every operation is the [window_defined] flag of the environment:
    during server rendering the writes do nothing and the reads return
    [null], [[]] or [false]. *)

From stdpp Require Import base list strings gmap.
From Stdlib Require Import String ZArith Lia.
From S2P Require Import Prelude Types.
Open Scope string_scope.

(** What [JSON.stringify] wrote under a key. *)
Inductive StoredValue :=
  | SVProfile (p : UserProfile)
  | SVInteractions (l : list DailyInteraction)
  | SVString (s : string).

Record Env := mkEnv {
  window_defined : bool;
  localStorage : gmap string StoredValue
}.

(** [STORAGE_KEYS]. *)
Definition USER_PROFILE := "3momentos_user_profile".
Definition DAILY_INTERACTIONS := "3momentos_daily_interactions".
Definition ONBOARDING_COMPLETE := "3momentos_onboarding_complete".

Definition with_storage (env : Env) (ls : gmap string StoredValue) : Env :=
  mkEnv (window_defined env) ls.

Definition saveUserProfile (profile : UserProfile) (env : Env) : Env :=
  if window_defined env then
    with_storage env (<[ONBOARDING_COMPLETE := SVString "true"]>
                        (<[USER_PROFILE := SVProfile profile]> (localStorage env)))
  else env.

(** [data ? JSON.parse(data) : null]: a value written under the key by
    another writer than [saveUserProfile] would not parse to a profile;
    [storage_wf] below shows that no such value is ever there. *)
Definition getUserProfile (env : Env) : option UserProfile :=
  if window_defined env then
    match localStorage env !! USER_PROFILE with
    | Some (SVProfile p) => Some p
    | _ => None
    end
  else None.

Definition isOnboardingComplete (env : Env) : bool :=
  if window_defined env then
    match localStorage env !! ONBOARDING_COMPLETE with
    | Some (SVString s) => String.eqb s "true"
    | _ => false
    end
  else false.

Definition getDailyInteractions (env : Env) : list DailyInteraction :=
  if window_defined env then
    match localStorage env !! DAILY_INTERACTIONS with
    | Some (SVInteractions l) => l
    | _ => []
    end
  else [].

(** [(i) => i.date === date && i.userId === userId]. *)
Definition same_day (date_ userId_ : string) (i : DailyInteraction) : bool :=
  String.eqb (date i) date_ && String.eqb (userId i) userId_.

(** [{ ...old, ...interaction }]: every field present in the new record
    overrides; [userId] and [date] are always present. *)
Definition merge_interaction (old upd : DailyInteraction) : DailyInteraction :=
  mkDailyInteraction (interaction_id old ⊕ interaction_id upd) (userId upd) (date upd)
    (morning old ⊕ morning upd) (afternoon old ⊕ afternoon upd) (night old ⊕ night upd).

(** The new array [saveDailyInteraction] writes back: the record merged
    in place at [existingIndex], or pushed at the end. *)
Definition upsertInteraction (interaction : DailyInteraction) (interactions : list DailyInteraction)
    : list DailyInteraction :=
  let existingIndex :=
    findIndex (same_day (date interaction) (userId interaction)) interactions in
  if (existingIndex >=? 0)%Z then
    alter (fun old => merge_interaction old interaction) (Z.to_nat existingIndex) interactions
  else (interactions ++ [interaction])%list.

(** The upsert read as a plain recursion over the log: merge into the
    first record of the same user and day, or append at the end. *)
Fixpoint upsert_ref (interaction : DailyInteraction) (l : list DailyInteraction)
    : list DailyInteraction :=
  match l with
  | [] => [interaction]
  | x :: l' =>
      if same_day (date interaction) (userId interaction) x
      then merge_interaction x interaction :: l'
      else x :: upsert_ref interaction l'
  end.

Definition saveDailyInteraction (interaction : DailyInteraction) (env : Env) : Env :=
  if window_defined env then
    let interactions := getDailyInteractions env in
    with_storage env (<[DAILY_INTERACTIONS := SVInteractions (upsertInteraction interaction interactions)]>
                        (localStorage env))
  else env.

(** [today] is [new Date().toISOString().split('T')[0]], passed in. *)
Definition getTodayInteraction (userId_ today : string) (env : Env) : option DailyInteraction :=
  find (same_day today userId_) (getDailyInteractions env).

Definition clearAllData (env : Env) : Env :=
  if window_defined env then
    with_storage env (delete ONBOARDING_COMPLETE (delete DAILY_INTERACTIONS
                        (delete USER_PROFILE (localStorage env))))
  else env.

(** ** The invariant of the store and the operations that act on it *)

Definition interaction_key (i : DailyInteraction) : string * string := (userId i, date i).

(** Each key holds what its writer serialised; the onboarding flag is
    never set without a profile; no two daily records share a
    (user, date) pair. *)
Definition storage_inv (env : Env) : Prop :=
  (forall v, localStorage env !! USER_PROFILE = Some v -> exists p, v = SVProfile p) /\
  (forall v, localStorage env !! DAILY_INTERACTIONS = Some v -> exists l, v = SVInteractions l) /\
  (forall v, localStorage env !! ONBOARDING_COMPLETE = Some v -> exists s, v = SVString s) /\
  (isOnboardingComplete env = true -> is_Some (getUserProfile env)) /\
  NoDup (map interaction_key (getDailyInteractions env)).

(** The calls the pages make on the store. *)
Inductive storage_step : Env -> Env -> Prop :=
  | step_saveUserProfile p env : storage_step env (saveUserProfile p env)
  | step_saveDailyInteraction i env : storage_step env (saveDailyInteraction i env)
  | step_clearAllData env : storage_step env (clearAllData env).

Definition initial_env (window : bool) : Env := mkEnv window ∅.

Inductive reachable : Env -> Prop :=
  | reachable_init w : reachable (initial_env w)
  | reachable_step env env' : reachable env -> storage_step env env' -> reachable env'.

(** What a page handler leaves: the page state, the store, and the route
    given to [router.push], if any. *)
Record PageOutcome (S : Type) := mkPageOutcome {
  po_state : S;
  po_env : Env;
  po_nav : option string
}.
Arguments mkPageOutcome {S}.
Arguments po_state {S}.
Arguments po_env {S}.
Arguments po_nav {S}.

(** The two [new Date()] reads of a page handler:
    [toISOString().split('T')[0]] and the time value of the timestamp. *)
Record Clock := mkClock { today : string; now : Z }.

(** [profile.id || 'user'], the user id every page saves under. *)
Definition page_userId (p : UserProfile) : string :=
  match id p with Some s => if String.eqb s "" then "user" else s | None => "user" end.

(** ** Properties of the store *)

Lemma same_day_refl i : same_day (date i) (userId i) i = true.
Proof. unfold same_day. by rewrite !String.eqb_refl. Qed.

Lemma same_day_merge d u o i : same_day d u (merge_interaction o i) = same_day d u i.
Proof. done. Qed.

Lemma same_day_key d u x : same_day d u x = true <-> interaction_key x = (u, d).
Proof.
  unfold same_day, interaction_key. rewrite andb_true_iff, !String.eqb_eq.
  split; [intros [-> ->]; done | intros [= -> ->]; done].
Qed.

Lemma getDailyInteractions_save i env :
  window_defined env = true ->
  getDailyInteractions (saveDailyInteraction i env) = upsertInteraction i (getDailyInteractions env).
Proof.
  intros W. unfold saveDailyInteraction. rewrite W.
  unfold getDailyInteractions at 1. cbn. rewrite W, lookup_insert_eq. done.
Qed.

(** The record [saveDailyInteraction] leaves for the key of [i]. *)
Lemma find_save_same i l :
  find (same_day (date i) (userId i)) (upsertInteraction i l) =
  Some (match find (same_day (date i) (userId i)) l with
        | Some o => merge_interaction o i | None => i end).
Proof.
  unfold upsertInteraction. cbn zeta.
  destruct (find _ l) as [o|] eqn:F.
  - assert (H0 : (0 <= findIndex (same_day (date i) (userId i)) l)%Z).
    { destruct (Z.le_gt_cases 0 (findIndex (same_day (date i) (userId i)) l)) as [|H];
        [done|apply findIndex_neg in H; congruence]. }
    case_Zcmp; [|lia].
    apply (find_alter_found _ (fun old => merge_interaction old i)); [done|done|].
    rewrite same_day_merge. apply same_day_refl.
  - assert (H0 : (findIndex (same_day (date i) (userId i)) l < 0)%Z) by now apply findIndex_neg.
    case_Zcmp; [lia|]. rewrite find_app_single, F, same_day_refl. done.
Qed.

Lemma today_after_save i env :
  window_defined env = true ->
  getTodayInteraction (userId i) (date i) (saveDailyInteraction i env) =
  Some (match getTodayInteraction (userId i) (date i) env with
        | Some o => merge_interaction o i
        | None => i
        end).
Proof.
  intros W. unfold getTodayInteraction. rewrite getDailyInteractions_save by done.
  apply find_save_same.
Qed.

Lemma upsert_ref_eq i l : upsertInteraction i l = upsert_ref i l.
Proof.
  unfold upsertInteraction. induction l as [|x l IH]; [done|]. cbn [findIndex upsert_ref].
  destruct (same_day (date i) (userId i) x); [done|].
  revert IH. set (j := findIndex _ l). intros IH.
  destruct (Z.geb_spec j 0) as [Hj|Hj]; destruct (Z.ltb_spec j 0); try lia.
  - destruct (Z.geb_spec (j + 1) 0); [|lia].
    rewrite Z2Nat.inj_add, Nat.add_1_r by lia. cbn. by rewrite IH.
  - cbn. by rewrite <- IH.
Qed.

(** C6. Upsert then lookup: after [saveDailyInteraction i], today's
    record of [i]'s user and date is [i] merged into the record that was
    there ([{ ...old, ...i }]), or [i] itself if there was none. *)
Theorem saveDailyInteraction_today i env :
  window_defined env = true ->
  getTodayInteraction (userId i) (date i) (saveDailyInteraction i env) =
  Some (match getTodayInteraction (userId i) (date i) env with
        | Some o => merge_interaction o i
        | None => i
        end).
Proof. apply today_after_save. Qed.

Lemma today_other_after_save i u d env :
  (u, d) <> interaction_key i ->
  getTodayInteraction u d (saveDailyInteraction i env) = getTodayInteraction u d env.
Proof.
  intros Hne. destruct (window_defined env) eqn:W;
    [|by unfold saveDailyInteraction; rewrite W].
  unfold getTodayInteraction. rewrite getDailyInteractions_save by done. unfold upsertInteraction. cbn zeta.
  set (l := getDailyInteractions env). set (p := same_day (date i) (userId i)).
  assert (Hq : forall y, interaction_key y = interaction_key i -> same_day d u y = false).
  { intros y Hy. apply not_true_is_false. rewrite same_day_key. congruence. }
  destruct (find p l) as [x|] eqn:F.
  - assert (H0 : (0 <= findIndex p l)%Z).
    { destruct (Z.le_gt_cases 0 (findIndex p l)) as [|H];
        [done|apply findIndex_neg in H; congruence]. }
    destruct (findIndex_nonneg p l _ eq_refl H0) as (x' & Hx & Px & Fx).
    rewrite F in Fx. injection Fx as <-.
    case_Zcmp; [|lia]. apply (find_alter_other _ _ _ _ x); [done| |].
    + apply Hq. by apply same_day_key in Px.
    + rewrite same_day_merge. apply Hq. done.
  - assert (H0 : (findIndex p l < 0)%Z) by now apply findIndex_neg.
    case_Zcmp; [lia|]. rewrite find_app_single, Hq by done.
    by destruct (find (same_day d u) l).
Qed.

(** C25. Saving a record never changes the record of another (user, date)
    pair. *)
Theorem saveDailyInteraction_other i u d env :
  (u, d) <> interaction_key i ->
  getTodayInteraction u d (saveDailyInteraction i env) = getTodayInteraction u d env.
Proof. apply today_other_after_save. Qed.

(** No two records of the log share a (user, date) pair after an upsert
    if none did before. *)
Lemma saveDailyInteraction_NoDup i env :
  NoDup (map interaction_key (getDailyInteractions env)) ->
  NoDup (map interaction_key (getDailyInteractions (saveDailyInteraction i env))).
Proof.
  intros Hnd. destruct (window_defined env) eqn:W;
    [|by unfold saveDailyInteraction; rewrite W].
  rewrite getDailyInteractions_save by done. unfold upsertInteraction. cbn zeta.
  set (l := getDailyInteractions env) in *. set (p := same_day (date i) (userId i)).
  destruct (find p l) as [x|] eqn:F.
  - assert (H0 : (0 <= findIndex p l)%Z).
    { destruct (Z.le_gt_cases 0 (findIndex p l)) as [|H];
        [done|apply findIndex_neg in H; congruence]. }
    destruct (findIndex_nonneg p l _ eq_refl H0) as (x' & Hx & Px & _).
    case_Zcmp; [|lia]. rewrite (map_alter_key _ _ _ _ x' Hx); [done|].
    apply same_day_key in Px. done.
  - assert (H0 : (findIndex p l < 0)%Z) by now apply findIndex_neg.
    case_Zcmp; [lia|]. rewrite map_app. apply NoDup_app.
    split; [done|]. split; [|apply NoDup_singleton].
    intros k Hk Hk2. apply list_elem_of_In in Hk, Hk2. destruct Hk2 as [<-|[]].
    apply in_map_iff in Hk as (y & Hy & Hin).
    pose proof (find_none _ _ F y Hin) as Hy'. apply not_true_iff_false in Hy'.
    apply Hy', same_day_key. done.
Qed.

(** The three keys are distinct, so a write under one leaves the others. *)
Ltac storage_simpl :=
  unfold USER_PROFILE, DAILY_INTERACTIONS, ONBOARDING_COMPLETE in *;
  cbn [localStorage window_defined with_storage] in *;
  simplify_map_eq.

(** What the loaders read after [saveUserProfile]. *)
Lemma saveUserProfile_reads p env :
  window_defined env = true ->
  getUserProfile (saveUserProfile p env) = Some p /\
  isOnboardingComplete (saveUserProfile p env) = true /\
  getDailyInteractions (saveUserProfile p env) = getDailyInteractions env.
Proof.
  intros W. unfold getUserProfile, isOnboardingComplete, getDailyInteractions,
    saveUserProfile. rewrite W. storage_simpl. rewrite W. done.
Qed.

(** [saveUserProfile] then the loaders: the profile reads back, the
    onboarding flag reads [true], and the daily log is untouched. *)
Theorem saveUserProfile_roundtrip p env :
  window_defined env = true ->
  getUserProfile (saveUserProfile p env) = Some p /\
  isOnboardingComplete (saveUserProfile p env) = true /\
  getDailyInteractions (saveUserProfile p env) = getDailyInteractions env.
Proof. apply saveUserProfile_reads. Qed.

(** What the loaders read after [clearAllData]. *)
Lemma clearAllData_reads env :
  getUserProfile (clearAllData env) = None /\
  isOnboardingComplete (clearAllData env) = false /\
  getDailyInteractions (clearAllData env) = [].
Proof.
  unfold getUserProfile, isOnboardingComplete, getDailyInteractions, clearAllData.
  destruct (window_defined env) eqn:W; rewrite ?W; storage_simpl; rewrite ?W; done.
Qed.

(** After [clearAllData] there is no profile, the onboarding is not
    complete and the daily log is empty, with or without a window. *)
Theorem clearAllData_empty env :
  getUserProfile (clearAllData env) = None /\
  isOnboardingComplete (clearAllData env) = false /\
  getDailyInteractions (clearAllData env) = [].
Proof. apply clearAllData_reads. Qed.

Lemma saveUserProfile_inv p env : storage_inv env -> storage_inv (saveUserProfile p env).
Proof.
  intros (H1 & H2 & H3 & H4 & H5). destruct (window_defined env) eqn:W;
    [|unfold saveUserProfile; rewrite W; by repeat split].
  destruct (saveUserProfile_reads p env W) as (G1 & _ & G3).
  split_and!; [| | |by rewrite G1|by rewrite G3];
    unfold saveUserProfile; rewrite W; intros v Hv; storage_simpl; eauto.
Qed.

Lemma saveDailyInteraction_inv i env : storage_inv env -> storage_inv (saveDailyInteraction i env).
Proof.
  intros (H1 & H2 & H3 & H4 & H5).
  split_and!; [| | | |by apply saveDailyInteraction_NoDup];
    unfold saveDailyInteraction, getUserProfile, isOnboardingComplete in *;
    destruct (window_defined env) eqn:W; rewrite ?W in *; try done;
    try (intros v Hv); storage_simpl; rewrite ?W; eauto.
Qed.

Lemma clearAllData_inv env : storage_inv env -> storage_inv (clearAllData env).
Proof.
  intros (H1 & H2 & H3 & H4 & H5). destruct (clearAllData_reads env) as (G1 & G2 & G3).
  split_and!; [| | |by rewrite G2|rewrite G3; constructor];
    unfold clearAllData; destruct (window_defined env) eqn:W; try done;
    intros v Hv; storage_simpl.
Qed.

#[export] Hint Resolve saveUserProfile_inv saveDailyInteraction_inv clearAllData_inv : momentos.

Lemma initial_env_inv w : storage_inv (initial_env w).
Proof.
  unfold storage_inv, initial_env, isOnboardingComplete, getDailyInteractions.
  destruct w; cbn; split_and!; try (intros v Hv; by rewrite lookup_empty in Hv);
    try done; constructor.
Qed.

Lemma reachable_inv_storage env : reachable env -> storage_inv env.
Proof.
  induction 1 as [w|env env' _ IH Hstep]; [apply initial_env_inv|].
  destruct Hstep; eauto with momentos.
Qed.

(** C7. Every store the pages can produce from an empty one satisfies
    [storage_inv]: each key holds what its writer serialised, the
    onboarding flag implies a stored profile, and the daily log has at
    most one record per (user, date) pair. *)
Theorem reachable_storage_inv env : reachable env -> storage_inv env.
Proof. apply reachable_inv_storage. Qed.

(** C23. The [findIndex] / in-place update / [push] of
    [saveDailyInteraction] is the plain recursive upsert: the new record is
    merged into the first record of its user and day, every other record
    keeps its place, and a record of a new day goes at the end. *)
Theorem upsertInteraction_ref i l : upsertInteraction i l = upsert_ref i l.
Proof. apply upsert_ref_eq. Qed.

(** ** Witnesses *)

Lemma saveDailyInteraction_today_witness :
  window_defined (initial_env true) = true /\
  getTodayInteraction "user" "2026-11-09"
    (saveDailyInteraction (mkDailyInteraction None "user" "2026-11-09" None None None)
       (initial_env true)) =
  Some (mkDailyInteraction None "user" "2026-11-09" None None None).
Proof.
  split; [reflexivity|].
  exact (saveDailyInteraction_today (mkDailyInteraction None "user" "2026-11-09" None None None)
           (initial_env true) eq_refl).
Defined.

Lemma saveDailyInteraction_other_witness :
  ("user", "2026-11-08") <> interaction_key (mkDailyInteraction None "user" "2026-11-09" None None None) /\
  getTodayInteraction "user" "2026-11-08"
    (saveDailyInteraction (mkDailyInteraction None "user" "2026-11-09" None None None)
       (initial_env true)) =
  getTodayInteraction "user" "2026-11-08" (initial_env true).
Proof.
  split; [discriminate|].
  apply saveDailyInteraction_other. discriminate.
Defined.

Lemma saveUserProfile_roundtrip_witness :
  window_defined (initial_env true) = true /\
  getUserProfile (saveUserProfile (sample_profile [] [] [] false) (initial_env true)) =
    Some (sample_profile [] [] [] false) /\
  isOnboardingComplete (saveUserProfile (sample_profile [] [] [] false) (initial_env true)) = true /\
  getDailyInteractions (saveUserProfile (sample_profile [] [] [] false) (initial_env true)) =
    getDailyInteractions (initial_env true).
Proof.
  split; [reflexivity|].
  exact (saveUserProfile_roundtrip (sample_profile [] [] [] false) (initial_env true) eq_refl).
Defined.

Lemma reachable_storage_inv_witness :
  reachable (saveDailyInteraction (mkDailyInteraction None "user" "2026-11-09" None None None)
               (saveUserProfile (sample_profile [] [] [] false) (initial_env true))) /\
  storage_inv (saveDailyInteraction (mkDailyInteraction None "user" "2026-11-09" None None None)
               (saveUserProfile (sample_profile [] [] [] false) (initial_env true))).
Proof.
  assert (R : reachable (saveDailyInteraction (mkDailyInteraction None "user" "2026-11-09" None None None)
               (saveUserProfile (sample_profile [] [] [] false) (initial_env true)))).
  { eapply reachable_step; [eapply reachable_step; [apply reachable_init|]|]; constructor. }
  split; [exact R|]. apply reachable_storage_inv. exact R.
Defined.
