(* ===== verification/DailyLog.v ===== *)
(** * DailyLog: the daily interaction log as an interface

    The pages use the store through two calls: [saveDailyInteraction] and
    [getTodayInteraction].  [InteractionLog] states what the pages rely on
    ([log_save_today], [log_save_other]); [browser_log] discharges it with
    the [Storage] model of [localStorage] in a browser (the [window] guard
    holds).  The specification describes the log as "a mapping keyed by
    (userId, date) with an upsert operation that shallow-merges partial
    records"; [abs_save] is that mapping, [log_refines] shows that any
    implementation of the interface simulates it, and
    [browser_log_refines] states it of the code: [getTodayInteraction]
    after any run of [saveDailyInteraction] from an empty store. *)

From stdpp Require Import base list strings gmap.
From Stdlib Require Import String ZArith.
From S2P Require Import Prelude Types Storage.
Open Scope string_scope.

Class InteractionLog (S : Type) := {
  log_save : DailyInteraction -> S -> S;
  log_today : string -> string -> S -> option DailyInteraction;
  log_save_today i s :
    log_today (userId i) (date i) (log_save i s) =
    Some (match log_today (userId i) (date i) s with
          | Some o => merge_interaction o i | None => i end);
  log_save_other i u d s :
    (u, d) <> interaction_key i -> log_today u d (log_save i s) = log_today u d s
}.

(** The browser's [localStorage], with [window] defined. *)
#[export] Program Instance browser_log : InteractionLog (gmap string StoredValue) := {|
  log_save i ls := localStorage (saveDailyInteraction i (mkEnv true ls));
  log_today u d ls := getTodayInteraction u d (mkEnv true ls)
|}.
Next Obligation.
  intros i ls. exact (today_after_save i (mkEnv true ls) eq_refl).
Qed.
Next Obligation.
  intros i u d ls Hne. exact (today_other_after_save i u d (mkEnv true ls) Hne).
Qed.

(** ** The abstract log of the specification *)

Abbreviation AbsLog := (gmap (string * string) DailyInteraction).

Definition abs_save (i : DailyInteraction) (m : AbsLog) : AbsLog :=
  <[interaction_key i := match m !! interaction_key i with
                         | Some o => merge_interaction o i
                         | None => i end]> m.

Section Refinement.
Context {S : Type} `{InteractionLog S}.

(** The concrete log answers every (user, date) query as the map. *)
Definition log_rel (s : S) (m : AbsLog) : Prop :=
  forall u d, log_today u d s = m !! (u, d).

(** A run of saves, as the pages perform them over a day. *)
Definition save_all (recs : list DailyInteraction) (s : S) : S :=
  fold_left (fun s i => log_save i s) recs s.

Definition abs_save_all (recs : list DailyInteraction) (m : AbsLog) : AbsLog :=
  fold_left (fun m i => abs_save i m) recs m.

Lemma log_rel_save s m i : log_rel s m -> log_rel (log_save i s) (abs_save i m).
Proof.
  intros R u d. unfold abs_save.
  destruct (decide ((u, d) = interaction_key i)) as [E|E].
  - unfold interaction_key in *. injection E as -> ->.
    rewrite log_save_today, lookup_insert_eq, R. done.
  - rewrite log_save_other by done. rewrite lookup_insert_ne by congruence. apply R.
Qed.

(** Every implementation of the interface, run on any sequence of
    saves, answers each (user, date) query as the specification's map. *)
Lemma log_refines recs s m :
  log_rel s m -> log_rel (save_all recs s) (abs_save_all recs m).
Proof.
  revert s m. induction recs as [|i recs IH]; intros s m R; [done|].
  apply IH, log_rel_save, R.
Qed.

(** The three check-ins of a day accumulate: saving the morning,
    then the afternoon, then the night record of a (user, date) pair
    that had no record leaves one record holding all three moments. *)
Theorem day_accumulates s u d mr ar nr :
  log_today u d s = None ->
  log_today u d (save_all [mkDailyInteraction None u d (Some mr) None None;
                           mkDailyInteraction None u d None (Some ar) None;
                           mkDailyInteraction None u d None None (Some nr)] s) =
  Some (mkDailyInteraction None u d (Some mr) (Some ar) (Some nr)).
Proof.
  intros H0. cbn.
  rewrite (log_save_today (mkDailyInteraction None u d None None (Some nr))). cbn.
  rewrite (log_save_today (mkDailyInteraction None u d None (Some ar) None)). cbn.
  rewrite (log_save_today (mkDailyInteraction None u d (Some mr) None None)). cbn.
  rewrite H0. done.
Qed.
End Refinement.

(** The pages' saves on a browser store: [saveDailyInteraction] run on
    a list of records from the store [mkEnv true ls]. *)
Definition save_run (recs : list DailyInteraction) (env : Env) : Env :=
  fold_left (fun env i => saveDailyInteraction i env) recs env.

Lemma save_run_browser recs ls :
  save_run recs (mkEnv true ls) = mkEnv true (save_all recs ls).
Proof. revert ls. induction recs as [|i recs IH]; intros ls; [done|]. apply IH. Qed.

(** C12. Refinement of the specification's log by the code: from an
    empty [localStorage], after any sequence of [saveDailyInteraction]
    calls, [getTodayInteraction u d] returns exactly what the
    specification's map from (userId, date) to shallow-merged records
    holds for (u, d). *)
Theorem browser_log_refines recs u d :
  getTodayInteraction u d (save_run recs (initial_env true)) = abs_save_all recs ∅ !! (u, d).
Proof.
  unfold initial_env. rewrite save_run_browser.
  refine (log_refines (S := gmap string StoredValue) recs ∅ ∅ _ u d).
  intros u' d'. rewrite lookup_empty. reflexivity.
Qed.

(** ** Witnesses *)

Lemma day_accumulates_witness :
  let mr := mkMorningResponse Motivated Health 0 in
  let ar := mkAfternoonResponse 8 Advice 1 in
  let nr := mkNightResponse Better true None 2 in
  log_today "user" "2026-11-09" (∅ : gmap string StoredValue) = None /\
  log_today "user" "2026-11-09"
    (save_all [mkDailyInteraction None "user" "2026-11-09" (Some mr) None None;
               mkDailyInteraction None "user" "2026-11-09" None (Some ar) None;
               mkDailyInteraction None "user" "2026-11-09" None None (Some nr)]
       (∅ : gmap string StoredValue)) =
    Some (mkDailyInteraction None "user" "2026-11-09" (Some mr) (Some ar) (Some nr)).
Proof.
  intros mr ar nr. split; [reflexivity|].
  apply day_accumulates. reflexivity.
Defined.
