(* ===== verification/OnboardingPage.v ===== *)
(** * OnboardingPage: the five-step profile form of
    [src/src/app/onboarding/page.tsx]

    The React state is [step] and [formData], a [Partial<UserProfile>].
    Fields that the initial [formData] sets (the four lists, the music
    flag and the three times) are plain fields here, since no handler ever
    writes [undefined] to them; the others are options.  The user's
    actions are the events of [OnboardingEvent]; an input is only on
    screen at its own step, and a disabled button ignores clicks, so
    [onboarding_step] accepts an event only where the JSX renders it
    enabled.  [Next] at step 5 saves the profile through [Storage] and
    navigates to ['/'].  [formData as UserProfile] is a cast with no
    run-time check: [as_profile] returns [None] where the object would
    miss a field that [UserProfile] requires.  [onboarding_view] is the
    render: the progress label and percentage, the card of the step with
    its input values, selected sign and checked boxes, and the two
    navigation buttons. *)

From stdpp Require Import base list strings gmap.
From Stdlib Require Import String ZArith Lia.
From S2P Require Import Prelude Types AiResponses Storage.
Import AiResponses.Afternoon.
Open Scope string_scope.

(** ** The option lists rendered by the form *)

Definition ZODIAC_SIGNS : list string :=
  ["Áries"; "Touro"; "Gémeos"; "Caranguejo"; "Leão"; "Virgem";
   "Balança"; "Escorpião"; "Sagitário"; "Capricórnio"; "Aquário"; "Peixes"].

Definition FOOD_PREFERENCES : list string :=
  ["Massa"; "Fast Food"; "Saudável"; "Sushi"; "Grelhados";
   "Vegetariano"; "Doces"; "Comida Caseira"].

Definition MOVIE_GENRES : list string :=
  ["Romance"; "Ação"; "Comédia"; "Drama"; "Terror";
   "Ficção Científica"; "Documentário"; "Animação"].

Definition MUSIC_STYLES : list string :=
  ["Sertanejo"; "Kizomba"; "Pop"; "Gospel"; "Latino";
   "Rock"; "Hip Hop"; "Eletrónica"; "Jazz"; "Clássica"].

Definition MAIN_GOALS : list string :=
  ["Melhorar decisões do dia a dia"; "Reduzir ansiedade";
   "Organizar melhor o dia"; "Ter ideias do que fazer no tempo livre"].

Definition totalSteps : Z := 5.

(** ** State *)

Record FormData := mkFormData {
  fd_name : option string;
  fd_age : option Z;
  fd_gender : option string;
  fd_country : option string;
  fd_timezone : option string;
  fd_zodiacSign : option string;
  fd_foodPreferences : list string;
  fd_movieGenres : list string;
  fd_musicStyles : list string;
  fd_mainGoal : list string;
  fd_wantsSunoPrompts : bool;
  fd_morningTime : string;
  fd_afternoonTime : string;
  fd_nightTime : string
}.

Definition initialFormData : FormData :=
  mkFormData None None None None None None [] [] [] [] false "08:00" "15:00" "21:00".

Record OnboardingState := mkOnboardingState {
  step : Z;
  formData : FormData
}.

Definition initialOnboarding : OnboardingState := mkOnboardingState 1 initialFormData.

(** [toggleArrayItem]: remove every copy of [item] if present, else
    append it. *)
Definition toggleArrayItem (array : list string) (item : string) : list string :=
  if includes item array then List.filter (fun i => negb (String.eqb i item)) array
  else (array ++ [item])%list.

(** A JavaScript string is truthy when it is not empty. *)
Definition truthy_string (s : option string) : bool :=
  match s with Some s => negb (String.eqb s "") | None => false end.

(** [isStepValid] for the step [s]: the [switch] is a chain of strict
    comparisons of [s] with the case labels. *)
Definition isStepValid_at (s : Z) (fd : FormData) : bool :=
  if (s =? 1)%Z then
    truthy_string (fd_name fd) &&
    match fd_age fd with Some a => negb (a =? 0)%Z && (a >? 0)%Z | None => false end
  else if (s =? 2)%Z then
    truthy_string (fd_country fd) && truthy_string (fd_timezone fd) &&
    truthy_string (fd_zodiacSign fd)
  else if (s =? 3)%Z then
    (0 <? List.length (fd_foodPreferences fd))%nat &&
    (0 <? List.length (fd_movieGenres fd))%nat &&
    (0 <? List.length (fd_musicStyles fd))%nat
  else if (s =? 4)%Z then (0 <? List.length (fd_mainGoal fd))%nat
  else if (s =? 5)%Z then true
  else false.

Definition isStepValid (st : OnboardingState) : bool := isStepValid_at (step st) (formData st).

(** [formData as UserProfile]: the object as [saveUserProfile] stores it,
    when it has every field that [UserProfile] requires. *)
Definition as_profile (fd : FormData) : option UserProfile :=
  match fd_name fd, fd_age fd, fd_country fd, fd_timezone fd, fd_zodiacSign fd with
  | Some n, Some a, Some c, Some tz, Some z =>
      Some (mkUserProfile None n a c tz z (fd_gender fd) (fd_foodPreferences fd)
              (fd_movieGenres fd) (fd_musicStyles fd) (fd_wantsSunoPrompts fd)
              (fd_mainGoal fd) (fd_morningTime fd) (fd_afternoonTime fd)
              (fd_nightTime fd) None)
  | _, _, _, _, _ => None
  end.

(** ** Events and handlers *)

Inductive OnboardingEvent :=
  | InputName (s : string)
  | InputAge (parsed : option Z)     (** [parseInt(value)]; [None] is NaN *)
  | InputGender (s : string)
  | InputCountry (s : string)
  | InputTimezone (s : string)
  | PickZodiac (sign : string)
  | ToggleFood (food : string)
  | ToggleMovie (genre : string)
  | ToggleMusic (style : string)
  | ToggleGoal (goal : string)
  | CheckSuno (checked : bool)
  | InputMorningTime (s : string)
  | InputAfternoonTime (s : string)
  | InputNightTime (s : string)
  | ClickNext
  | ClickBack.

(** The [onChange] / [onClick] of each input: [setFormData({...formData,
    field: value})]. *)
Definition update_form (ev : OnboardingEvent) (fd : FormData) : FormData :=
  let '(mkFormData n a g c tz z foods movies music goals suno mt aft nt) := fd in
  match ev with
  | InputName s => mkFormData (Some s) a g c tz z foods movies music goals suno mt aft nt
  | InputAge parsed =>
      (** [parseInt(e.target.value) || 0] *)
      let v := match parsed with Some v => if (v =? 0)%Z then 0%Z else v | None => 0%Z end in
      mkFormData n (Some v) g c tz z foods movies music goals suno mt aft nt
  | InputGender s => mkFormData n a (Some s) c tz z foods movies music goals suno mt aft nt
  | InputCountry s => mkFormData n a g (Some s) tz z foods movies music goals suno mt aft nt
  | InputTimezone s => mkFormData n a g c (Some s) z foods movies music goals suno mt aft nt
  | PickZodiac sign => mkFormData n a g c tz (Some sign) foods movies music goals suno mt aft nt
  | ToggleFood f =>
      mkFormData n a g c tz z (toggleArrayItem foods f) movies music goals suno mt aft nt
  | ToggleMovie m =>
      mkFormData n a g c tz z foods (toggleArrayItem movies m) music goals suno mt aft nt
  | ToggleMusic m =>
      mkFormData n a g c tz z foods movies (toggleArrayItem music m) goals suno mt aft nt
  | ToggleGoal x =>
      mkFormData n a g c tz z foods movies music (toggleArrayItem goals x) suno mt aft nt
  | CheckSuno b => mkFormData n a g c tz z foods movies music goals b mt aft nt
  | InputMorningTime s => mkFormData n a g c tz z foods movies music goals suno s aft nt
  | InputAfternoonTime s => mkFormData n a g c tz z foods movies music goals suno mt s nt
  | InputNightTime s => mkFormData n a g c tz z foods movies music goals suno mt aft s
  | ClickNext | ClickBack => fd
  end.

(** The step whose JSX renders the input ([0] for the two buttons, which
    are always on screen). *)
Definition input_step (ev : OnboardingEvent) : Z :=
  match ev with
  | InputName _ | InputAge _ | InputGender _ => 1
  | InputCountry _ | InputTimezone _ | PickZodiac _ => 2
  | ToggleFood _ | ToggleMovie _ | ToggleMusic _ => 3
  | ToggleGoal _ | CheckSuno _ => 4
  | InputMorningTime _ | InputAfternoonTime _ | InputNightTime _ => 5
  | ClickNext | ClickBack => 0
  end%Z.

(** Whether the event can happen: the input is rendered at the current
    step (the option buttons and check boxes only offer the values of
    their lists), the [Continuar] button is enabled when [isStepValid()],
    the [Voltar] button when the step is not 1. *)
Definition rendered (st : OnboardingState) (ev : OnboardingEvent) : bool :=
  match ev with
  | ClickNext => isStepValid st
  | ClickBack => negb (step st =? 1)%Z
  | PickZodiac sign => (step st =? 2)%Z && includes sign ZODIAC_SIGNS
  | ToggleFood f => (step st =? 3)%Z && includes f FOOD_PREFERENCES
  | ToggleMovie m => (step st =? 3)%Z && includes m MOVIE_GENRES
  | ToggleMusic m => (step st =? 3)%Z && includes m MUSIC_STYLES
  | ToggleGoal x => (step st =? 4)%Z && includes x MAIN_GOALS
  | _ => (step st =? input_step ev)%Z
  end.

(** What a handler leaves: the page state, the store, and the route that
    [router.push] was given, if any. *)
Record Outcome := mkOutcome {
  o_state : OnboardingState;
  o_env : Env;
  o_nav : option string
}.

(** [handleNext]; [None] is the store receiving, through the unchecked
    cast, an object that is not a [UserProfile]. *)
Definition handleNext (st : OnboardingState) (env : Env) : option Outcome :=
  if (step st <? totalSteps)%Z then
    Some (mkOutcome (mkOnboardingState (step st + 1) (formData st)) env None)
  else
    match as_profile (formData st) with
    | Some p => Some (mkOutcome st (saveUserProfile p env) (Some "/"))
    | None => None
    end.

Definition handleBack (st : OnboardingState) : OnboardingState :=
  if (step st >? 1)%Z then mkOnboardingState (step st - 1) (formData st) else st.

Definition onboarding_step (st : OnboardingState) (env : Env) (ev : OnboardingEvent)
    : option Outcome :=
  if negb (rendered st ev) then Some (mkOutcome st env None) else
  match ev with
  | ClickNext => handleNext st env
  | ClickBack => Some (mkOutcome (handleBack st) env None)
  | _ => Some (mkOutcome (mkOnboardingState (step st) (update_form ev (formData st))) env None)
  end.

(** States reached from the initial form by accepted events. *)
Inductive onboarding_reachable : OnboardingState -> Env -> Prop :=
  | ob_init env : onboarding_reachable initialOnboarding env
  | ob_step st env ev o :
      onboarding_reachable st env -> onboarding_step st env ev = Some o ->
      onboarding_reachable (o_state o) (o_env o).

(** A sequence of user actions, run from a state. *)
Fixpoint onboarding_run (st : OnboardingState) (env : Env) (evs : list OnboardingEvent)
    : option (OnboardingState * Env) :=
  match evs with
  | [] => Some (st, env)
  | ev :: evs' =>
      match onboarding_step st env ev with
      | Some o => onboarding_run (o_state o) (o_env o) evs'
      | None => None
      end
  end.

(** A user who picks "Saudável", "Comédia" and "Pop" and asks for music
    prompts, up to the last step of the form. *)
Definition demo_events : list OnboardingEvent :=
  [InputName "Ana"; InputAge (Some 30%Z); ClickNext;
   InputCountry "Portugal"; InputTimezone "Europe/Lisbon"; PickZodiac "Leão"; ClickNext;
   ToggleFood "Saudável"; ToggleMovie "Comédia"; ToggleMusic "Pop"; ClickNext;
   ToggleGoal "Reduzir ansiedade"; CheckSuno true; ClickNext].

Definition demo_run : OnboardingState * Env :=
  match onboarding_run initialOnboarding (initial_env true) demo_events with
  | Some r => r
  | None => (initialOnboarding, initial_env true)
  end.

(** ** The rendered form *)

(** [Math.round(a / b)] for [b > 0], on the exact quotient: [Math.round]
    is [floor (x + 1/2)].  For the progress label, [a / b] is [step / 5]
    times 100 with [step] in [1..5]; the rounding error of the float
    product is far below [1/2], so the exact quotient rounds the same. *)
Definition js_round_div (a b : Z) : Z := ((2 * a + b) / (2 * b))%Z.

(** The check boxes of a list: each option with its [checked] state
    [formData.list!.includes(option)]. *)
Definition checkboxes (options chosen : list string) : list (string * bool) :=
  map (fun x => (x, includes x chosen)) options.

(** The card of the current step ([{step === n && ...}]); a step outside
    [1..5] renders no card. *)
Inductive OnboardingCard :=
  | CardBasics (name_value : string) (age_value : option Z) (gender_value : string)
  | CardLocation (country_value timezone_value : string) (signs : list (string * bool))
  | CardPreferences (foods movies music : list (string * bool))
  | CardGoals (goals : list (string * bool)) (suno_checked : bool)
  | CardTimes (morning afternoon night : string)
  | CardNone.

(** [value={x || ''}] of a text input. *)
Definition input_value (s : option string) : string :=
  match s with Some v => v | None => "" end.

(** [{step === 1 && ...}]: the name, age and gender inputs;
    [value={formData.age || ''}] shows [0] as the empty field. *)
Definition basics_card (fd : FormData) : OnboardingCard :=
  CardBasics (input_value (fd_name fd))
    (match fd_age fd with Some a => if (a =? 0)%Z then None else Some a | None => None end)
    (input_value (fd_gender fd)).

(** [{step === 2 && ...}]: country and timezone inputs and the sign
    buttons, the one equal to [formData.zodiacSign] highlighted. *)
Definition location_card (fd : FormData) : OnboardingCard :=
  CardLocation (input_value (fd_country fd)) (input_value (fd_timezone fd))
    (map (fun sign => (sign, bool_decide (fd_zodiacSign fd = Some sign))) ZODIAC_SIGNS).

(** [{step === 3 && ...}]: the three check-box groups
    [FOOD_PREFERENCES.map], [MOVIE_GENRES.map], [MUSIC_STYLES.map]. *)
Definition preferences_card (fd : FormData) : OnboardingCard :=
  CardPreferences (checkboxes FOOD_PREFERENCES (fd_foodPreferences fd))
    (checkboxes MOVIE_GENRES (fd_movieGenres fd)) (checkboxes MUSIC_STYLES (fd_musicStyles fd)).

(** [{step === 4 && ...}]: the goal check boxes and the Suno check box
    [checked={formData.wantsSunoPrompts}]. *)
Definition goals_card (fd : FormData) : OnboardingCard :=
  CardGoals (checkboxes MAIN_GOALS (fd_mainGoal fd)) (fd_wantsSunoPrompts fd).

(** [{step === 5 && ...}]: the three [type="time"] inputs, with
    [value={formData.morningTime}] and so on (no [|| ''] here). *)
Definition times_card (fd : FormData) : OnboardingCard :=
  CardTimes (fd_morningTime fd) (fd_afternoonTime fd) (fd_nightTime fd).

Definition step_card (st : OnboardingState) : OnboardingCard :=
  let fd := formData st in
  if (step st =? 1)%Z then basics_card fd
  else if (step st =? 2)%Z then location_card fd
  else if (step st =? 3)%Z then preferences_card fd
  else if (step st =? 4)%Z then goals_card fd
  else if (step st =? 5)%Z then times_card fd
  else CardNone.

Record OnboardingView := mkOnboardingView {
  ov_step : Z;               (** [Passo {step} de {totalSteps}] *)
  ov_total : Z;
  ov_percent : Z;            (** [Math.round((step / totalSteps) * 100)] *)
  ov_card : OnboardingCard;
  ov_back_disabled : bool;   (** [disabled={step === 1}] *)
  ov_next_label : string;
  ov_next_disabled : bool    (** [disabled={!isStepValid()}] *)
}.

Definition onboarding_view (st : OnboardingState) : OnboardingView :=
  mkOnboardingView (step st) totalSteps (js_round_div (step st * 100) totalSteps)
    (step_card st) (step st =? 1)%Z
    (if (step st =? totalSteps)%Z then "Começar" else "Continuar")
    (negb (isStepValid st)).

(** What a click on a check box should do to the rendered list: flip the
    [checked] state of that option and of no other. *)
Definition flip_check (item : string) (cbs : list (string * bool)) : list (string * bool) :=
  map (fun '(x, b) => (x, if String.eqb x item then negb b else b)) cbs.

(** ** Invariant of the form *)

(** Every element of [l] is one of the options [L] the form renders. *)
Definition from_list (L l : list string) : Prop := forall x, In x l -> In x L.

Definition vocabulary_inv (fd : FormData) : Prop :=
  from_list FOOD_PREFERENCES (fd_foodPreferences fd) /\
  from_list MOVIE_GENRES (fd_movieGenres fd) /\
  from_list MUSIC_STYLES (fd_musicStyles fd) /\
  from_list MAIN_GOALS (fd_mainGoal fd) /\
  (forall z, fd_zodiacSign fd = Some z -> In z ZODIAC_SIGNS).

Definition nodup_inv (fd : FormData) : Prop :=
  NoDup (fd_foodPreferences fd) /\ NoDup (fd_movieGenres fd) /\
  NoDup (fd_musicStyles fd) /\ NoDup (fd_mainGoal fd).

Definition onboarding_inv (st : OnboardingState) : Prop :=
  (1 <= step st <= totalSteps)%Z /\
  (forall k, (1 <= k < step st)%Z -> isStepValid_at k (formData st) = true) /\
  vocabulary_inv (formData st) /\ nodup_inv (formData st).

(** ** Properties *)

Lemma onboarding_run_reachable st env evs st' env' :
  onboarding_reachable st env -> onboarding_run st env evs = Some (st', env') ->
  onboarding_reachable st' env'.
Proof.
  revert st env. induction evs as [|ev evs IH]; intros st env R; cbn.
  - by intros [= <- <-].
  - destruct (onboarding_step st env ev) as [o|] eqn:E; [|discriminate].
    apply IH. by econstructor.
Qed.

Lemma demo_reachable : onboarding_reachable demo_run.1 demo_run.2.
Proof.
  apply (onboarding_run_reachable initialOnboarding (initial_env true) demo_events);
    [constructor | vm_compute; reflexivity].
Qed.

(** Membership after [toggleArrayItem]. *)
Lemma toggle_In l item x :
  In x (toggleArrayItem l item) <-> (In x l /\ x <> item) \/ (x = item /\ ~ In item l).
Proof.
  unfold toggleArrayItem. destruct (includes item l) eqn:I.
  - apply includes_In in I. rewrite filter_In, negb_true_iff, String.eqb_neq.
    intuition congruence.
  - apply includes_false in I. rewrite in_app_iff. cbn. intuition (subst; auto).
Qed.

(** [toggleArrayItem] flips the membership of [item] and leaves the
    membership of every other value as it was. *)
Theorem toggleArrayItem_In l item x :
  In x (toggleArrayItem l item) <-> (In x l /\ x <> item) \/ (x = item /\ ~ In item l).
Proof. apply toggle_In. Qed.

Lemma toggleArrayItem_from_list L l item :
  from_list L l -> In item L -> from_list L (toggleArrayItem l item).
Proof. intros HL Hi x Hx. apply toggle_In in Hx as [[]|[-> _]]; auto. Qed.

Lemma toggleArrayItem_NoDup l item : NoDup l -> NoDup (toggleArrayItem l item).
Proof.
  unfold toggleArrayItem. intros Hnd. destruct (includes item l) eqn:I.
  - by apply NoDup_List_filter.
  - apply includes_false in I. apply NoDup_app. split; [done|]. split; [|apply NoDup_singleton].
    intros y Hy Hy'. apply list_elem_of_In in Hy, Hy'. destruct Hy' as [<-|[]]. done.
Qed.

(** Inputs of one step do not change the validity of another. *)
Lemma isStepValid_frame ev fd k :
  k <> input_step ev -> isStepValid_at k (update_form ev fd) = isStepValid_at k fd.
Proof.
  intros Hk. destruct fd. unfold isStepValid_at.
  destruct ev; cbn in *;
  repeat match goal with
  | |- context [(k =? ?n)%Z] =>
      let E := fresh in destruct (k =? n)%Z eqn:E; [apply Z.eqb_eq in E; subst k|]
  end; first [reflexivity | lia].
Qed.

(** An input event is rendered only at its own step; the option widgets
    only offer values of their lists. *)
Lemma rendered_input st ev :
  rendered st ev = true -> input_step ev <> 0%Z ->
  step st = input_step ev /\
  match ev with
  | PickZodiac z => In z ZODIAC_SIGNS
  | ToggleFood f => In f FOOD_PREFERENCES
  | ToggleMovie m => In m MOVIE_GENRES
  | ToggleMusic m => In m MUSIC_STYLES
  | ToggleGoal g => In g MAIN_GOALS
  | _ => True
  end.
Proof.
  destruct ev; cbn [rendered input_step]; intros R Hne; try congruence;
    repeat match goal with H : _ && _ = true |- _ => apply andb_prop in H as [? ?] end;
    repeat match goal with
           | H : (_ =? _)%Z = true |- _ => apply Z.eqb_eq in H
           | H : includes _ _ = true |- _ => apply includes_In in H
           end; split; auto.
Qed.

Lemma inv_input st ev :
  onboarding_inv st -> rendered st ev = true -> input_step ev <> 0%Z ->
  onboarding_inv (mkOnboardingState (step st) (update_form ev (formData st))).
Proof.
  intros (Hb & Hv & Hvoc & Hnd) R Hne.
  destruct (rendered_input st ev R Hne) as [Hs Hopt].
  split; [done|]. split.
  { intros k Hk. cbn in *. rewrite isStepValid_frame by lia. auto. }
  destruct st as [s [n a g c tz z foods movies music goals suno mt aft nt]].
  destruct Hvoc as (V1 & V2 & V3 & V4 & V5), Hnd as (N1 & N2 & N3 & N4).
  destruct ev; cbv beta iota in Hopt; cbn [update_form formData step];
    unfold vocabulary_inv, nodup_inv;
    cbn [fd_foodPreferences fd_movieGenres fd_musicStyles fd_mainGoal fd_zodiacSign] in *;
    split_and!; auto using toggleArrayItem_from_list, toggleArrayItem_NoDup;
    intros z' [= <-]; done.
Qed.

Lemma onboarding_step_inv st env ev o :
  onboarding_inv st -> onboarding_step st env ev = Some o -> onboarding_inv (o_state o).
Proof.
  unfold onboarding_step. intros Hi. destruct (rendered st ev) eqn:R; cbn [negb];
    [|intros [= <-]; done].
  destruct ev; try (intros [= <-]; apply inv_input; [done|done|discriminate]).
  - unfold handleNext. destruct (step st <? totalSteps)%Z eqn:L.
    + intros [= <-]. destruct Hi as (Hb & Hv & Hvoc & Hnd). apply Z.ltb_lt in L.
      split; [cbn; lia|]. split; [|done]. intros k Hk. cbn in Hk.
      destruct (Z.eq_dec k (step st)) as [->|]; [exact R|apply Hv; lia].
    + destruct (as_profile _); [intros [= <-]; done|discriminate].
  - intros [= <-]. unfold handleBack. destruct (step st >? 1)%Z eqn:G; [|done].
    destruct Hi as (Hb & Hv & ? & ?). apply Z.gtb_lt in G.
    split; [cbn; lia|]. split; [|done]. intros k Hk. apply Hv. cbn in Hk. lia.
Qed.

Lemma initialOnboarding_inv : onboarding_inv initialOnboarding.
Proof.
  split; [cbv; split; discriminate|]. split; [intros k Hk; cbn in Hk; lia|].
  split; [split_and!; by intros ? ?|]. split_and!; constructor.
Qed.

Lemma reachable_inv st env : onboarding_reachable st env -> onboarding_inv st.
Proof.
  induction 1; [apply initialOnboarding_inv|]. eauto using onboarding_step_inv.
Qed.

(** C26. In every state the form can reach, the step is between 1 and 5,
    every step before the current one is valid, the chosen sign, foods,
    genres, styles and goals are options the form renders, and no list
    holds a value twice. *)
Theorem onboarding_reachable_inv st env :
  onboarding_reachable st env -> onboarding_inv st.
Proof. apply reachable_inv. Qed.

Lemma truthy_string_Some s : truthy_string s = true -> exists x, s = Some x /\ x <> "".
Proof.
  destruct s as [x|]; cbn; [|discriminate]. intros H. exists x. split; [done|].
  apply negb_true_iff, String.eqb_neq in H. done.
Qed.

Lemma length_pos {A} (l : list A) : (0 <? List.length l)%nat = true -> l <> [].
Proof. destruct l; cbn; congruence. Qed.

(** Steps 1 to 4 valid: the cast finds every field [UserProfile]
    requires, with the values the validity checks demand. *)
Lemma valid_steps_profile fd :
  (forall k, (1 <= k < totalSteps)%Z -> isStepValid_at k fd = true) ->
  exists p, as_profile fd = Some p /\ fd_zodiacSign fd = Some (zodiacSign p) /\
    name p <> "" /\ (age p > 0)%Z /\ country p <> "" /\ timezone p <> "" /\
    zodiacSign p <> "" /\ foodPreferences p <> [] /\ movieGenres p <> [] /\
    musicStyles p <> [] /\ mainGoal p <> [].
Proof.
  intros Hv.
  pose proof (Hv 1%Z ltac:(unfold totalSteps; lia)) as V1.
  pose proof (Hv 2%Z ltac:(unfold totalSteps; lia)) as V2.
  pose proof (Hv 3%Z ltac:(unfold totalSteps; lia)) as V3.
  pose proof (Hv 4%Z ltac:(unfold totalSteps; lia)) as V4.
  unfold isStepValid_at in V1, V2, V3, V4; cbn -[Nat.ltb truthy_string] in V1, V2, V3, V4.
  repeat match goal with H : _ && _ = true |- _ => apply andb_prop in H as [? ?] end.
  repeat match goal with
         | H : truthy_string _ = true |- _ => apply truthy_string_Some in H as (? & ? & ?)
         | H : (0 <? List.length _)%nat = true |- _ => apply length_pos in H
         end.
  destruct fd as [n a g c tz z foods movies music goals suno mt aft nt]; cbn in *; subst.
  destruct a as [a|]; [|discriminate].
  repeat match goal with H : _ && _ = true |- _ => apply andb_prop in H as [? ?] end.
  repeat match goal with H : (_ >? _)%Z = true |- _ => apply Z.gtb_lt in H end.
  eexists; split; [reflexivity|]. cbn. split_and!; auto; lia.
Qed.

(** The [Começar] click of a valid last step stores the profile the form
    describes. *)
Lemma finish_profile st env :
  onboarding_reachable st env -> step st = totalSteps -> isStepValid st = true ->
  exists p nav, as_profile (formData st) = Some p /\
    onboarding_step st env ClickNext = Some (mkOutcome st (saveUserProfile p env) nav).
Proof.
  intros R Hs Hvalid. destruct (reachable_inv st env R) as (_ & Hv & _). rewrite Hs in Hv.
  destruct (valid_steps_profile (formData st) Hv) as (p & Hp & _).
  exists p. unfold onboarding_step, rendered, handleNext. rewrite Hvalid, Hs, Hp.
  by eexists.
Qed.

(** The lists of the stored profile are the form's lists. *)
Lemma as_profile_lists fd p :
  as_profile fd = Some p ->
  foodPreferences p = fd_foodPreferences fd /\ movieGenres p = fd_movieGenres fd /\
  musicStyles p = fd_musicStyles fd /\ mainGoal p = fd_mainGoal fd.
Proof.
  unfold as_profile. repeat case_match; try discriminate. by intros [= <-].
Qed.

(** Every option the form offers is capitalised, so none is one of the
    lower-case strings [getAfternoonSuggestion] looks for. *)
Lemma not_offered L l x : from_list L l -> includes x L = false -> includes x l = false.
Proof.
  intros HL Hx. apply includes_false. apply includes_false in Hx. auto.
Qed.

(** C8. The unchecked cast [formData as UserProfile] is sound: whenever
    the [Começar] button of step 5 is enabled in a reachable state, the
    click stores a complete profile (non-empty name, country, timezone,
    a sign of the list, a positive age, at least one food, genre, style
    and goal) and navigates home. *)
Theorem onboarding_save_sound st env :
  onboarding_reachable st env -> step st = totalSteps -> isStepValid st = true ->
  exists p, onboarding_step st env ClickNext = Some (mkOutcome st (saveUserProfile p env) (Some "/")) /\
    name p <> "" /\ (age p > 0)%Z /\ country p <> "" /\ timezone p <> "" /\
    In (zodiacSign p) ZODIAC_SIGNS /\ foodPreferences p <> [] /\ movieGenres p <> [] /\
    musicStyles p <> [] /\ mainGoal p <> [].
Proof.
  intros R Hs Hvalid. destruct (reachable_inv st env R) as (_ & Hv & Hvoc & _).
  rewrite Hs in Hv.
  destruct (valid_steps_profile (formData st) Hv) as (p & Hp & Hz & Hprops).
  exists p. unfold onboarding_step, rendered, handleNext. rewrite Hvalid, Hs, Hp. cbn.
  split; [done|]. destruct Hvoc as (_ & _ & _ & _ & Hzod). specialize (Hzod _ Hz).
  intuition auto.
Qed.

(** C1. The afternoon personalisation never applies to a profile made by
    the onboarding form: the form offers "Saudável", "Fast Food", "Massa",
    "Sushi", "Comédia", "Drama", "Ação", "Romance", "Pop", "Gospel" and
    "Kizomba", while [getAfternoonSuggestion] tests the lower-case
    strings, and [Array.prototype.includes] compares exactly.  So for
    every rating the dinner and movie concerns give the generic
    suggestion, and the create concern the generic (or no-music) one. *)
Theorem onboarded_profile_gets_generic st env p rating :
  onboarding_reachable st env -> as_profile (formData st) = Some p ->
  getAfternoonSuggestion Dinner rating p = dinner_generic /\
  getAfternoonSuggestion Movie rating p = movie_generic /\
  getAfternoonSuggestion Create rating p =
    (if wantsSunoPrompts p then create_generic else create_no_music).
Proof.
  intros R Hp. destruct (reachable_inv st env R) as (_ & _ & (V1 & V2 & V3 & _) & _).
  unfold as_profile in Hp.
  destruct (formData st) as [n a g c tz z foods movies music goals suno mt aft nt];
    cbn in Hp, V1, V2, V3.
  destruct n, a, c, tz, z; try discriminate. injection Hp as <-.
  unfold getAfternoonSuggestion, dinner_suggestion, movie_suggestion, create_suggestion.
  cbn [foodPreferences movieGenres musicStyles wantsSunoPrompts].
  rewrite !(not_offered _ _ _ V1), !(not_offered _ _ _ V2), !(not_offered _ _ _ V3)
    by reflexivity.
  rewrite !andb_false_l, !andb_false_r. by destruct suno.
Qed.

(** [includes] after [toggleArrayItem]. *)
Lemma includes_toggle l item x :
  includes x (toggleArrayItem l item) =
  if String.eqb x item then negb (includes item l) else includes x l.
Proof.
  apply Bool.eq_iff_eq_true. rewrite includes_In, toggle_In.
  destruct (String.eqb_spec x item) as [->|Hne].
  - rewrite negb_true_iff, includes_false. intuition.
  - rewrite includes_In. intuition.
Qed.

Lemma checkboxes_toggle L l item :
  checkboxes L (toggleArrayItem l item) = flip_check item (checkboxes L l).
Proof.
  unfold checkboxes, flip_check. rewrite map_map. apply List.map_ext. intros x. cbn.
  rewrite includes_toggle. by destruct (String.eqb_spec x item) as [->|].
Qed.

(** A check box of the preferences step works: a click on the box of
    an offered food, at step 3, changes neither the store nor the route
    and re-renders the card with the [checked] state of that food
    flipped and every other box as it was. *)
Theorem onboarding_checkbox_flip st env food :
  step st = 3%Z -> In food FOOD_PREFERENCES ->
  exists o, onboarding_step st env (ToggleFood food) = Some o /\ o_env o = env /\
    o_nav o = None /\
    step_card (o_state o) =
      CardPreferences (flip_check food (checkboxes FOOD_PREFERENCES (fd_foodPreferences (formData st))))
        (checkboxes MOVIE_GENRES (fd_movieGenres (formData st)))
        (checkboxes MUSIC_STYLES (fd_musicStyles (formData st))).
Proof.
  intros Hs Hin. apply includes_In in Hin.
  unfold onboarding_step, rendered. rewrite Hs, Hin. cbn -[step_card].
  eexists. split_and!; [reflexivity..|].
  unfold step_card, preferences_card. destruct (formData st). cbn -[checkboxes toggleArrayItem].
  by rewrite checkboxes_toggle.
Qed.

(** The header of the form is consistent in every reachable state:
    [Passo {step} de 5] with the percentage [20 * step] (between 20 and
    100), a card for the step, [Voltar] disabled exactly at step 1, and
    the main button reading [Começar] exactly at step 5, where its click
    saves the profile. *)
Theorem onboarding_progress st env :
  onboarding_reachable st env ->
  let v := onboarding_view st in
  ov_percent v = (20 * step st)%Z /\ (20 <= ov_percent v <= 100)%Z /\
  ov_card v <> CardNone /\ (ov_back_disabled v = true <-> step st = 1%Z) /\
  (ov_next_label v = "Começar" <-> step st = totalSteps).
Proof.
  intros R. destruct (reachable_inv st env R) as (Hb & _). unfold totalSteps in Hb.
  unfold onboarding_view, step_card, totalSteps; cbn [ov_percent ov_card ov_back_disabled ov_next_label].
  unfold js_round_div.
  assert (H : (step st = 1 \/ step st = 2 \/ step st = 3 \/ step st = 4 \/ step st = 5)%Z) by lia.
  destruct H as [E|[E|[E|[E|E]]]]; rewrite E; cbn; split_and!; (done || lia || intuition discriminate).
Qed.

(** ** Witnesses *)

Lemma onboarding_reachable_inv_witness :
  onboarding_reachable demo_run.1 demo_run.2 /\ onboarding_inv demo_run.1.
Proof. split; [exact demo_reachable|]. exact (onboarding_reachable_inv _ _ demo_reachable). Defined.

Lemma onboarding_save_sound_witness :
  onboarding_reachable demo_run.1 demo_run.2 /\ step demo_run.1 = totalSteps /\
  isStepValid demo_run.1 = true /\
  exists p, onboarding_step demo_run.1 demo_run.2 ClickNext =
              Some (mkOutcome demo_run.1 (saveUserProfile p demo_run.2) (Some "/")) /\
    name p <> "" /\ (age p > 0)%Z /\ country p <> "" /\ timezone p <> "" /\
    In (zodiacSign p) ZODIAC_SIGNS /\ foodPreferences p <> [] /\ movieGenres p <> [] /\
    musicStyles p <> [] /\ mainGoal p <> [].
Proof.
  assert (Hs : step demo_run.1 = totalSteps) by (vm_compute; reflexivity).
  assert (Hv : isStepValid demo_run.1 = true) by (vm_compute; reflexivity).
  split; [exact demo_reachable|]. split; [exact Hs|]. split; [exact Hv|].
  exact (onboarding_save_sound _ _ demo_reachable Hs Hv).
Defined.

(** The rule-order example of the specification, replayed through the
    form: the user ticked "Saudável" and rates the day 8, yet gets the
    generic dinner suggestion. *)
Lemma onboarded_profile_gets_generic_witness :
  onboarding_reachable demo_run.1 demo_run.2 /\
  exists p, as_profile (formData demo_run.1) = Some p /\ In "Saudável" (foodPreferences p) /\
    getAfternoonSuggestion Dinner 8 p = dinner_generic /\
    getAfternoonSuggestion Movie 8 p = movie_generic /\
    getAfternoonSuggestion Create 8 p =
      (if wantsSunoPrompts p then create_generic else create_no_music).
Proof.
  split; [exact demo_reachable|].
  destruct (as_profile (formData demo_run.1)) as [p|] eqn:Hp;
    [|vm_compute in Hp; discriminate].
  exists p. split; [reflexivity|]. split.
  - vm_compute in Hp. injection Hp as <-. cbn. tauto.
  - exact (onboarded_profile_gets_generic _ _ p 8 demo_reachable Hp).
Defined.

Lemma onboarding_checkbox_flip_witness :
  step (mkOnboardingState 3 initialFormData) = 3%Z /\ In "Sushi" FOOD_PREFERENCES /\
  exists o, onboarding_step (mkOnboardingState 3 initialFormData) (initial_env true)
              (ToggleFood "Sushi") = Some o /\ o_env o = initial_env true.
Proof.
  assert (Hin : In "Sushi" FOOD_PREFERENCES) by (cbn; tauto).
  split; [reflexivity|]. split; [exact Hin|].
  destruct (onboarding_checkbox_flip (mkOnboardingState 3 initialFormData) (initial_env true)
              "Sushi" eq_refl Hin) as (o & Ho & He & _).
  exists o. split; [exact Ho | exact He].
Defined.

Lemma onboarding_progress_witness :
  onboarding_reachable demo_run.1 demo_run.2 /\
  ov_percent (onboarding_view demo_run.1) = 100%Z /\
  ov_next_label (onboarding_view demo_run.1) = "Começar".
Proof.
  destruct (onboarding_progress _ _ demo_reachable) as (P & _ & _ & _ & L).
  assert (Hs : step demo_run.1 = totalSteps) by (vm_compute; reflexivity).
  split; [exact demo_reachable|]. split.
  - rewrite P, Hs. reflexivity.
  - by apply L.
Defined.
