(* ===== verification/MorningPage.v ===== *)
(** * MorningPage: the morning check-in of [src/src/app/morning/page.tsx]

    The page state is [step] ('mood' | 'priority' | 'result') and the
    selected mood, priority and advice.  [handlePrioritySelect] reads the
    profile ([getUserProfile]), asks [getMorningAdvice] with the mood
    selected one step earlier ([selectedMood!]: a [null] mood would make
    [adviceMap[null][priority]] throw, the [None] of [morning_step]),
    saves the morning record under [profile.id || 'user'] and today's
    date, and shows the result.  The two [new Date()] reads of the
    handler (today's date and the timestamp) are the [Clock] given to the
    handler.  [morning_view] is the JSX: which card is on screen and
    which fields of the advice it shows. *)

From stdpp Require Import base list strings gmap.
From Stdlib Require Import String ZArith.
From S2P Require Import Prelude Types AiResponses Storage.
Import AiResponses.Morning.
Open Scope string_scope.

(** [MOODS] and [PRIORITIES]: id, emoji, label. *)
Definition MOODS : list (MoodType * string * string) :=
  [(Tired, "😴", "Cansado"); (Ok, "😊", "Ok"); (Motivated, "🚀", "Motivado");
   (Down, "😔", "Em baixo")].

Definition PRIORITIES : list (PriorityType * string * string) :=
  [(Work, "💼", "Trabalho"); (Family, "👨‍👩‍👧‍👦", "Família"); (Money, "💰", "Dinheiro");
   (Health, "🏃", "Saúde"); (Relationship, "❤️", "Relacionamento")].

Inductive MorningStep := StepMood | StepPriority | StepResult.

Record MorningState := mkMorningState {
  m_step : MorningStep;
  selectedMood : option MoodType;
  selectedPriority : option PriorityType;
  m_advice : option AIResponse
}.

Definition initialMorning : MorningState := mkMorningState StepMood None None None.

Inductive MorningEvent :=
  | SelectMood (m : MoodType)
  | SelectPriority (p : PriorityType)
  | MorningRedo
  | MorningHome.

Definition handleMoodSelect (m : MoodType) (st : MorningState) : MorningState :=
  mkMorningState StepPriority (Some m) (selectedPriority st) (m_advice st).

Definition handlePrioritySelect (p : PriorityType) (st : MorningState) (env : Env)
    (clk : Clock) : option (PageOutcome MorningState) :=
  let st1 := mkMorningState (m_step st) (selectedMood st) (Some p) (m_advice st) in
  match getUserProfile env with
  | None => Some (mkPageOutcome st1 env (Some "/onboarding"))
  | Some profile =>
      match selectedMood st with
      | None => None
      | Some mood =>
          let response := getMorningAdvice mood p profile in
          let morningResponse := mkMorningResponse mood p (now clk) in
          let env' := saveDailyInteraction
                        (mkDailyInteraction None (page_userId profile) (today clk)
                           (Some morningResponse) None None) env in
          Some (mkPageOutcome (mkMorningState StepResult (Some mood) (Some p) (Some response))
                  env' None)
      end
  end.

(** Each button exists only on its card; the result card needs [advice]. *)
Definition morning_rendered (st : MorningState) (ev : MorningEvent) : bool :=
  match ev, m_step st with
  | SelectMood _, StepMood => true
  | SelectPriority _, StepPriority => true
  | MorningRedo, StepResult => bool_decide (is_Some (m_advice st))
  | MorningHome, _ => true
  | _, _ => false
  end.

Definition morning_step (st : MorningState) (env : Env) (clk : Clock) (ev : MorningEvent)
    : option (PageOutcome MorningState) :=
  if negb (morning_rendered st ev) then Some (mkPageOutcome st env None) else
  match ev with
  | SelectMood m => Some (mkPageOutcome (handleMoodSelect m st) env None)
  | SelectPriority p => handlePrioritySelect p st env clk
  | MorningRedo => Some (mkPageOutcome initialMorning env None)
  | MorningHome => Some (mkPageOutcome st env (Some "/"))
  end.

(** What the main column shows. *)
Inductive MorningView :=
  | ShowMoods (options : list (MoodType * string * string))
  | ShowPriorities (options : list (PriorityType * string * string))
  | ShowAdvice (advice_text : string) (action_text : option string) (prompt : option string)
  | ShowNothing.

(** The result card: the advice, then [{advice.action && ...}] and
    [{advice.sunoPrompt && ...}]. *)
Definition morning_result_card (a : AIResponse) : MorningView :=
  ShowAdvice (advice a) (shown (action a)) (shown (sunoPrompt a)).

Definition morning_view (st : MorningState) : MorningView :=
  match m_step st, m_advice st with
  | StepMood, _ => ShowMoods MOODS
  | StepPriority, _ => ShowPriorities PRIORITIES
  | StepResult, Some a => morning_result_card a
  | StepResult, None => ShowNothing
  end.

Inductive morning_reachable : MorningState -> Env -> Prop :=
  | mr_init env : morning_reachable initialMorning env
  | mr_step st env clk ev o :
      morning_reachable st env -> morning_step st env clk ev = Some o ->
      morning_reachable (po_state o) (po_env o).

(** ** Invariant of the page *)

(** The priority card is only reached with a mood selected, and the result
    card shows the advice for the selected pair. *)
Definition morning_inv (st : MorningState) : Prop :=
  (m_step st = StepPriority -> is_Some (selectedMood st)) /\
  (m_step st = StepResult -> exists m p profile,
     selectedMood st = Some m /\ selectedPriority st = Some p /\
     m_advice st = Some (getMorningAdvice m p profile)).

(** ** Properties *)

Lemma morning_step_inv st env clk ev o :
  morning_inv st -> morning_step st env clk ev = Some o -> morning_inv (po_state o).
Proof.
  intros [Hp Hr]. unfold morning_step.
  destruct (morning_rendered st ev) eqn:R; cbn [negb]; [|intros [= <-]; by split].
  destruct ev as [m|p| |]; cbn.
  - intros [= <-]. cbn. split; [eauto|discriminate].
  - unfold handlePrioritySelect. destruct st as [[] mood pr adv]; try discriminate R.
    destruct (getUserProfile env) as [profile|]; [|intros [= <-]; cbn; split; eauto; discriminate].
    destruct mood as [mood|]; [|discriminate].
    intros [= <-]. split; [discriminate|]. intros _. cbn. eauto 6.
  - intros [= <-]. split; discriminate.
  - intros [= <-]. by split.
Qed.

Lemma morning_reachable_inv st env : morning_reachable st env -> morning_inv st.
Proof.
  induction 1; [split; discriminate|]. eauto using morning_step_inv.
Qed.

(** C27. The morning page never raises: in every reachable state, every
    action the screen offers succeeds (the [selectedMood!] of
    [handlePrioritySelect] is never [null]). *)
Theorem morning_never_raises st env clk ev :
  morning_reachable st env -> morning_step st env clk ev <> None.
Proof.
  intros R. destruct (morning_reachable_inv st env R) as [Hp _].
  unfold morning_step. destruct (morning_rendered st ev) eqn:E; cbn [negb]; [|discriminate].
  destruct ev; try discriminate. unfold handlePrioritySelect.
  destruct st as [[] mood pr adv]; try discriminate E.
  destruct (getUserProfile env); [|discriminate].
  destruct (Hp eq_refl) as [m ->]. discriminate.
Qed.

(** C9. A morning check-in end to end: choosing a priority after a mood,
    with a stored profile, shows the table's advice and action for the
    pair, with the mood's music prompt exactly when the profile asks for
    prompts, and leaves today's record of the user with this morning's
    answers and the afternoon and night answers it had. *)
Theorem morning_checkin st env clk p profile :
  morning_reachable st env -> m_step st = StepPriority -> getUserProfile env = Some profile ->
  exists mood o r,
    selectedMood st = Some mood /\ morning_step st env clk (SelectPriority p) = Some o /\
    morning_view (po_state o) =
      ShowAdvice (advice (adviceMap mood p)) (action (adviceMap mood p))
        (if wantsSunoPrompts profile then Some (sunoPrompts mood) else None) /\
    getTodayInteraction (page_userId profile) (today clk) (po_env o) = Some r /\
    morning r = Some (mkMorningResponse mood p (now clk)) /\
    afternoon r = getTodayInteraction (page_userId profile) (today clk) env ≫= afternoon /\
    night r = getTodayInteraction (page_userId profile) (today clk) env ≫= night.
Proof.
  intros R Hs Hprof. destruct (morning_reachable_inv st env R) as [Hp _].
  destruct (Hp Hs) as [mood Hm].
  assert (W : window_defined env = true).
  { unfold getUserProfile in Hprof. by destruct (window_defined env). }
  set (i := mkDailyInteraction None (page_userId profile) (today clk)
              (Some (mkMorningResponse mood p (now clk))) None None).
  pose proof (today_after_save i env W) as Ht. cbn [userId date i] in Ht.
  eexists mood, _, _. split; [done|]. split.
  { unfold morning_step, morning_rendered, handlePrioritySelect. rewrite Hs, Hprof, Hm.
    reflexivity. }
  cbn [po_state po_env morning_view m_step m_advice]. split.
  { unfold getMorningAdvice. destruct (wantsSunoPrompts profile), mood, p; reflexivity. }
  split; [exact Ht|].
  destruct (getTodayInteraction _ _ env); done.
Qed.

(** ** Witnesses *)

Lemma morning_demo_reachable :
  morning_reachable (mkMorningState StepPriority (Some Motivated) None None)
    (saveUserProfile (sample_profile [] [] [] false) (initial_env true)).
Proof.
  apply (mr_step initialMorning (saveUserProfile (sample_profile [] [] [] false) (initial_env true))
           (mkClock "2026-11-09" 0) (SelectMood Motivated)
           (mkPageOutcome (mkMorningState StepPriority (Some Motivated) None None)
              (saveUserProfile (sample_profile [] [] [] false) (initial_env true)) None));
    [constructor|reflexivity].
Qed.

Lemma morning_never_raises_witness :
  morning_reachable (mkMorningState StepPriority (Some Motivated) None None)
    (saveUserProfile (sample_profile [] [] [] false) (initial_env true)) /\
  morning_step (mkMorningState StepPriority (Some Motivated) None None)
    (saveUserProfile (sample_profile [] [] [] false) (initial_env true))
    (mkClock "2026-11-09" 0) (SelectPriority Health) <> None.
Proof. split; [exact morning_demo_reachable|]. exact (morning_never_raises _ _ _ _ morning_demo_reachable). Defined.

(** The end-to-end example of the specification: motivated, health, no
    music prompts. *)
Lemma morning_checkin_witness :
  morning_reachable (mkMorningState StepPriority (Some Motivated) None None)
    (saveUserProfile (sample_profile [] [] [] false) (initial_env true)) /\
  m_step (mkMorningState StepPriority (Some Motivated) None None) = StepPriority /\
  getUserProfile (saveUserProfile (sample_profile [] [] [] false) (initial_env true)) =
    Some (sample_profile [] [] [] false) /\
  exists mood o r,
    selectedMood (mkMorningState StepPriority (Some Motivated) None None) = Some mood /\
    morning_step (mkMorningState StepPriority (Some Motivated) None None)
      (saveUserProfile (sample_profile [] [] [] false) (initial_env true))
      (mkClock "2026-11-09" 0) (SelectPriority Health) = Some o /\
    morning_view (po_state o) =
      ShowAdvice (advice (adviceMap mood Health)) (action (adviceMap mood Health))
        (if wantsSunoPrompts (sample_profile [] [] [] false) then Some (sunoPrompts mood) else None) /\
    getTodayInteraction (page_userId (sample_profile [] [] [] false)) "2026-11-09" (po_env o) = Some r /\
    morning r = Some (mkMorningResponse mood Health 0) /\
    afternoon r = getTodayInteraction (page_userId (sample_profile [] [] [] false)) "2026-11-09"
                    (saveUserProfile (sample_profile [] [] [] false) (initial_env true)) ≫= afternoon /\
    night r = getTodayInteraction (page_userId (sample_profile [] [] [] false)) "2026-11-09"
                (saveUserProfile (sample_profile [] [] [] false) (initial_env true)) ≫= night.
Proof.
  split; [exact morning_demo_reachable|]. split; [reflexivity|]. split; [reflexivity|].
  exact (morning_checkin _ _ (mkClock "2026-11-09" 0) Health _ morning_demo_reachable eq_refl eq_refl).
Defined.
