(* ===== verification/AfternoonPage.v ===== *)
(** * AfternoonPage: the afternoon check-in of
    [src/src/app/afternoon/page.tsx]

    The page state is [step] ('rating' | 'concern' | 'result'), the
    [dayRating] of the slider (initially 5), the selected concern and the
    suggestion.  The slider ([min=0 max=10 step=1]) reports integers of
    [0..10]; that is the contract of the UI component, outside [src/],
    and [afternoon_rendered] only lets such values through.
    [handleConcernSelect] asks [getAfternoonSuggestion] with the current
    rating and saves the afternoon record.  [getRatingEmoji] and
    [getRatingLabel] are the display bands of the rating. *)

From stdpp Require Import base list strings gmap.
From Stdlib Require Import String ZArith Lia.
From S2P Require Import Prelude Types AiResponses Storage.
Import AiResponses.Afternoon.
Open Scope string_scope.

(** [CONCERNS]: id, emoji, label, description. *)
Definition CONCERNS : list (ConcernType * string * string * string) :=
  [(Dinner, "🍽️", "Jantar", "Preciso de ideias para o jantar");
   (Movie, "🎬", "Filme/Série", "Quero ver algo interessante");
   (Create, "🎵", "Criar", "Quero criar algo (música/arte)");
   (Advice, "💭", "Conselho", "Só preciso de um conselho")].

Inductive AfternoonStep := StepRating | StepConcern | StepAfternoonResult.

Record AfternoonState := mkAfternoonState {
  a_step : AfternoonStep;
  a_dayRating : Z;
  selectedConcern : option ConcernType;
  a_suggestion : option AIResponse
}.

Definition initialAfternoon : AfternoonState := mkAfternoonState StepRating 5 None None.

Inductive AfternoonEvent :=
  | SlideRating (v : Z)          (** [onValueChange(value)] with [value[0] = v] *)
  | ContinueRating                (** [handleRatingComplete] *)
  | SelectConcern (c : ConcernType)
  | AfternoonRedo
  | AfternoonHome.

Definition getRatingEmoji (rating : Z) : string :=
  if (rating <=? 3)%Z then "😔"
  else if (rating <=? 5)%Z then "😐"
  else if (rating <=? 7)%Z then "🙂"
  else "😊".

Definition getRatingLabel (rating : Z) : string :=
  if (rating <=? 3)%Z then "Difícil"
  else if (rating <=? 5)%Z then "Normal"
  else if (rating <=? 7)%Z then "Bom"
  else "Ótimo".

Definition handleConcernSelect (c : ConcernType) (st : AfternoonState) (env : Env)
    (clk : Clock) : PageOutcome AfternoonState :=
  let st1 := mkAfternoonState (a_step st) (a_dayRating st) (Some c) (a_suggestion st) in
  match getUserProfile env with
  | None => mkPageOutcome st1 env (Some "/onboarding")
  | Some profile =>
      let response := getAfternoonSuggestion c (a_dayRating st) profile in
      let afternoonResponse := mkAfternoonResponse (a_dayRating st) c (now clk) in
      let env' := saveDailyInteraction
                    (mkDailyInteraction None (page_userId profile) (today clk)
                       None (Some afternoonResponse) None) env in
      mkPageOutcome (mkAfternoonState StepAfternoonResult (a_dayRating st) (Some c) (Some response))
        env' None
  end.

Definition afternoon_rendered (st : AfternoonState) (ev : AfternoonEvent) : bool :=
  match ev, a_step st with
  | SlideRating v, StepRating => bool_decide (0 <= v <= 10)%Z
  | ContinueRating, StepRating => true
  | SelectConcern _, StepConcern => true
  | AfternoonRedo, StepAfternoonResult => bool_decide (is_Some (a_suggestion st))
  | AfternoonHome, _ => true
  | _, _ => false
  end.

Definition afternoon_step (st : AfternoonState) (env : Env) (clk : Clock) (ev : AfternoonEvent)
    : PageOutcome AfternoonState :=
  if negb (afternoon_rendered st ev) then mkPageOutcome st env None else
  match ev with
  | SlideRating v =>
      mkPageOutcome (mkAfternoonState (a_step st) v (selectedConcern st) (a_suggestion st)) env None
  | ContinueRating =>
      mkPageOutcome (mkAfternoonState StepConcern (a_dayRating st) (selectedConcern st)
                       (a_suggestion st)) env None
  | SelectConcern c => handleConcernSelect c st env clk
  | AfternoonRedo =>
      (** [setStep('rating'); setSelectedConcern(null); setSuggestion(null)]:
          the rating is kept. *)
      mkPageOutcome (mkAfternoonState StepRating (a_dayRating st) None None) env None
  | AfternoonHome => mkPageOutcome st env (Some "/")
  end.

Inductive AfternoonView :=
  | ShowRating (emoji : string) (rating : Z) (label : string)
  | ShowConcerns (options : list (ConcernType * string * string * string))
  | ShowSuggestion (advice_text suggestion_text action_text prompt : option string)
  | ShowNoSuggestion.

(** The result card: [{suggestion.advice && ...}], then the suggestion,
    the action and the music prompt, each when present. *)
Definition afternoon_result_card (s : AIResponse) : AfternoonView :=
  ShowSuggestion (shown (Some (advice s))) (shown (suggestion s)) (shown (action s))
    (shown (sunoPrompt s)).

Definition afternoon_view (st : AfternoonState) : AfternoonView :=
  match a_step st, a_suggestion st with
  | StepRating, _ =>
      ShowRating (getRatingEmoji (a_dayRating st)) (a_dayRating st) (getRatingLabel (a_dayRating st))
  | StepConcern, _ => ShowConcerns CONCERNS
  | StepAfternoonResult, Some s => afternoon_result_card s
  | StepAfternoonResult, None => ShowNoSuggestion
  end.

Inductive afternoon_reachable : AfternoonState -> Env -> Prop :=
  | ar_init env : afternoon_reachable initialAfternoon env
  | ar_step st env clk ev :
      afternoon_reachable st env ->
      afternoon_reachable (po_state (afternoon_step st env clk ev))
        (po_env (afternoon_step st env clk ev)).

(** ** Invariant of the page *)

Definition afternoon_inv (st : AfternoonState) : Prop :=
  (0 <= a_dayRating st <= 10)%Z /\
  (a_step st = StepAfternoonResult -> exists c profile,
     selectedConcern st = Some c /\
     a_suggestion st = Some (getAfternoonSuggestion c (a_dayRating st) profile)).

(** ** Properties *)

Lemma afternoon_step_inv st env clk ev :
  afternoon_inv st -> afternoon_inv (po_state (afternoon_step st env clk ev)).
Proof.
  intros [Hb Hr]. unfold afternoon_step.
  destruct (afternoon_rendered st ev) eqn:R; cbn [negb]; [|by split].
  destruct st as [[] rating conc sug]; destruct ev; try discriminate R; cbn in *;
    try (split; [done|discriminate]); try (by split).
  - apply bool_decide_eq_true in R. split; [done|discriminate].
  - unfold handleConcernSelect. destruct (getUserProfile env); cbn; [|split; [done|discriminate]].
    split; [done|]. intros _. eauto.
Qed.

Lemma afternoon_reachable_inv st env : afternoon_reachable st env -> afternoon_inv st.
Proof.
  induction 1; [split; [cbn; lia|discriminate]|]. by apply afternoon_step_inv.
Qed.

(** In every reachable state of the afternoon page the rating is an
    integer of [0..10] (the slider's range; [Refazer] keeps the last
    rating), and the result card shows the suggestion for the selected
    concern at that rating. *)
Theorem afternoon_rating_bounds st env :
  afternoon_reachable st env ->
  (0 <= a_dayRating st <= 10)%Z /\
  (a_step st = StepAfternoonResult -> exists c profile,
     selectedConcern st = Some c /\
     a_suggestion st = Some (getAfternoonSuggestion c (a_dayRating st) profile)).
Proof. apply afternoon_reachable_inv. Qed.

(** C10. An afternoon check-in end to end: choosing a concern with a
    stored profile shows [getAfternoonSuggestion] for the concern at the
    current rating and leaves today's record of the user with this
    afternoon's answers, a rating in [0..10], and the morning and night
    answers it had. *)
Theorem afternoon_checkin st env clk c profile :
  afternoon_reachable st env -> a_step st = StepConcern -> getUserProfile env = Some profile ->
  let o := afternoon_step st env clk (SelectConcern c) in
  a_suggestion (po_state o) = Some (getAfternoonSuggestion c (a_dayRating st) profile) /\
  exists r, getTodayInteraction (page_userId profile) (today clk) (po_env o) = Some r /\
    afternoon r = Some (mkAfternoonResponse (a_dayRating st) c (now clk)) /\
    (0 <= a_dayRating st <= 10)%Z /\
    morning r = getTodayInteraction (page_userId profile) (today clk) env ≫= morning /\
    night r = getTodayInteraction (page_userId profile) (today clk) env ≫= night.
Proof.
  intros R Hs Hprof. destruct (afternoon_reachable_inv st env R) as [Hb _].
  assert (W : window_defined env = true).
  { unfold getUserProfile in Hprof. by destruct (window_defined env). }
  unfold afternoon_step, afternoon_rendered, handleConcernSelect. rewrite Hs, Hprof. cbn.
  split; [done|].
  set (i := mkDailyInteraction None (page_userId profile) (today clk) None
              (Some (mkAfternoonResponse (a_dayRating st) c (now clk))) None).
  pose proof (today_after_save i env W) as Ht. cbn [userId date i] in Ht.
  eexists. split; [exact Ht|].
  destruct (getTodayInteraction _ _ env); cbn; auto.
Qed.

(** C30. The label under the slider and the tier of the [advice] concern
    disagree: "Ótimo" is shown exactly when the advice celebrates, and a
    "Difícil" label always gets the consoling advice, but at rating 4, and
    only there, the label reads "Normal" while the advice consoles a
    difficult day. *)
Theorem rating_label_vs_advice_tier rating profile :
  (getRatingLabel rating = "Ótimo" <->
     getAfternoonSuggestion Advice rating profile = advice_great) /\
  (getRatingLabel rating = "Difícil" ->
     getAfternoonSuggestion Advice rating profile = advice_hard) /\
  (getAfternoonSuggestion Advice rating profile = advice_hard /\
     getRatingLabel rating <> "Difícil" <-> rating = 4%Z).
Proof.
  unfold getRatingLabel, getAfternoonSuggestion, advice_suggestion.
  repeat match goal with
         | |- context [(?a <=? ?b)%Z] => destruct (Z.leb_spec a b)
         | |- context [(?a >=? ?b)%Z] => destruct (Z.geb_spec a b)
         end;
    intuition (try discriminate; try congruence; try lia).
Qed.

(** ** Witnesses *)

Lemma afternoon_demo_reachable :
  afternoon_reachable (mkAfternoonState StepConcern 8 None None)
    (saveUserProfile (sample_profile ["saudável"] [] [] false) (initial_env true)).
Proof.
  set (env := saveUserProfile (sample_profile ["saudável"] [] [] false) (initial_env true)).
  set (clk := mkClock "2026-11-09" 0).
  pose proof (ar_step _ _ clk (SlideRating 8) (ar_init env)) as R1.
  pose proof (ar_step _ _ clk ContinueRating R1) as R2.
  exact R2.
Qed.

Lemma afternoon_rating_bounds_witness :
  afternoon_reachable (mkAfternoonState StepConcern 8 None None)
    (saveUserProfile (sample_profile ["saudável"] [] [] false) (initial_env true)) /\
  (0 <= a_dayRating (mkAfternoonState StepConcern 8 None None) <= 10)%Z /\
  (a_step (mkAfternoonState StepConcern 8 None None) = StepAfternoonResult -> exists c profile,
     selectedConcern (mkAfternoonState StepConcern 8 None None) = Some c /\
     a_suggestion (mkAfternoonState StepConcern 8 None None) =
       Some (getAfternoonSuggestion c (a_dayRating (mkAfternoonState StepConcern 8 None None)) profile)).
Proof.
  split; [exact afternoon_demo_reachable|].
  exact (afternoon_rating_bounds _ _ afternoon_demo_reachable).
Defined.

Lemma afternoon_checkin_witness :
  afternoon_reachable (mkAfternoonState StepConcern 8 None None)
    (saveUserProfile (sample_profile ["saudável"] [] [] false) (initial_env true)) /\
  a_step (mkAfternoonState StepConcern 8 None None) = StepConcern /\
  getUserProfile (saveUserProfile (sample_profile ["saudável"] [] [] false) (initial_env true)) =
    Some (sample_profile ["saudável"] [] [] false) /\
  let o := afternoon_step (mkAfternoonState StepConcern 8 None None)
             (saveUserProfile (sample_profile ["saudável"] [] [] false) (initial_env true))
             (mkClock "2026-11-09" 0) (SelectConcern Dinner) in
  a_suggestion (po_state o) =
    Some (getAfternoonSuggestion Dinner 8 (sample_profile ["saudável"] [] [] false)) /\
  exists r, getTodayInteraction (page_userId (sample_profile ["saudável"] [] [] false))
              "2026-11-09" (po_env o) = Some r /\
    afternoon r = Some (mkAfternoonResponse 8 Dinner 0) /\ (0 <= 8 <= 10)%Z /\
    morning r = getTodayInteraction (page_userId (sample_profile ["saudável"] [] [] false))
                  "2026-11-09" (saveUserProfile (sample_profile ["saudável"] [] [] false)
                                  (initial_env true)) ≫= morning /\
    night r = getTodayInteraction (page_userId (sample_profile ["saudável"] [] [] false))
                "2026-11-09" (saveUserProfile (sample_profile ["saudável"] [] [] false)
                                (initial_env true)) ≫= night.
Proof.
  split; [exact afternoon_demo_reachable|]. split; [reflexivity|]. split; [reflexivity|].
  exact (afternoon_checkin _ _ (mkClock "2026-11-09" 0) Dinner _ afternoon_demo_reachable
           eq_refl eq_refl).
Defined.
