(* ===== verification/NightPage.v ===== *)
(** * NightPage: the night reflection of [src/src/app/night/page.tsx]

    The page state is [step] ('comparison' | 'selfcare' | 'positive' |
    'result'), the two answers (each [null] until given), the free text of
    the positive things and the reflection.  [handleComplete], run by both
    the [Pular] and the [Continuar] button, reads the profile, asks
    [getNightReflection] with [dayComparison!] and [didSomethingGood!],
    saves the night record (the text split into non-blank lines, or
    [undefined] when empty) and shows the result.  A [null] comparison
    makes [reflections[null][key]] throw; a [null] self-care answer
    would be stored as [null] in a field typed [boolean]: both are the
    [None] of [night_step]. *)

From stdpp Require Import base list strings gmap.
From Stdlib Require Import String ZArith.
From S2P Require Import Prelude Types AiResponses Storage.
Import AiResponses.Night.
Open Scope string_scope.

(** [DAY_COMPARISONS]: id, emoji, label, description. *)
Definition DAY_COMPARISONS : list (DayRatingType * string * string * string) :=
  [(Better, "✨", "Melhor", "Foi melhor que esperava");
   (Same, "😊", "Igual", "Foi como esperava");
   (Worse, "😔", "Pior", "Foi pior que esperava")].

Inductive NightStep := StepComparison | StepSelfcare | StepPositive | StepNightResult.

Record NightState := mkNightState {
  n_step : NightStep;
  n_dayComparison : option DayRatingType;
  n_didSomethingGood : option bool;
  n_positiveThings : string;
  reflection : option AIResponse
}.

Definition initialNight : NightState := mkNightState StepComparison None None "" None.

Inductive NightEvent :=
  | SelectComparison (c : DayRatingType)
  | SelectSelfCare (answer : bool)
  | TypePositive (text : string)      (** [onChange] of the text area *)
  | SkipPositive                      (** [Pular] *)
  | ContinuePositive                  (** [Continuar] *)
  | NightRedo
  | NightHome.

(** [positiveThings ? positiveThings.split('\n').filter(t => t.trim())
    : undefined]. *)
Definition parsePositiveThings (text : string) : option (list string) :=
  if String.eqb text "" then None
  else Some (List.filter trim_nonempty (split_newline text)).

Definition handleComparisonSelect (c : DayRatingType) (st : NightState) : NightState :=
  mkNightState StepSelfcare (Some c) (n_didSomethingGood st) (n_positiveThings st) (reflection st).

Definition handleSelfCareSelect (answer : bool) (st : NightState) : NightState :=
  mkNightState StepPositive (n_dayComparison st) (Some answer) (n_positiveThings st) (reflection st).

Definition handleComplete (st : NightState) (env : Env) (clk : Clock)
    : option (PageOutcome NightState) :=
  match getUserProfile env with
  | None => Some (mkPageOutcome st env (Some "/onboarding"))
  | Some profile =>
      match n_dayComparison st, n_didSomethingGood st with
      | Some dc, Some good =>
          match getNightReflection dc good profile with
          | None => None
          | Some response =>
              let nightResponse :=
                mkNightResponse dc good (parsePositiveThings (n_positiveThings st)) (now clk) in
              let env' := saveDailyInteraction
                            (mkDailyInteraction None (page_userId profile) (today clk)
                               None None (Some nightResponse)) env in
              Some (mkPageOutcome
                      (mkNightState StepNightResult (Some dc) (Some good) (n_positiveThings st)
                         (Some response)) env' None)
          end
      | _, _ => None
      end
  end.

Definition night_rendered (st : NightState) (ev : NightEvent) : bool :=
  match ev, n_step st with
  | SelectComparison _, StepComparison => true
  | SelectSelfCare _, StepSelfcare => true
  | (TypePositive _ | SkipPositive | ContinuePositive), StepPositive => true
  | NightRedo, StepNightResult => bool_decide (is_Some (reflection st))
  | NightHome, _ => true
  | _, _ => false
  end.

Definition night_step (st : NightState) (env : Env) (clk : Clock) (ev : NightEvent)
    : option (PageOutcome NightState) :=
  if negb (night_rendered st ev) then Some (mkPageOutcome st env None) else
  match ev with
  | SelectComparison c => Some (mkPageOutcome (handleComparisonSelect c st) env None)
  | SelectSelfCare b => Some (mkPageOutcome (handleSelfCareSelect b st) env None)
  | TypePositive text =>
      Some (mkPageOutcome (mkNightState (n_step st) (n_dayComparison st) (n_didSomethingGood st)
                             text (reflection st)) env None)
  | SkipPositive | ContinuePositive => handleComplete st env clk
  | NightRedo => Some (mkPageOutcome initialNight env None)
  | NightHome => Some (mkPageOutcome st env (Some "/"))
  end.

Inductive NightView :=
  | ShowComparisons (options : list (DayRatingType * string * string * string))
  | ShowSelfCare
  | ShowPositiveForm (text : string)
  | ShowReflection (advice_text : string) (action_text prompt positive : option string)
  | ShowNoReflection.

(** The result card: the reflection's advice, its action and music
    prompt when present, and [{positiveThings && ...}], the typed text as
    it is (not the parsed list that was saved). *)
Definition night_result_card (r : AIResponse) (positiveThings : string) : NightView :=
  ShowReflection (advice r) (shown (action r)) (shown (sunoPrompt r)) (shown (Some positiveThings)).

Definition night_view (st : NightState) : NightView :=
  match n_step st, reflection st with
  | StepComparison, _ => ShowComparisons DAY_COMPARISONS
  | StepSelfcare, _ => ShowSelfCare
  | StepPositive, _ => ShowPositiveForm (n_positiveThings st)
  | StepNightResult, Some r => night_result_card r (n_positiveThings st)
  | StepNightResult, None => ShowNoReflection
  end.

Inductive night_reachable : NightState -> Env -> Prop :=
  | nr_init env : night_reachable initialNight env
  | nr_step st env clk ev o :
      night_reachable st env -> night_step st env clk ev = Some o ->
      night_reachable (po_state o) (po_env o).

(** ** The forward moves of the page *)

(** The index of a card in the order the page shows them. *)
Definition night_rank (s : NightStep) : nat :=
  match s with
  | StepComparison => 0 | StepSelfcare => 1 | StepPositive => 2 | StepNightResult => 3
  end.

(** [night_advance st' st]: an action other than [Refazer] takes the page
    from the card of [st] to another card, in [st'].  Typing in the text
    area edits the card without leaving it and is not a move. *)
Definition night_advance (st' st : NightState) : Prop :=
  exists env clk ev o, ev <> NightRedo /\ night_step st env clk ev = Some o /\
    po_state o = st' /\ n_step st' <> n_step st.

(** ** Invariant of the page *)

Definition night_inv (st : NightState) : Prop :=
  (n_step st = StepSelfcare -> is_Some (n_dayComparison st)) /\
  (n_step st = StepPositive -> is_Some (n_dayComparison st) /\ is_Some (n_didSomethingGood st)) /\
  (n_step st = StepNightResult -> exists dc good profile,
     n_dayComparison st = Some dc /\ n_didSomethingGood st = Some good /\
     reflection st = getNightReflection dc good profile).

(** ** Properties *)

Lemma join_on_cons sep c p ps :
  join_on sep (String c p :: ps) = String c (join_on sep (p :: ps)).
Proof. by destruct ps. Qed.

(** Splitting the text on line feeds and joining the pieces back gives
    the text: [split('\n')] loses nothing, and no piece contains a line
    feed. *)
Theorem split_newline_roundtrip s :
  join_newline (split_newline s) = s /\
  (forall t, In t (split_newline s) -> forall n c, String.get n t = Some c -> c <> newline).
Proof.
  induction s as [|c s [IHj IHn]]; cbn [split_on].
  - split; [done|]. intros t [<-|[]] n c' Hn. by destruct n.
  - pose proof (split_on_nonnil newline s) as Hne.
    destruct (Ascii.eqb_spec c newline) as [->|Hc].
    + split.
      * destruct (split_newline s) as [|p ps]; [done|]. rewrite <- IHj. reflexivity.
      * intros t [<-|Ht]; [intros [] ? ?; discriminate|]. eauto.
    + destruct (split_newline s) as [|p ps] eqn:E; [done|]. split.
      * rewrite join_on_cons. f_equal. exact IHj.
      * intros t [<-|Ht]; [|eauto with datatypes].
        intros [|n] c' Hn; cbn in Hn; [congruence|].
        eapply IHn; [left; reflexivity|exact Hn].
Qed.

(** The positive things stored with the night record: [undefined]
    exactly when the text area is empty, otherwise a list of lines of the
    text, each holding a character other than white space and none
    holding a line feed. *)
Theorem parsePositiveThings_spec text :
  (parsePositiveThings text = None <-> text = "") /\
  (forall l, parsePositiveThings text = Some l ->
     forall t, In t l -> trim_nonempty t = true /\
       forall n c, String.get n t = Some c -> c <> newline).
Proof.
  unfold parsePositiveThings. destruct (String.eqb_spec text ""); split; try done.
  intros l [= <-] t Ht. apply filter_In in Ht as [Hin Htr]. split; [done|].
  apply (proj2 (split_newline_roundtrip text)); done.
Qed.

Lemma night_step_inv st env clk ev o :
  night_inv st -> night_step st env clk ev = Some o -> night_inv (po_state o).
Proof.
  intros (Hs & Hp & Hr). unfold night_step.
  destruct (night_rendered st ev) eqn:R; cbn [negb]; [|intros [= <-]; done].
  destruct st as [[] dc good txt refl]; destruct ev; try discriminate R; cbn in *;
    try (intros [= <-]; cbn; split_and!; (done || (intros; discriminate) || eauto)).
  all: unfold handleComplete; cbn; destruct (getUserProfile env) as [profile|];
    [|intros [= <-]; split_and!; cbn; done || (intros; discriminate)].
  all: destruct dc as [dc|], good as [good|]; try discriminate.
  all: destruct (getNightReflection dc good profile) as [r|] eqn:E; [|discriminate].
  all: intros [= <-]; split_and!; cbn; try (intros; discriminate); eauto 7.
Qed.

Lemma night_reachable_inv st env : night_reachable st env -> night_inv st.
Proof.
  induction 1; [split_and!; discriminate|]. eauto using night_step_inv.
Qed.

(** C28. The night page never raises: in every reachable state, every
    action the screen offers succeeds ([dayComparison!] and
    [didSomethingGood!] are set when [handleComplete] runs, and the
    reflection table has both keys). *)
Theorem night_never_raises st env clk ev :
  night_reachable st env -> night_step st env clk ev <> None.
Proof.
  intros R. destruct (night_reachable_inv st env R) as (_ & Hp & _).
  unfold night_step. destruct (night_rendered st ev) eqn:E; cbn [negb]; [|discriminate].
  destruct st as [[] dc good txt refl]; destruct ev; try discriminate E; try discriminate.
  all: unfold handleComplete; destruct (getUserProfile env) as [profile|]; [|discriminate].
  all: destruct (Hp eq_refl) as [[d ->] [g ->]]; cbn.
  all: destruct (getNightReflection_some d g profile) as [r ->]; discriminate.
Qed.

(** C11. A night reflection end to end: on the positive-things card, with
    a stored profile, [Pular] and [Continuar] do the same thing (the typed
    text is saved either way); the result shows the reflection for the
    two answers, and today's record of the user gets the night answers
    with the text split into its non-blank lines ([undefined] for an
    empty text), keeping the morning and afternoon answers it had. *)
Theorem night_checkin st env clk profile :
  night_reachable st env -> n_step st = StepPositive -> getUserProfile env = Some profile ->
  night_step st env clk SkipPositive = night_step st env clk ContinuePositive /\
  exists dc good o r,
    n_dayComparison st = Some dc /\ n_didSomethingGood st = Some good /\
    night_step st env clk ContinuePositive = Some o /\
    reflection (po_state o) = getNightReflection dc good profile /\
    getTodayInteraction (page_userId profile) (today clk) (po_env o) = Some r /\
    night r = Some (mkNightResponse dc good (parsePositiveThings (n_positiveThings st)) (now clk)) /\
    morning r = getTodayInteraction (page_userId profile) (today clk) env ≫= morning /\
    afternoon r = getTodayInteraction (page_userId profile) (today clk) env ≫= afternoon.
Proof.
  intros R Hs Hprof. destruct (night_reachable_inv st env R) as (_ & Hp & _).
  destruct (Hp Hs) as [[dc Hdc] [good Hg]].
  assert (W : window_defined env = true).
  { unfold getUserProfile in Hprof. by destruct (window_defined env). }
  unfold night_step, night_rendered. rewrite Hs. cbn [negb]. split; [done|].
  unfold handleComplete. rewrite Hprof, Hdc, Hg.
  destruct (getNightReflection_some dc good profile) as [resp Hr]. rewrite Hr.
  set (i := mkDailyInteraction None (page_userId profile) (today clk) None None
              (Some (mkNightResponse dc good (parsePositiveThings (n_positiveThings st)) (now clk)))).
  pose proof (today_after_save i env W) as Ht. cbn [userId date i] in Ht.
  do 4 eexists. split; [done|]. split; [done|]. split; [reflexivity|].
  cbn [po_state po_env reflection]. split; [done|]. split; [exact Ht|].
  destruct (getTodayInteraction _ _ env); cbn; auto.
Qed.

(** [handleComplete] either leaves the page as it is (no profile: the
    redirect) or shows the result card. *)
Lemma handleComplete_step st env clk o :
  handleComplete st env clk = Some o -> po_state o = st \/ n_step (po_state o) = StepNightResult.
Proof.
  unfold handleComplete. destruct (getUserProfile env); [|intros [= <-]; by left].
  destruct (n_dayComparison st), (n_didSomethingGood st); try discriminate.
  destruct (getNightReflection _ _ _); [|discriminate]. intros [= <-]. by right.
Qed.

(** C22. The night check-in terminates: without [Refazer], the page moves
    from card to card only forwards (comparison, self-care, positive
    things, result), so no infinite sequence of actions keeps changing
    the card; at most three card changes happen before the result. *)
Theorem night_flow_terminates : well_founded night_advance.
Proof.
  apply (wf_by_rank _ (fun st => night_rank (n_step st)) 3).
  intros st' st (env & clk & ev & o & Hev & Hs & <- & Hne).
  split; [|destruct (n_step (po_state o)); cbn; lia].
  enough (night_rank (n_step st) <= night_rank (n_step (po_state o)))
    by (destruct (n_step st), (n_step (po_state o)); cbn in *; (congruence || lia)).
  revert Hs. unfold night_step. destruct (night_rendered st ev) eqn:R; cbn [negb];
    [|intros [= <-]; cbn; lia].
  destruct st as [[] dc good txt refl], ev; try discriminate R; try congruence; cbn;
    first [intros [= <-]; cbn; lia
          | intros H; destruct (handleComplete_step _ _ _ _ H) as [-> | ->]; cbn; lia].
Qed.

(** ** Witnesses *)

Lemma night_demo_reachable :
  night_reachable (mkNightState StepPositive (Some Worse) (Some false) "" None)
    (saveUserProfile (sample_profile [] [] ["Jazz"] true) (initial_env true)).
Proof.
  set (env := saveUserProfile (sample_profile [] [] ["Jazz"] true) (initial_env true)).
  set (clk := mkClock "2026-11-09" 0).
  pose proof (nr_step _ _ clk (SelectComparison Worse) _ (nr_init env) eq_refl) as R1.
  exact (nr_step _ _ clk (SelectSelfCare false) _ R1 eq_refl).
Qed.

Lemma night_never_raises_witness :
  night_reachable (mkNightState StepPositive (Some Worse) (Some false) "" None)
    (saveUserProfile (sample_profile [] [] ["Jazz"] true) (initial_env true)) /\
  night_step (mkNightState StepPositive (Some Worse) (Some false) "" None)
    (saveUserProfile (sample_profile [] [] ["Jazz"] true) (initial_env true))
    (mkClock "2026-11-09" 0) ContinuePositive <> None.
Proof. split; [exact night_demo_reachable|]. exact (night_never_raises _ _ _ _ night_demo_reachable). Defined.

Lemma night_checkin_witness :
  night_reachable (mkNightState StepPositive (Some Worse) (Some false) "" None)
    (saveUserProfile (sample_profile [] [] ["Jazz"] true) (initial_env true)) /\
  n_step (mkNightState StepPositive (Some Worse) (Some false) "" None) = StepPositive /\
  getUserProfile (saveUserProfile (sample_profile [] [] ["Jazz"] true) (initial_env true)) =
    Some (sample_profile [] [] ["Jazz"] true) /\
  (night_step (mkNightState StepPositive (Some Worse) (Some false) "" None)
     (saveUserProfile (sample_profile [] [] ["Jazz"] true) (initial_env true))
     (mkClock "2026-11-09" 0) SkipPositive =
   night_step (mkNightState StepPositive (Some Worse) (Some false) "" None)
     (saveUserProfile (sample_profile [] [] ["Jazz"] true) (initial_env true))
     (mkClock "2026-11-09" 0) ContinuePositive /\
  exists dc good o r,
    n_dayComparison (mkNightState StepPositive (Some Worse) (Some false) "" None) = Some dc /\
    n_didSomethingGood (mkNightState StepPositive (Some Worse) (Some false) "" None) = Some good /\
    night_step (mkNightState StepPositive (Some Worse) (Some false) "" None)
      (saveUserProfile (sample_profile [] [] ["Jazz"] true) (initial_env true))
      (mkClock "2026-11-09" 0) ContinuePositive = Some o /\
    reflection (po_state o) = getNightReflection dc good (sample_profile [] [] ["Jazz"] true) /\
    getTodayInteraction (page_userId (sample_profile [] [] ["Jazz"] true)) "2026-11-09" (po_env o) = Some r /\
    night r = Some (mkNightResponse dc good (parsePositiveThings "") 0) /\
    morning r = getTodayInteraction (page_userId (sample_profile [] [] ["Jazz"] true)) "2026-11-09"
                  (saveUserProfile (sample_profile [] [] ["Jazz"] true) (initial_env true)) ≫= morning /\
    afternoon r = getTodayInteraction (page_userId (sample_profile [] [] ["Jazz"] true)) "2026-11-09"
                  (saveUserProfile (sample_profile [] [] ["Jazz"] true) (initial_env true)) ≫= afternoon).
Proof.
  split; [exact night_demo_reachable|]. split; [reflexivity|]. split; [reflexivity|].
  exact (night_checkin _ _ (mkClock "2026-11-09" 0) _ night_demo_reachable eq_refl eq_refl).
Defined.
