(* ===== verification/Session.v ===== *)
(** * Session: the three check-ins of a day, through the pages and the clock

    Each check-in page reads the clock twice in its saving handler:
    [new Date().toISOString().split('T')[0]] for the record's date and
    [new Date()] for the answer's timestamp.  [clock_at t] is the [Clock]
    of both reads at the instant [t] (the two reads are microseconds
    apart; the model takes them equal).  [run_page] replays a list of
    user actions on a page.  The theorems compose the pages, the store
    and [IsoDate]: what a user who completes the three check-ins during
    one UTC day finds in the daily log, that every check-in can be
    completed from any state its page can reach, and that the option
    cards of the check-ins offer every value once, exactly while the
    page accepts the choice. *)

From stdpp Require Import base list strings gmap finite.
From Stdlib Require Import String ZArith Lia.
From S2P Require Import Prelude Types IsoDate AiResponses Storage MorningPage AfternoonPage NightPage.
Open Scope string_scope.

(** The clock of a handler run at the time value [t]. *)
Definition clock_at (t : Z) : option Clock :=
  match today_at t with
  | Some d => Some (mkClock d t)
  | None => None
  end.

(** A sequence of user actions on one page; [None] where a handler
    throws. *)
Fixpoint run_page {S E : Type} (step : S -> Env -> E -> option (PageOutcome S))
    (st : S) (env : Env) (evs : list E) : option (S * Env) :=
  match evs with
  | [] => Some (st, env)
  | ev :: evs' =>
      match step st env ev with
      | Some o => run_page step (po_state o) (po_env o) evs'
      | None => None
      end
  end.

Definition morning_visit (clk : Clock) := run_page (fun st env ev => morning_step st env clk ev).
Definition afternoon_visit (clk : Clock) :=
  run_page (fun st env ev => Some (afternoon_step st env clk ev)).
Definition night_visit (clk : Clock) := run_page (fun st env ev => night_step st env clk ev).

(** The actions of a complete check-in on each page. *)
Definition morning_actions (m : MoodType) (p : PriorityType) : list MorningEvent :=
  [SelectMood m; SelectPriority p].
Definition afternoon_actions (rating : Z) (c : ConcernType) : list AfternoonEvent :=
  [SlideRating rating; ContinueRating; SelectConcern c].
Definition night_actions (dc : DayRatingType) (good : bool) (text : string) : list NightEvent :=
  [SelectComparison dc; SelectSelfCare good; TypePositive text; ContinuePositive].

(** ** The store across the saves *)

Lemma saveDaily_profile i env : getUserProfile (saveDailyInteraction i env) = getUserProfile env.
Proof.
  unfold getUserProfile, saveDailyInteraction.
  destruct (window_defined env) eqn:W; rewrite ?W; storage_simpl; rewrite ?W; done.
Qed.

Lemma profile_window env p : getUserProfile env = Some p -> window_defined env = true.
Proof. unfold getUserProfile. by destruct (window_defined env). Qed.

Lemma clock_at_fields t clk :
  clock_at t = Some clk -> today_at t = Some (today clk) /\ now clk = t.
Proof. unfold clock_at. destruct (today_at t); [|done]. by intros [= <-]. Qed.

(** ** What each complete visit saves *)

Lemma morning_visit_saves clk st0 env profile m p :
  m_step st0 = StepMood -> getUserProfile env = Some profile ->
  exists st, morning_visit clk st0 env (morning_actions m p) =
    Some (st, saveDailyInteraction (mkDailyInteraction None (page_userId profile) (today clk)
                 (Some (mkMorningResponse m p (now clk))) None None) env).
Proof.
  intros Hs Hp. destruct st0 as [[] ? ? ?]; try discriminate Hs. eexists.
  cbn -[getUserProfile saveDailyInteraction Morning.getMorningAdvice].
  unfold handlePrioritySelect. by rewrite Hp.
Qed.

Lemma afternoon_visit_saves clk st0 env profile rating c :
  a_step st0 = StepRating -> getUserProfile env = Some profile -> (0 <= rating <= 10)%Z ->
  exists st, afternoon_visit clk st0 env (afternoon_actions rating c) =
    Some (st, saveDailyInteraction (mkDailyInteraction None (page_userId profile) (today clk)
                 None (Some (mkAfternoonResponse rating c (now clk))) None) env).
Proof.
  intros Hs Hp Hr. destruct st0 as [[] ? ? ?]; try discriminate Hs. eexists.
  unfold afternoon_visit, afternoon_actions, afternoon_step, afternoon_rendered.
  cbn -[getUserProfile saveDailyInteraction Afternoon.getAfternoonSuggestion handleConcernSelect bool_decide].
  rewrite bool_decide_true; [|exact Hr].
  cbn -[getUserProfile saveDailyInteraction Afternoon.getAfternoonSuggestion].
  unfold handleConcernSelect. by rewrite Hp.
Qed.

Lemma night_visit_saves clk st0 env profile dc good text :
  n_step st0 = StepComparison -> getUserProfile env = Some profile ->
  exists st, night_visit clk st0 env (night_actions dc good text) =
    Some (st, saveDailyInteraction (mkDailyInteraction None (page_userId profile) (today clk)
                 None None (Some (mkNightResponse dc good (parsePositiveThings text) (now clk)))) env).
Proof.
  intros Hs Hp. destruct (getNightReflection_some dc good profile) as [r Hr].
  destruct st0 as [[] ? ? ? ?]; try discriminate Hs. eexists. cbn -[getUserProfile saveDailyInteraction Night.getNightReflection parsePositiveThings].
  unfold handleComplete. rewrite Hp. cbn -[saveDailyInteraction Night.getNightReflection parsePositiveThings].
  by rewrite Hr.
Qed.

(** The last action of a check-in, from the card that offers it. *)
Lemma morning_priority_saves clk st env profile mood p :
  m_step st = StepPriority -> selectedMood st = Some mood -> getUserProfile env = Some profile ->
  exists st', morning_visit clk st env [SelectPriority p] =
    Some (st', saveDailyInteraction (mkDailyInteraction None (page_userId profile) (today clk)
                 (Some (mkMorningResponse mood p (now clk))) None None) env).
Proof.
  intros Hs Hm Hp. destruct st as [[] ? ? ?]; try discriminate Hs. cbn in Hm. subst. eexists.
  cbn -[getUserProfile saveDailyInteraction Morning.getMorningAdvice].
  unfold handlePrioritySelect. by rewrite Hp.
Qed.

Lemma afternoon_concern_saves clk st env profile c :
  a_step st = StepConcern -> getUserProfile env = Some profile ->
  exists st', afternoon_visit clk st env [SelectConcern c] =
    Some (st', saveDailyInteraction (mkDailyInteraction None (page_userId profile) (today clk)
                 None (Some (mkAfternoonResponse (a_dayRating st) c (now clk))) None) env).
Proof.
  intros Hs Hp. destruct st as [[] ? ? ?]; try discriminate Hs. eexists.
  cbn -[getUserProfile saveDailyInteraction Afternoon.getAfternoonSuggestion].
  unfold handleConcernSelect. by rewrite Hp.
Qed.

Lemma night_positive_saves clk st env profile dc good :
  n_step st = StepPositive -> n_dayComparison st = Some dc -> n_didSomethingGood st = Some good ->
  getUserProfile env = Some profile ->
  exists st', night_visit clk st env [ContinuePositive] =
    Some (st', saveDailyInteraction (mkDailyInteraction None (page_userId profile) (today clk)
                 None None (Some (mkNightResponse dc good (parsePositiveThings (n_positiveThings st))
                                    (now clk)))) env).
Proof.
  intros Hs Hd Hg Hp. destruct (getNightReflection_some dc good profile) as [r Hr].
  destruct st as [[] ? ? ? ?]; try discriminate Hs. cbn in Hd, Hg. subst. eexists.
  cbn -[getUserProfile saveDailyInteraction Night.getNightReflection parsePositiveThings].
  unfold handleComplete. rewrite Hp. cbn -[saveDailyInteraction Night.getNightReflection parsePositiveThings].
  by rewrite Hr.
Qed.

Lemma run_page_cons {S E} (step : S -> Env -> E -> option (PageOutcome S)) st env ev evs o :
  step st env ev = Some o -> run_page step st env (ev :: evs) = run_page step (po_state o) (po_env o) evs.
Proof. intros E1. cbn. by rewrite E1. Qed.

(** Two instants of the same UTC day give their handlers the same date. *)
Lemma clock_same_day t1 t2 c1 c2 :
  (0 <= t1 < 253402300800000)%Z -> (0 <= t2 < 253402300800000)%Z ->
  clock_at t1 = Some c1 -> clock_at t2 = Some c2 -> Day t1 = Day t2 -> today c1 = today c2.
Proof.
  intros R1 R2 C1 C2 D. apply clock_at_fields in C1 as [T1 _], C2 as [T2 _].
  apply (today_at_day t1 t2 R1 R2) in D. congruence.
Qed.

(** A save on the record's own day and user, seen field by field: each
    answer present in the new record replaces the stored one. *)
Lemma today_after_save_fields i env :
  window_defined env = true ->
  exists r, getTodayInteraction (userId i) (date i) (saveDailyInteraction i env) = Some r /\
    morning r = (getTodayInteraction (userId i) (date i) env ≫= morning) ⊕ morning i /\
    afternoon r = (getTodayInteraction (userId i) (date i) env ≫= afternoon) ⊕ afternoon i /\
    night r = (getTodayInteraction (userId i) (date i) env ≫= night) ⊕ night i.
Proof.
  intros W. rewrite today_after_save by done. eexists. split; [reflexivity|].
  destruct (getTodayInteraction _ _ env); cbn; [done|]. by destruct (morning i), (afternoon i), (night i).
Qed.

(** C16. One record per day through the pages: a user with a stored
    profile who completes the morning, the afternoon and the night
    check-ins at three instants of the same UTC day finds, in the daily
    log under that day, one record with the three answers, each with its
    own timestamp. *)
Theorem full_day_one_record env profile t1 t2 t3 c1 c2 c3 m p rating c dc good text :
  getUserProfile env = Some profile ->
  clock_at t1 = Some c1 -> clock_at t2 = Some c2 -> clock_at t3 = Some c3 ->
  (0 <= t1 < 253402300800000)%Z -> (0 <= t2 < 253402300800000)%Z ->
  (0 <= t3 < 253402300800000)%Z -> Day t1 = Day t2 -> Day t2 = Day t3 ->
  (0 <= rating <= 10)%Z ->
  exists sm sa sn env1 env2 env3 r,
    morning_visit c1 initialMorning env (morning_actions m p) = Some (sm, env1) /\
    afternoon_visit c2 initialAfternoon env1 (afternoon_actions rating c) = Some (sa, env2) /\
    night_visit c3 initialNight env2 (night_actions dc good text) = Some (sn, env3) /\
    getTodayInteraction (page_userId profile) (today c3) env3 = Some r /\
    morning r = Some (mkMorningResponse m p t1) /\
    afternoon r = Some (mkAfternoonResponse rating c t2) /\
    night r = Some (mkNightResponse dc good (parsePositiveThings text) t3).
Proof.
  intros Hp C1 C2 C3 R1 R2 R3 D12 D23 Hr.
  pose proof (clock_same_day _ _ _ _ R1 R2 C1 C2 D12) as E12.
  pose proof (clock_same_day _ _ _ _ R2 R3 C2 C3 D23) as E23.
  apply clock_at_fields in C1 as [_ N1], C2 as [_ N2], C3 as [_ N3].
  destruct (morning_visit_saves c1 initialMorning env profile m p eq_refl Hp) as [sm Em].
  set (i1 := mkDailyInteraction None _ _ _ _ _) in Em.
  destruct (today_after_save_fields i1 env (profile_window _ _ Hp)) as (r1 & H1 & M1 & _).
  rewrite <- (saveDaily_profile i1) in Hp.
  destruct (afternoon_visit_saves c2 initialAfternoon _ profile rating c eq_refl Hp Hr) as [sa Ea].
  set (i2 := mkDailyInteraction None _ _ _ _ _) in Ea.
  destruct (today_after_save_fields i2 _ (profile_window _ _ Hp)) as (r2 & H2 & M2 & A2 & _).
  rewrite <- (saveDaily_profile i2) in Hp.
  destruct (night_visit_saves c3 initialNight _ profile dc good text eq_refl Hp) as [sn En].
  set (i3 := mkDailyInteraction None _ _ _ _ _) in En.
  destruct (today_after_save_fields i3 _ (profile_window _ _ Hp)) as (r & H3 & M3 & A3 & N3').
  subst i1 i2 i3.
  cbn [userId date morning afternoon night] in *.
  rewrite <- E12, H1 in M2. rewrite <- E23, H2 in M3, A3.
  eexists sm, sa, sn, _, _, _, r. split_and!; [exact Em | exact Ea | exact En | exact H3 | ..].
  - rewrite M3. cbn [mbind option_bind spread]. rewrite M2. cbn [mbind option_bind spread].
    rewrite M1. by rewrite N1.
  - rewrite A3. cbn [mbind option_bind spread]. rewrite A2. by rewrite N2.
  - rewrite N3'. cbn. by rewrite N3.
Qed.

(** ** The day of a check-in after local midnight *)

(** C20. The day key is the UTC day, not the user's: for a user whose
    clock is [offset] milliseconds ahead of UTC (Lisbon in summer: one
    hour), a morning check-in made in the first [offset] milliseconds of
    the local day is filed under the previous local date; the lookup
    [getTodayInteraction] for the local date does not see it, and the
    lookup for the previous date returns the answer just given. *)
Theorem morning_after_local_midnight st0 env profile t offset clk m p :
  (0 < offset < msPerDay)%Z -> (0 <= t)%Z -> (t + offset < 253402300800000)%Z ->
  (TimeWithinDay (t + offset) < offset)%Z ->
  clock_at t = Some clk -> getUserProfile env = Some profile -> m_step st0 = StepMood ->
  exists st env', morning_visit clk st0 env (morning_actions m p) = Some (st, env') /\
    today clk = date_part (Day (t + offset) - 1) /\
    date_part (Day (t + offset) - 1) <> date_part (Day (t + offset)) /\
    getTodayInteraction (page_userId profile) (date_part (Day (t + offset))) env' =
      getTodayInteraction (page_userId profile) (date_part (Day (t + offset))) env /\
    exists r, getTodayInteraction (page_userId profile) (date_part (Day (t + offset) - 1)) env' = Some r /\
      morning r = Some (mkMorningResponse m p t).
Proof.
  intros Ho Ht Hr Hw Hc Hp Hs.
  destruct (today_at_previous_local_day t offset Ho Ht Hr Hw) as [Hkey Hne].
  apply clock_at_fields in Hc as [Htd Hnow]. rewrite Hkey in Htd. injection Htd as Htoday.
  destruct (morning_visit_saves clk st0 env profile m p Hs Hp) as [st E].
  eexists st, _. split; [exact E|]. split; [done|]. split; [exact Hne|]. split.
  - apply today_other_after_save. unfold interaction_key. cbn. intros [= E']. congruence.
  - destruct (today_after_save_fields
                (mkDailyInteraction None (page_userId profile) (today clk)
                   (Some (mkMorningResponse m p (now clk))) None None) env (profile_window env profile Hp))
      as (r & Hr' & Hm & _).
    cbn [userId date morning] in Hr', Hm. rewrite Htoday. exists r. split; [exact Hr'|].
    rewrite Hm, spread_Some, Hnow. reflexivity.
Qed.

(** ** Every check-in can be completed *)

Lemma morning_live st env clk p profile :
  morning_reachable st env -> getUserProfile env = Some profile ->
  exists evs st' env' r mood, (List.length evs <= 3)%nat /\
    morning_visit clk st env evs = Some (st', env') /\
    getTodayInteraction (page_userId profile) (today clk) env' = Some r /\
    morning r = Some (mkMorningResponse mood p (now clk)).
Proof.
  intros R Hp. destruct (morning_reachable_inv _ _ R) as [Hpri Hres].
  assert (Hredo : m_step st = StepResult ->
            morning_step st env clk MorningRedo = Some (mkPageOutcome initialMorning env None)).
  { intros Hs. destruct (Hres Hs) as (? & ? & ? & _ & _ & Ha). unfold morning_step, morning_rendered.
    by rewrite Hs, Ha, bool_decide_true by eauto. }
  destruct (today_after_save_fields
              (mkDailyInteraction None (page_userId profile) (today clk)
                 (Some (mkMorningResponse Ok p (now clk))) None None) env (profile_window _ _ Hp))
    as (r & Hr & Hm & _).
  destruct (m_step st) eqn:Hs.
  - destruct (morning_visit_saves clk st env profile Ok p Hs Hp) as [st' E].
    eexists (morning_actions Ok p), st', _, r, Ok. split_and!; [cbn; lia | exact E | exact Hr | by rewrite Hm].
  - destruct (Hpri eq_refl) as [mood Hmood].
    destruct (morning_priority_saves clk st env profile mood p Hs Hmood Hp) as [st' E].
    destruct (today_after_save_fields
                (mkDailyInteraction None (page_userId profile) (today clk)
                   (Some (mkMorningResponse mood p (now clk))) None None) env (profile_window _ _ Hp))
      as (r' & Hr' & Hm' & _).
    eexists [SelectPriority p], st', _, r', mood. split_and!; [cbn; lia | exact E | exact Hr' | by rewrite Hm'].
  - destruct (morning_visit_saves clk initialMorning env profile Ok p eq_refl Hp) as [st' E].
    eexists (MorningRedo :: morning_actions Ok p), st', _, r, Ok.
    split_and!; [cbn; lia | | exact Hr | by rewrite Hm].
    unfold morning_visit. rewrite (run_page_cons _ _ _ _ _ _ (Hredo eq_refl)). exact E.
Qed.

Lemma afternoon_live st env clk c profile :
  afternoon_reachable st env -> getUserProfile env = Some profile ->
  exists evs st' env' r rating, (List.length evs <= 4)%nat /\ (0 <= rating <= 10)%Z /\
    afternoon_visit clk st env evs = Some (st', env') /\
    getTodayInteraction (page_userId profile) (today clk) env' = Some r /\
    afternoon r = Some (mkAfternoonResponse rating c (now clk)).
Proof.
  intros R Hp. destruct (afternoon_reachable_inv _ _ R) as [Hb Hres].
  destruct (today_after_save_fields
              (mkDailyInteraction None (page_userId profile) (today clk)
                 None (Some (mkAfternoonResponse (a_dayRating st) c (now clk))) None) env
              (profile_window _ _ Hp)) as (r & Hr & _ & Ha & _).
  destruct (a_step st) eqn:Hs.
  - destruct (afternoon_visit_saves clk st env profile (a_dayRating st) c Hs Hp Hb) as [st' E].
    eexists (afternoon_actions (a_dayRating st) c), st', _, r, (a_dayRating st).
    split_and!; [cbn; lia | lia | lia | exact E | exact Hr | rewrite Ha; cbn [afternoon spread]; reflexivity].
  - destruct (afternoon_concern_saves clk st env profile c Hs Hp) as [st' E].
    eexists [SelectConcern c], st', _, r, (a_dayRating st).
    split_and!; [cbn; lia | lia | lia | exact E | exact Hr | rewrite Ha; cbn [afternoon spread]; reflexivity].
  - destruct (Hres eq_refl) as (? & ? & _ & Hsug).
    destruct (afternoon_visit_saves clk (mkAfternoonState StepRating (a_dayRating st) None None)
                env profile (a_dayRating st) c eq_refl Hp Hb) as [st' E].
    eexists (AfternoonRedo :: afternoon_actions (a_dayRating st) c), st', _, r, (a_dayRating st).
    split_and!; [cbn; lia | lia | lia | | exact Hr | rewrite Ha; cbn [afternoon spread]; reflexivity].
    unfold afternoon_visit.
    rewrite (run_page_cons _ _ _ _ _
               (mkPageOutcome (mkAfternoonState StepRating (a_dayRating st) None None) env None));
      [exact E|].
    unfold afternoon_step, afternoon_rendered. rewrite Hs, Hsug, bool_decide_true by eauto.
    reflexivity.
Qed.

Lemma night_live st env clk profile :
  night_reachable st env -> getUserProfile env = Some profile ->
  exists evs st' env' r dc good text, (List.length evs <= 5)%nat /\
    night_visit clk st env evs = Some (st', env') /\
    getTodayInteraction (page_userId profile) (today clk) env' = Some r /\
    night r = Some (mkNightResponse dc good (parsePositiveThings text) (now clk)).
Proof.
  intros R Hp. destruct (night_reachable_inv _ _ R) as (Hsc & Hpos & Hres).
  assert (Hsave : forall dc good text,
    exists r, getTodayInteraction (page_userId profile) (today clk)
      (saveDailyInteraction (mkDailyInteraction None (page_userId profile) (today clk) None None
         (Some (mkNightResponse dc good (parsePositiveThings text) (now clk)))) env) = Some r /\
      night r = Some (mkNightResponse dc good (parsePositiveThings text) (now clk))).
  { intros dc good text.
    destruct (today_after_save_fields
                (mkDailyInteraction None (page_userId profile) (today clk) None None
                   (Some (mkNightResponse dc good (parsePositiveThings text) (now clk)))) env
                (profile_window _ _ Hp)) as (r & Hr & _ & _ & Hn).
    exists r. split; [exact Hr|]. rewrite Hn. cbn [night spread]. reflexivity. }
  destruct (n_step st) eqn:Hs.
  - destruct (night_visit_saves clk st env profile Same true "" Hs Hp) as [st' E].
    destruct (Hsave Same true "") as (r & Hr & Hn).
    eexists (night_actions Same true ""), st', _, r, Same, true, "".
    split_and!; [cbn; lia | exact E | exact Hr | exact Hn].
  - destruct (Hsc eq_refl) as [dc Hdc].
    destruct (night_positive_saves clk (handleSelfCareSelect true st) env profile dc true
                eq_refl Hdc eq_refl Hp) as [st' E].
    destruct (Hsave dc true (n_positiveThings st)) as (r & Hr & Hn).
    eexists [SelectSelfCare true; ContinuePositive], st', _, r, dc, true, (n_positiveThings st).
    split_and!; [cbn; lia | | exact Hr | exact Hn].
    unfold night_visit.
    rewrite (run_page_cons _ _ _ _ _ (mkPageOutcome (handleSelfCareSelect true st) env None));
      [exact E|].
    unfold night_step, night_rendered. rewrite Hs. reflexivity.
  - destruct (Hpos eq_refl) as [[dc Hdc] [good Hg]].
    destruct (night_positive_saves clk st env profile dc good Hs Hdc Hg Hp) as [st' E].
    destruct (Hsave dc good (n_positiveThings st)) as (r & Hr & Hn).
    eexists [ContinuePositive], st', _, r, dc, good, (n_positiveThings st).
    split_and!; [cbn; lia | exact E | exact Hr | exact Hn].
  - destruct (Hres eq_refl) as (dc & good & prof & _ & _ & Href).
    destruct (getNightReflection_some dc good prof) as [x Hx].
    destruct (night_visit_saves clk initialNight env profile Same true "" eq_refl Hp) as [st' E].
    destruct (Hsave Same true "") as (r & Hr & Hn).
    eexists (NightRedo :: night_actions Same true ""), st', _, r, Same, true, "".
    split_and!; [cbn; lia | | exact Hr | exact Hn].
    unfold night_visit.
    rewrite (run_page_cons _ _ _ _ _ (mkPageOutcome initialNight env None)); [exact E|].
    unfold night_step, night_rendered. rewrite Hs, Href, Hx, bool_decide_true by eauto.
    reflexivity.
Qed.

(** C21. No check-in page can get stuck: from every state each page
    can reach, with a stored profile, a few clicks (at most three on the
    morning page, four on the afternoon page, five on the night page,
    [Refazer] included) complete the check-in and leave today's record
    of the user with that moment's answers. *)
Theorem checkins_completable clk profile :
  (forall st env p, morning_reachable st env -> getUserProfile env = Some profile ->
     exists evs st' env' r mood, (List.length evs <= 3)%nat /\
       morning_visit clk st env evs = Some (st', env') /\
       getTodayInteraction (page_userId profile) (today clk) env' = Some r /\
       morning r = Some (mkMorningResponse mood p (now clk))) /\
  (forall st env c, afternoon_reachable st env -> getUserProfile env = Some profile ->
     exists evs st' env' r rating, (List.length evs <= 4)%nat /\ (0 <= rating <= 10)%Z /\
       afternoon_visit clk st env evs = Some (st', env') /\
       getTodayInteraction (page_userId profile) (today clk) env' = Some r /\
       afternoon r = Some (mkAfternoonResponse rating c (now clk))) /\
  (forall st env, night_reachable st env -> getUserProfile env = Some profile ->
     exists evs st' env' r dc good text, (List.length evs <= 5)%nat /\
       night_visit clk st env evs = Some (st', env') /\
       getTodayInteraction (page_userId profile) (today clk) env' = Some r /\
       night r = Some (mkNightResponse dc good (parsePositiveThings text) (now clk))).
Proof.
  split_and!; intros *; [apply morning_live | apply afternoon_live | apply night_live].
Qed.

(** ** The option cards *)

(** C29. The option cards of the check-ins are complete and live exactly
    while their choice is accepted: the mood, priority, concern and
    comparison cards list each value of their type exactly once (their
    keys are a permutation of [enum]), each card is on screen exactly at
    its step, and the page accepts the choice of any value exactly at
    that step. *)
Theorem checkin_option_cards :
  map (fun o => o.1.1) MOODS ≡ₚ enum MoodType /\
  map (fun o => o.1.1) PRIORITIES ≡ₚ enum PriorityType /\
  map (fun o => o.1.1.1) CONCERNS ≡ₚ enum ConcernType /\
  map (fun o => o.1.1.1) DAY_COMPARISONS ≡ₚ enum DayRatingType /\
  (forall st m, (morning_view st = ShowMoods MOODS <-> m_step st = StepMood) /\
                (morning_rendered st (SelectMood m) = true <-> m_step st = StepMood)) /\
  (forall st p, (morning_view st = ShowPriorities PRIORITIES <-> m_step st = StepPriority) /\
                (morning_rendered st (SelectPriority p) = true <-> m_step st = StepPriority)) /\
  (forall st c, (afternoon_view st = ShowConcerns CONCERNS <-> a_step st = StepConcern) /\
                (afternoon_rendered st (SelectConcern c) = true <-> a_step st = StepConcern)) /\
  (forall st d, (night_view st = ShowComparisons DAY_COMPARISONS <-> n_step st = StepComparison) /\
                (night_rendered st (SelectComparison d) = true <-> n_step st = StepComparison)).
Proof.
  split_and!; try (apply (bool_decide_unpack _); vm_compute; reflexivity).
  - intros [[] ? ? []] ?; cbn; intuition discriminate.
  - intros [[] ? ? []] ?; cbn; intuition discriminate.
  - intros [[] ? ? []] ?; cbn; intuition discriminate.
  - intros [[] ? ? ? []] ?; cbn; intuition discriminate.
Qed.

(** ** Witnesses *)

Definition demo_env : Env := saveUserProfile (sample_profile [] [] [] false) (initial_env true).

Lemma full_day_one_record_witness :
  exists c1 c2 c3, clock_at 1784016000000 = Some c1 /\ clock_at 1784044800000 = Some c2 /\
    clock_at 1784066400000 = Some c3 /\
    exists sm sa sn env1 env2 env3 r,
      morning_visit c1 initialMorning demo_env (morning_actions Motivated Work) = Some (sm, env1) /\
      afternoon_visit c2 initialAfternoon env1 (afternoon_actions 7 Dinner) = Some (sa, env2) /\
      night_visit c3 initialNight env2 (night_actions Better true "Caminhei") = Some (sn, env3) /\
      getTodayInteraction "user" (today c3) env3 = Some r /\
      afternoon r = Some (mkAfternoonResponse 7 Dinner 1784044800000).
Proof.
  destruct (clock_at 1784016000000) as [c1|] eqn:C1; [|vm_compute in C1; discriminate].
  destruct (clock_at 1784044800000) as [c2|] eqn:C2; [|vm_compute in C2; discriminate].
  destruct (clock_at 1784066400000) as [c3|] eqn:C3; [|vm_compute in C3; discriminate].
  exists c1, c2, c3. split_and!; [done | done | done|].
  assert (Hp : getUserProfile demo_env = Some (sample_profile [] [] [] false)) by (vm_compute; reflexivity).
  destruct (full_day_one_record demo_env _ _ _ _ c1 c2 c3 Motivated Work 7 Dinner Better true "Caminhei"
              Hp C1 C2 C3 ltac:(lia) ltac:(lia) ltac:(lia) ltac:(vm_compute; reflexivity)
              ltac:(vm_compute; reflexivity) ltac:(lia))
    as (sm & sa & sn & env1 & env2 & env3 & r & Em & Ea & En & Hr & _ & Ha & _).
  exists sm, sa, sn, env1, env2, env3, r. split_and!; [exact Em | exact Ea | exact En | exact Hr | exact Ha].
Defined.

(** 00:30 in Lisbon on 15 July 2026 (summer time, UTC+1): the answer is
    filed under 14 July. *)
Lemma morning_after_local_midnight_witness :
  exists clk, clock_at 1784071800000 = Some clk /\ today clk = "2026-07-14" /\
    exists st env', morning_visit clk initialMorning demo_env (morning_actions Tired Work) = Some (st, env') /\
      date_part (Day (1784071800000 + 3600000)) = "2026-07-15" /\
      getTodayInteraction "user" "2026-07-15" env' = getTodayInteraction "user" "2026-07-15" demo_env /\
      exists r, getTodayInteraction "user" "2026-07-14" env' = Some r /\
        morning r = Some (mkMorningResponse Tired Work 1784071800000).
Proof.
  destruct (clock_at 1784071800000) as [clk|] eqn:C; [|vm_compute in C; discriminate].
  assert (Hp : getUserProfile demo_env = Some (sample_profile [] [] [] false)) by (vm_compute; reflexivity).
  assert (Hw : (TimeWithinDay (1784071800000 + 3600000) < 3600000)%Z) by (vm_compute; reflexivity).
  destruct (morning_after_local_midnight initialMorning demo_env _ 1784071800000 3600000 clk Tired Work
              ltac:(unfold msPerDay; lia) ltac:(lia) ltac:(lia) Hw C Hp eq_refl)
    as (st & env' & E & Ht & _ & Hl & r & Hr & Hm).
  assert (D1 : date_part (Day (1784071800000 + 3600000) - 1) = "2026-07-14") by (vm_compute; reflexivity).
  assert (D2 : date_part (Day (1784071800000 + 3600000)) = "2026-07-15") by (vm_compute; reflexivity).
  rewrite D1 in Ht, Hr. rewrite D2 in Hl.
  exists clk. split; [reflexivity|]. split; [exact Ht|]. exists st, env'. split_and!; [exact E | exact D2 | exact Hl |].
  exists r. split; [exact Hr | exact Hm].
Defined.

Lemma checkins_completable_witness :
  exists evs st' env' r mood, (List.length evs <= 3)%nat /\
    morning_visit (mkClock "2026-07-14" 1784016000000)
      (mkMorningState StepPriority (Some Motivated) None None) demo_env evs = Some (st', env') /\
    getTodayInteraction "user" "2026-07-14" env' = Some r /\
    morning r = Some (mkMorningResponse mood Health 1784016000000).
Proof.
  exact (proj1 (checkins_completable (mkClock "2026-07-14" 1784016000000)
                  (sample_profile [] [] [] false)) _ _ Health morning_demo_reachable
           ltac:(vm_compute; reflexivity)).
Defined.
