(* ===== verification/AppShell.v ===== *)
(** * AppShell: the home, settings and profile pages

    [src/src/app/page.tsx] ([Home]), [src/src/app/settings/page.tsx]
    ([SettingsPage]) and [src/src/app/profile/page.tsx] ([ProfilePage]):
    the pages around the three check-ins.  [Home] runs [checkOnboarding]
    once, in a [useEffect], and until it has run shows only the loading
    text; [SettingsPage] guards [clearAllData] behind a confirmation card
    ([showConfirm]); [ProfilePage] is stateless and renders the stored
    profile, redirecting to the onboarding when there is none.  Each
    button is an event of the page; its guard is whether the JSX renders
    it, and a handler returns the page state, the store and the route
    given to [router.push]. *)

From stdpp Require Import base list strings gmap.
From Stdlib Require Import String ZArith Lia.
From S2P Require Import Prelude Types Storage OnboardingPage.
Open Scope string_scope.

Module Home.

(** [isLoading] and [userName]. *)
Record HomeState := mkHomeState { isLoading : bool; userName : string }.

Definition initialHome : HomeState := mkHomeState true "".

(** [checkOnboarding]: no onboarding flag sends the user to the form (the
    page keeps loading); otherwise the stored profile's name, if a profile
    is stored, becomes [userName], and loading ends. *)
Definition checkOnboarding (st : HomeState) (env : Env) : PageOutcome HomeState :=
  if negb (isOnboardingComplete env) then mkPageOutcome st env (Some "/onboarding")
  else
    let st1 := match getUserProfile env with
               | Some profile => mkHomeState (isLoading st) (name profile)
               | None => st
               end in
    mkPageOutcome (mkHomeState false (userName st1)) env None.

(** The [moments] array: id, title, description and path of each card. *)
Record Moment := mkMoment { moment_id : string; title : string; description : string;
                            path : string }.

Definition moments : list Moment :=
  [mkMoment "morning" "Manhã" "Como te sentes hoje?" "/morning";
   mkMoment "afternoon" "Tarde" "Como está a correr o dia?" "/afternoon";
   mkMoment "night" "Noite" "Reflexão do dia" "/night"].

(** The profile and settings buttons of the header, and the [k]-th card. *)
Inductive HomeEvent := OpenProfile | OpenSettings | OpenMoment (k : nat).

(** While [isLoading] the page renders only the loading text. *)
Definition home_rendered (st : HomeState) (ev : HomeEvent) : bool :=
  negb (isLoading st) &&
  match ev with OpenMoment k => (k <? List.length moments)%nat | _ => true end.

Definition home_step (st : HomeState) (env : Env) (ev : HomeEvent) : PageOutcome HomeState :=
  if negb (home_rendered st ev) then mkPageOutcome st env None else
  match ev with
  | OpenProfile => mkPageOutcome st env (Some "/profile")
  | OpenSettings => mkPageOutcome st env (Some "/settings")
  | OpenMoment k => mkPageOutcome st env (option_map path (moments !! k))
  end.

Inductive HomeView :=
  | HomeLoading
  | HomeScreen (greeting : string) (cards : list (string * string)).

Definition home_view (st : HomeState) : HomeView :=
  if isLoading st then HomeLoading
  else HomeScreen ("Olá, " ++ userName st ++ "! 👋")
         (map (fun m => (title m, description m)) moments).

End Home.

Module Settings.

(** [showConfirm]. *)
Record SettingsState := mkSettingsState { showConfirm : bool }.

Definition initialSettings : SettingsState := mkSettingsState false.

(** The back arrow, [Ver Horários Configurados], [Apagar Todos os
    Dados], [Cancelar] and [Sim, Apagar Tudo]. *)
Inductive SettingsEvent :=
  | SettingsBack | ViewSchedule | AskDelete | CancelDelete | ConfirmDelete.

Definition handleReset (st : SettingsState) (env : Env) : PageOutcome SettingsState :=
  mkPageOutcome st (clearAllData env) (Some "/onboarding").

(** [{!showConfirm ? ... : ...}]: the delete button, or the two buttons of
    the confirmation card. *)
Definition settings_rendered (st : SettingsState) (ev : SettingsEvent) : bool :=
  match ev with
  | AskDelete => negb (showConfirm st)
  | CancelDelete | ConfirmDelete => showConfirm st
  | SettingsBack | ViewSchedule => true
  end.

Definition settings_step (st : SettingsState) (env : Env) (ev : SettingsEvent)
    : PageOutcome SettingsState :=
  if negb (settings_rendered st ev) then mkPageOutcome st env None else
  match ev with
  | SettingsBack => mkPageOutcome st env (Some "/")
  | ViewSchedule => mkPageOutcome st env (Some "/profile")
  | AskDelete => mkPageOutcome (mkSettingsState true) env None
  | CancelDelete => mkPageOutcome (mkSettingsState false) env None
  | ConfirmDelete => handleReset st env
  end.

(** A sequence of clicks on the page; a click that navigates leaves it. *)
Fixpoint settings_run (st : SettingsState) (env : Env) (evs : list SettingsEvent)
    : SettingsState * Env :=
  match evs with
  | [] => (st, env)
  | ev :: evs' =>
      let o := settings_step st env ev in
      match po_nav o with
      | Some _ => (po_state o, po_env o)
      | None => settings_run (po_state o) (po_env o) evs'
      end
  end.

End Settings.

Module Profile.

(** The cards of the page, field by field. *)
Record ProfileCard := mkProfileCard {
  pc_name : string; pc_age : Z; pc_gender : option string; pc_zodiacSign : string;
  pc_country : string; pc_timezone : string;
  pc_morningTime : string; pc_afternoonTime : string; pc_nightTime : string;
  pc_foods : list string; pc_genres : list string; pc_styles : list string;
  pc_goals : list string; pc_suno_banner : bool
}.

Inductive ProfileView := ProfileNull | ProfileScreen (card : ProfileCard).

(** The render: no stored profile renders [null] after
    [router.push('/onboarding')]. *)
Definition profile_render (env : Env) : ProfileView * option string :=
  match getUserProfile env with
  | None => (ProfileNull, Some "/onboarding")
  | Some p =>
      (ProfileScreen (mkProfileCard (name p) (age p) (shown (gender p)) (zodiacSign p)
                        (country p) (timezone p) (morningTime p) (afternoonTime p)
                        (nightTime p) (foodPreferences p) (movieGenres p) (musicStyles p)
                        (mainGoal p) (wantsSunoPrompts p)), None)
  end.

(** The back arrow and [Editar Perfil]. *)
Inductive ProfileEvent := ProfileBack | EditProfile.

Definition profile_step (env : Env) (ev : ProfileEvent) : option string :=
  match profile_render env, ev with
  | (ProfileNull, _), _ => None
  | _, ProfileBack => Some "/"
  | _, EditProfile => Some "/settings"
  end.

(** React's [key] of each chip is its text: the keys of a list are
    distinct when the list has no duplicates. *)
Definition keys_distinct (c : ProfileCard) : Prop :=
  NoDup (pc_foods c) /\ NoDup (pc_genres c) /\ NoDup (pc_styles c) /\ NoDup (pc_goals c).

End Profile.

Import Home Settings Profile.

(** ** Properties *)

(** A click on the settings page leaves the store alone, except the
    confirmed reset. *)
Lemma settings_step_env st env ev :
  po_env (settings_step st env ev) = env \/
  (ev = ConfirmDelete /\ settings_rendered st ev = true /\
   settings_step st env ev = handleReset st env).
Proof. unfold settings_step. destruct st as [[]], ev; cbn; auto. Qed.

Lemma settings_step_confirm st env ev :
  settings_rendered (po_state (settings_step st env ev)) ConfirmDelete = true ->
  settings_rendered st ConfirmDelete = true \/ ev = AskDelete.
Proof. unfold settings_step. destruct st as [[]], ev; cbn; auto. Qed.

Lemma settings_run_env st env evs st' env' :
  settings_run st env evs = (st', env') ->
  env' = env \/
  (env' = clearAllData env /\ exists pre post, evs = (pre ++ ConfirmDelete :: post)%list /\
     (settings_rendered st ConfirmDelete = true \/ In AskDelete pre)).
Proof.
  revert st env. induction evs as [|ev evs IH]; intros st env; cbn; [intros [= _ ->]; auto|].
  destruct (settings_step_env st env ev) as [E | (-> & Hc & Eo)].
  - destruct (po_nav (settings_step st env ev)); [intros [= _ <-]; auto|].
    intros Hrun. destruct (IH _ _ Hrun) as [-> | (-> & pre & post & -> & Hpre)]; rewrite E; [auto|].
    right. split; [done|]. exists (ev :: pre), post. split; [done|].
    destruct Hpre as [Hs | Hin]; [|by right; right].
    destruct (settings_step_confirm st env ev Hs) as [H | ->]; [by left | by right; left].
  - rewrite Eo. cbn. intros [= _ <-]. right. split; [done|]. by exists [], evs; auto.
Qed.

Lemma clearAllData_pages env :
  po_nav (checkOnboarding initialHome (clearAllData env)) = Some "/onboarding" /\
  profile_render (clearAllData env) = (ProfileNull, Some "/onboarding").
Proof.
  destruct (clearAllData_reads env) as (G1 & G2 & _).
  unfold checkOnboarding, profile_render. by rewrite G1, G2.
Qed.

(** C34. The store's invariant makes the home page's greeting sound:
    on any store the app can produce, [checkOnboarding] either sends the
    user to the onboarding (no flag) and keeps the loading text, or
    greets the stored profile by its name above the three moment cards;
    the "Olá, !" of a flag without a profile never shows. *)
Theorem home_check_outcome env :
  reachable env ->
  let o := checkOnboarding initialHome env in
  (isOnboardingComplete env = false /\ po_nav o = Some "/onboarding" /\
   home_view (po_state o) = HomeLoading) \/
  (exists p, getUserProfile env = Some p /\ po_nav o = None /\
   home_view (po_state o) =
     HomeScreen ("Olá, " ++ name p ++ "! 👋")
       [("Manhã", "Como te sentes hoje?"); ("Tarde", "Como está a correr o dia?");
        ("Noite", "Reflexão do dia")]).
Proof.
  intros R. destruct (reachable_inv_storage env R) as (_ & _ & _ & Hflag & _).
  unfold checkOnboarding. destruct (isOnboardingComplete env) eqn:E; cbn; [|by left].
  right. destruct (Hflag eq_refl) as [p Hp]. rewrite Hp. by exists p.
Qed.

(** C35. Deleting the data takes two clicks: in any sequence of clicks
    on the settings page, opened with the confirmation card closed, the
    store is either untouched or cleared by [clearAllData], and it is
    cleared only by a [Sim, Apagar Tudo] click that some earlier
    [Apagar Todos os Dados] click made visible. *)
Theorem settings_delete_needs_confirmation env evs st' env' :
  settings_run initialSettings env evs = (st', env') ->
  env' = env \/
  (env' = clearAllData env /\ exists pre post, evs = (pre ++ ConfirmDelete :: post)%list /\ In AskDelete pre).
Proof.
  intros Hrun. destruct (settings_run_env _ _ _ _ _ Hrun) as [|(? & pre & post & ? & [Hs|?])];
    [by left | discriminate | right; eauto].
Qed.

(** C36. The confirmed reset clears the profile, the onboarding flag and
    the daily log, and sends the user to the onboarding; afterwards the
    home page and the profile page also send the user there. *)
Theorem reset_restarts_onboarding st env :
  showConfirm st = true ->
  let o := settings_step st env ConfirmDelete in
  po_nav o = Some "/onboarding" /\ getUserProfile (po_env o) = None /\
  isOnboardingComplete (po_env o) = false /\ getDailyInteractions (po_env o) = [] /\
  po_nav (checkOnboarding initialHome (po_env o)) = Some "/onboarding" /\
  profile_render (po_env o) = (ProfileNull, Some "/onboarding").
Proof.
  intros Hs. destruct st as [[]]; [|discriminate]. cbn.
  destruct (clearAllData_reads env) as (G1 & G2 & G3).
  destruct (clearAllData_pages env). by split_and!.
Qed.

(** C37. [Editar Perfil] cannot edit the profile: it opens the settings
    page, and no click there writes a profile; the stored profile stays
    as it was or is deleted by the reset.  A profile changes only by
    deleting everything and onboarding again. *)
Theorem edit_profile_cannot_edit env p :
  getUserProfile env = Some p ->
  profile_step env EditProfile = Some "/settings" /\
  forall st ev, getUserProfile (po_env (settings_step st env ev)) = Some p \/
                getUserProfile (po_env (settings_step st env ev)) = None.
Proof.
  intros Hp. split; [unfold profile_step, profile_render; by rewrite Hp|].
  intros st ev. destruct (settings_step_env st env ev) as [-> | (_ & _ & ->)]; [by left|].
  right. apply clearAllData_reads.
Qed.

(** C38. The profile the onboarding stores renders on the profile page
    with the form's lists, and the [key]s of each list of chips are
    distinct (the form toggles items, so no list has a duplicate). *)
Theorem profile_after_onboarding st env :
  onboarding_reachable st env -> step st = totalSteps -> isStepValid st = true ->
  window_defined env = true ->
  exists p c nav, onboarding_step st env ClickNext = Some (mkOutcome st (saveUserProfile p env) nav) /\
    profile_render (saveUserProfile p env) = (ProfileScreen c, None) /\
    pc_foods c = fd_foodPreferences (formData st) /\ pc_genres c = fd_movieGenres (formData st) /\
    pc_styles c = fd_musicStyles (formData st) /\ pc_goals c = fd_mainGoal (formData st) /\
    keys_distinct c.
Proof.
  intros R Hs Hv W. destruct (finish_profile st env R Hs Hv) as (p & nav & Hp & Ho).
  destruct (reachable_inv st env R) as (_ & _ & _ & Hnd).
  destruct (as_profile_lists _ _ Hp) as (L1 & L2 & L3 & L4).
  destruct (saveUserProfile_reads p env W) as (Hr & _).
  eexists p, _, nav. split; [exact Ho|]. unfold profile_render. rewrite Hr.
  split; [reflexivity|]. cbn. rewrite L1, L2, L3, L4. unfold keys_distinct, nodup_inv in *. by cbn.
Qed.

(** ** Witnesses *)

Definition onboarded_env : Env :=
  saveUserProfile (sample_profile ["Saudável"] ["Drama"] ["Pop"] true) (initial_env true).

Lemma onboarded_env_reachable : reachable onboarded_env.
Proof. eapply reachable_step; [apply reachable_init | constructor]. Qed.

Lemma home_check_outcome_witness :
  reachable onboarded_env /\
  po_nav (checkOnboarding initialHome onboarded_env) = None /\
  home_view (po_state (checkOnboarding initialHome onboarded_env)) =
    HomeScreen "Olá, Ana! 👋"
      [("Manhã", "Como te sentes hoje?"); ("Tarde", "Como está a correr o dia?");
       ("Noite", "Reflexão do dia")].
Proof.
  split; [exact onboarded_env_reachable|].
  destruct (home_check_outcome _ onboarded_env_reachable) as [(E & _)|(p & Hp & Hn & Hv)];
    [vm_compute in E; discriminate|].
  vm_compute in Hp. injection Hp as <-. split; [exact Hn | exact Hv].
Defined.

Lemma settings_delete_needs_confirmation_witness :
  settings_run initialSettings onboarded_env [AskDelete; ConfirmDelete] =
    (mkSettingsState true, clearAllData onboarded_env) /\
  (clearAllData onboarded_env = onboarded_env \/
   (clearAllData onboarded_env = clearAllData onboarded_env /\
    exists pre post, [AskDelete; ConfirmDelete] = (pre ++ ConfirmDelete :: post)%list /\
      In AskDelete pre)).
Proof.
  assert (H : settings_run initialSettings onboarded_env [AskDelete; ConfirmDelete] =
                (mkSettingsState true, clearAllData onboarded_env)) by reflexivity.
  split; [exact H | exact (settings_delete_needs_confirmation _ _ _ _ H)].
Defined.

Lemma reset_restarts_onboarding_witness :
  showConfirm (mkSettingsState true) = true /\
  po_nav (settings_step (mkSettingsState true) onboarded_env ConfirmDelete) = Some "/onboarding" /\
  getUserProfile (po_env (settings_step (mkSettingsState true) onboarded_env ConfirmDelete)) = None.
Proof.
  destruct (reset_restarts_onboarding (mkSettingsState true) onboarded_env eq_refl)
    as (N & P & _). split; [reflexivity | split; [exact N | exact P]].
Defined.

Lemma edit_profile_cannot_edit_witness :
  getUserProfile onboarded_env = Some (sample_profile ["Saudável"] ["Drama"] ["Pop"] true) /\
  profile_step onboarded_env EditProfile = Some "/settings".
Proof.
  assert (H : getUserProfile onboarded_env = Some (sample_profile ["Saudável"] ["Drama"] ["Pop"] true))
    by (vm_compute; reflexivity).
  split; [exact H | exact (proj1 (edit_profile_cannot_edit _ _ H))].
Defined.

Lemma profile_after_onboarding_witness :
  onboarding_reachable demo_run.1 demo_run.2 /\ step demo_run.1 = totalSteps /\
  isStepValid demo_run.1 = true /\ window_defined demo_run.2 = true /\
  exists p c nav, onboarding_step demo_run.1 demo_run.2 ClickNext =
                Some (mkOutcome demo_run.1 (saveUserProfile p demo_run.2) nav) /\
    profile_render (saveUserProfile p demo_run.2) = (ProfileScreen c, None) /\ keys_distinct c.
Proof.
  assert (Hs : step demo_run.1 = totalSteps) by (vm_compute; reflexivity).
  assert (Hv : isStepValid demo_run.1 = true) by (vm_compute; reflexivity).
  assert (W : window_defined demo_run.2 = true) by (vm_compute; reflexivity).
  split; [exact demo_reachable|]. split; [exact Hs|]. split; [exact Hv|]. split; [exact W|].
  destruct (profile_after_onboarding _ _ demo_reachable Hs Hv W)
    as (p & c & nav & Ho & Hr & _ & _ & _ & _ & Hk).
  exists p, c, nav. split_and!; assumption.
Defined.
