(* ===== verification/App.v ===== *)
(** * App: every page on one store

    The pages share the browser's [localStorage]: the onboarding writes
    the profile, the three check-ins upsert today's record, the settings
    page clears everything; the home and profile pages only read.
    [app_reachable] is the set of stores that any interleaving of the
    writing pages' actions produces from an empty store, with the clock
    of each check-in read at some instant of the years 1970 to 9999.

    The theorems show that the pages only write through the operations
    of [storage_step], so the invariant of the store holds for every such
    store, and that every record of the daily log has the type
    [DailyInteraction] of [types.ts] with the refinements its comments and
    its use state: a non-empty [userId], a [date] of the form
    [YYYY-MM-DD], [dayRating] in [0..10], positive things that are not
    blank, and timestamps that are valid dates. *)

From stdpp Require Import base list strings gmap.
From Stdlib Require Import String ZArith Lia.
From S2P Require Import Prelude Types IsoDate AiResponses Storage OnboardingPage MorningPage AfternoonPage NightPage Session AppShell.
Open Scope string_scope.

(** ** The type of a stored record *)

(** [new Date(t)] is a valid date: [getTime()] is not [NaN]. *)
Definition valid_time (t : Z) : bool := (Z.abs t <=? 8640000000000000)%Z.

Definition opt_wt {A} (f : A -> bool) (x : option A) : bool :=
  match x with Some a => f a | None => true end.

Definition wt_morning (m : MorningResponse) : bool := valid_time (morning_timestamp m).

(** [dayRating: number; // 0-10]. *)
Definition wt_afternoon (a : AfternoonResponse) : bool :=
  (0 <=? dayRating a)%Z && (dayRating a <=? 10)%Z && valid_time (afternoon_timestamp a).

Definition wt_night (n : NightResponse) : bool :=
  opt_wt (forallb trim_nonempty) (positiveThings n) && valid_time (night_timestamp n).

Definition wt_interaction (i : DailyInteraction) : bool :=
  negb (String.eqb (userId i) "") && is_date_key (date i) &&
  opt_wt wt_morning (morning i) && opt_wt wt_afternoon (afternoon i) && opt_wt wt_night (night i).

Definition wt_log (env : Env) : bool := forallb wt_interaction (getDailyInteractions env).

(** ** The pages on one store *)

(** The time values of the years 1970 to 9999. *)
Definition in_era (t : Z) : Prop := (0 <= t < 253402300800000)%Z.

Inductive app_reachable : Env -> Prop :=
  | app_init w : app_reachable (initial_env w)
  | app_onboarding env st ev o :
      app_reachable env -> onboarding_step st env ev = Some o -> app_reachable (o_env o)
  | app_morning env st t clk ev o :
      app_reachable env -> in_era t -> clock_at t = Some clk ->
      morning_step st env clk ev = Some o -> app_reachable (po_env o)
  | app_afternoon env st env0 t clk ev :
      app_reachable env -> afternoon_reachable st env0 -> in_era t -> clock_at t = Some clk ->
      app_reachable (po_env (afternoon_step st env clk ev))
  | app_night env st t clk ev o :
      app_reachable env -> in_era t -> clock_at t = Some clk ->
      night_step st env clk ev = Some o -> app_reachable (po_env o)
  | app_settings env st ev :
      app_reachable env -> app_reachable (po_env (Settings.settings_step st env ev)).

(** The user of the demo form of the onboarding, who then answers the
    morning check-in (tired, work) at 2026-07-14T08:00Z. *)
Definition app_demo_env : Env :=
  let env1 := match onboarding_step demo_run.1 (initial_env true) ClickNext with
              | Some o => o_env o | None => initial_env true end in
  match clock_at 1784016000000 with
  | Some clk =>
      match morning_step (mkMorningState StepPriority (Some Tired) None None) env1 clk
              (SelectPriority Work) with
      | Some o => po_env o | None => env1 end
  | None => env1
  end.

(** ** What each page writes *)

Lemma onboarding_step_store st env ev o :
  onboarding_step st env ev = Some o -> o_env o = env \/ exists p, o_env o = saveUserProfile p env.
Proof.
  unfold onboarding_step. destruct (rendered st ev); cbn [negb]; [|intros [= <-]; by left].
  destruct ev; try (intros [= <-]; by left).
  unfold handleNext. destruct (step st <? totalSteps)%Z; [intros [= <-]; by left|].
  destruct (as_profile _) as [p|]; [|discriminate]. intros [= <-]. right. by exists p.
Qed.

Lemma morning_step_store st env clk ev o :
  morning_step st env clk ev = Some o ->
  po_env o = env \/ exists profile m p,
    po_env o = saveDailyInteraction (mkDailyInteraction None (page_userId profile) (today clk)
                                       (Some (mkMorningResponse m p (now clk))) None None) env.
Proof.
  unfold morning_step. destruct (morning_rendered st ev); cbn [negb]; [|intros [= <-]; by left].
  destruct ev; try (intros [= <-]; by left).
  unfold handlePrioritySelect. destruct (getUserProfile env) as [profile|]; [|intros [= <-]; by left].
  destruct (selectedMood st) as [m|]; [|discriminate]. intros [= <-]. right. eauto.
Qed.

Lemma afternoon_step_store st env clk ev :
  po_env (afternoon_step st env clk ev) = env \/ exists profile c,
    po_env (afternoon_step st env clk ev) =
      saveDailyInteraction (mkDailyInteraction None (page_userId profile) (today clk) None
                              (Some (mkAfternoonResponse (a_dayRating st) c (now clk))) None) env.
Proof.
  unfold afternoon_step. destruct (afternoon_rendered st ev); cbn [negb]; [|by left].
  destruct ev; try by left.
  unfold handleConcernSelect. destruct (getUserProfile env) as [profile|]; [|by left]. right. eauto.
Qed.

Lemma night_step_store st env clk ev o :
  night_step st env clk ev = Some o ->
  po_env o = env \/ exists profile dc good,
    po_env o = saveDailyInteraction (mkDailyInteraction None (page_userId profile) (today clk) None None
                 (Some (mkNightResponse dc good (parsePositiveThings (n_positiveThings st)) (now clk)))) env.
Proof.
  unfold night_step. destruct (night_rendered st ev); cbn [negb]; [|intros [= <-]; by left].
  destruct ev; try (intros [= <-]; by left).
  all: unfold handleComplete; destruct (getUserProfile env) as [profile|]; [|intros [= <-]; by left].
  all: destruct (n_dayComparison st) as [dc|], (n_didSomethingGood st) as [good|]; try discriminate.
  all: destruct (Night.getNightReflection dc good profile); [|discriminate]; intros [= <-]; right; eauto.
Qed.

Lemma settings_step_store st env ev :
  po_env (Settings.settings_step st env ev) = env \/
  po_env (Settings.settings_step st env ev) = clearAllData env.
Proof.
  unfold Settings.settings_step. destruct (Settings.settings_rendered st ev); cbn [negb]; [|cbn; by left].
  destruct ev; cbn; auto.
Qed.

(** The pages write only through the operations of [storage_step]. *)
Lemma app_reachable_storage env : app_reachable env -> reachable env.
Proof.
  induction 1 as [w | env st ev o R IH Hs | env st t clk ev o R IH Ht Hc Hs
                 | env st env0 t clk ev R IH Ha Ht Hc | env st t clk ev o R IH Ht Hc Hs | env st ev R IH].
  - constructor.
  - destruct (onboarding_step_store _ _ _ _ Hs) as [-> | [p ->]]; eauto using reachable, storage_step.
  - destruct (morning_step_store _ _ _ _ _ Hs) as [-> | (? & ? & ? & ->)]; eauto using reachable, storage_step.
  - destruct (afternoon_step_store st env clk ev) as [-> | (? & ? & ->)]; eauto using reachable, storage_step.
  - destruct (night_step_store _ _ _ _ _ Hs) as [-> | (? & ? & ? & ->)]; eauto using reachable, storage_step.
  - destruct (settings_step_store st env ev) as [-> | ->]; eauto using reachable, storage_step.
Qed.

(** ** The type of the log under the store's operations *)

Lemma opt_wt_spread {A} (f : A -> bool) a b :
  opt_wt f a = true -> opt_wt f b = true -> opt_wt f (a ⊕ b) = true.
Proof. by destruct a, b. Qed.

(** [{...old, ...interaction}] of two typed records is typed. *)
Lemma wt_merge x i :
  wt_interaction x = true -> wt_interaction i = true -> wt_interaction (merge_interaction x i) = true.
Proof.
  unfold wt_interaction. cbn [merge_interaction userId date morning afternoon night].
  rewrite !andb_true_iff. intros. destruct_and!. split_and!; auto using opt_wt_spread.
Qed.

Lemma wt_upsert i l :
  wt_interaction i = true -> forallb wt_interaction l = true ->
  forallb wt_interaction (upsertInteraction i l) = true.
Proof.
  intros Hi. rewrite upsert_ref_eq. induction l as [|x l IH]; cbn [upsert_ref forallb]; [by rewrite Hi|].
  rewrite andb_true_iff. intros [Hx Hl]. destruct (same_day _ _ x); cbn [forallb].
  - by rewrite wt_merge, Hl.
  - by rewrite Hx, IH.
Qed.

Lemma wt_log_save i env :
  wt_interaction i = true -> wt_log env = true -> wt_log (saveDailyInteraction i env) = true.
Proof.
  intros Hi Hl. unfold wt_log. destruct (window_defined env) eqn:W.
  - rewrite getDailyInteractions_save by done. by apply wt_upsert.
  - unfold saveDailyInteraction. by rewrite W.
Qed.

Lemma wt_log_profile p env : wt_log (saveUserProfile p env) = wt_log env.
Proof.
  unfold wt_log. destruct (window_defined env) eqn:W.
  - by rewrite (proj2 (proj2 (saveUserProfile_reads p env W))).
  - unfold saveUserProfile. by rewrite W.
Qed.

Lemma wt_log_clear env : wt_log (clearAllData env) = true.
Proof. unfold wt_log. by rewrite (proj2 (proj2 (clearAllData_reads env))). Qed.

(** A clock read in the years 1970 to 9999 gives a date key and a valid
    timestamp. *)
Lemma clock_key t clk :
  in_era t -> clock_at t = Some clk -> is_date_key (today clk) = true /\ valid_time (now clk) = true.
Proof.
  unfold in_era. intros Ht Hc. apply clock_at_fields in Hc as [Htd ->].
  rewrite today_at_date_part in Htd by lia. injection Htd as <-. split.
  - apply date_part_key. pose proof (year_range _ (Day_range _ Ht)). lia.
  - apply Z.leb_le. lia.
Qed.

(** [text.split('\n').filter(t => t.trim())] keeps no blank line. *)
Lemma parsePositiveThings_wt text : opt_wt (forallb trim_nonempty) (parsePositiveThings text) = true.
Proof.
  unfold parsePositiveThings. destruct (String.eqb text ""); [done|]. cbn.
  apply forallb_forall. intros x Hx. by apply filter_In in Hx as [_ ?].
Qed.

Lemma wt_log_init w : wt_log (initial_env w) = true.
Proof. by destruct w. Qed.

Lemma app_demo_reachable : app_reachable app_demo_env.
Proof.
  unfold app_demo_env. cbv zeta.
  assert (R1 : app_reachable (match onboarding_step demo_run.1 (initial_env true) ClickNext with
                              | Some o => o_env o | None => initial_env true end)).
  { destruct (onboarding_step _ _ _) eqn:E; [|apply app_init]. eapply app_onboarding; [apply app_init|exact E]. }
  destruct (clock_at 1784016000000) as [clk|] eqn:Hc; [|exact R1].
  destruct (morning_step _ _ _ _) eqn:E; [|exact R1].
  eapply app_morning; [exact R1 | | exact Hc | exact E]. unfold in_era. lia.
Qed.

(** ** Properties *)

(** C17. Every record the pages store has the type [DailyInteraction]
    with its refinements: a non-empty [userId] ([profile.id || 'user']),
    a [YYYY-MM-DD] date, a [dayRating] in [0..10], no blank positive
    thing, and valid timestamps, whatever the order of the pages'
    actions, as long as the clock is in the years 1970 to 9999. *)
Theorem app_log_typed env : app_reachable env -> wt_log env = true.
Proof.
  assert (Hu : forall p, negb (String.eqb (page_userId p) "") = true).
  { intros p. unfold page_userId. destruct (id p) as [s|]; [|done].
    destruct (String.eqb_spec s ""); [done|]. by apply negb_true_iff, String.eqb_neq. }
  induction 1 as [w | env st ev o R IH Hs | env st t clk ev o R IH Ht Hc Hs
                 | env st env0 t clk ev R IH Ha Ht Hc | env st t clk ev o R IH Ht Hc Hs | env st ev R IH].
  - apply wt_log_init.
  - destruct (onboarding_step_store _ _ _ _ Hs) as [-> | [p ->]]; [done | by rewrite wt_log_profile].
  - destruct (clock_key _ _ Ht Hc) as [Hk Hv].
    destruct (morning_step_store _ _ _ _ _ Hs) as [-> | (profile & m & p & ->)]; [done|].
    apply wt_log_save; [|done]. unfold wt_interaction, wt_morning. cbn. by rewrite Hu, Hk, Hv.
  - destruct (clock_key _ _ Ht Hc) as [Hk Hv]. destruct (afternoon_reachable_inv _ _ Ha) as [Hr _].
    destruct (afternoon_step_store st env clk ev) as [-> | (profile & c & ->)]; [done|].
    apply wt_log_save; [|done]. unfold wt_interaction, wt_afternoon. cbn. rewrite Hu, Hk, Hv.
    assert (E1 : (0 <=? a_dayRating st)%Z = true) by (apply Z.leb_le; lia).
    assert (E2 : (a_dayRating st <=? 10)%Z = true) by (apply Z.leb_le; lia).
    by rewrite E1, E2.
  - destruct (clock_key _ _ Ht Hc) as [Hk Hv].
    destruct (night_step_store _ _ _ _ _ Hs) as [-> | (profile & dc & good & ->)]; [done|].
    apply wt_log_save; [|done]. unfold wt_interaction, wt_night. cbn.
    by rewrite Hu, Hk, Hv, parsePositiveThings_wt.
  - destruct (settings_step_store st env ev) as [-> | ->]; [done | apply wt_log_clear].
Qed.

(** C18. The pages on one store keep it well formed: every store that
    the onboarding, the three check-ins and the settings page produce,
    in any order and from any state of their pages, is one that the
    store's own operations produce, so the profile key holds a profile,
    the onboarding flag implies a profile, and the log has one record
    per user and date. *)
Theorem app_storage_inv env : app_reachable env -> reachable env /\ storage_inv env.
Proof.
  intros R. pose proof (app_reachable_storage env R) as Hr. split; [exact Hr|].
  by apply reachable_inv_storage.
Qed.

(** ** Witnesses *)

Lemma app_storage_inv_witness :
  app_reachable app_demo_env /\ isOnboardingComplete app_demo_env = true /\
  reachable app_demo_env /\ storage_inv app_demo_env.
Proof.
  split; [exact app_demo_reachable|]. split; [vm_compute; reflexivity|].
  apply app_storage_inv. exact app_demo_reachable.
Defined.

Lemma app_log_typed_witness :
  app_reachable app_demo_env /\ List.length (getDailyInteractions app_demo_env) = 1%nat /\
  wt_log app_demo_env = true.
Proof.
  split; [exact app_demo_reachable|]. split; [vm_compute; reflexivity|].
  apply app_log_typed. exact app_demo_reachable.
Defined.
