(* ===== verification/Notifications.v ===== *)
(** * Notifications: [src/src/lib/notifications.ts]

    The module registers a service worker when it is loaded and exports
    [requestNotificationPermission] and [scheduleLocalNotification].
    What it does to the browser is a list of [BrowserEffect]s in the
    order of the calls: console messages, the permission prompt, the
    load listener and [register('/sw.js')], and the timer with the
    [Notification] it will show.  The browser state read is a
    [NotificationEnv]: whether the [Notification] API exists, its
    [permission], and what the user answers when asked; the outcome of
    the registration promise is a parameter of [sw_on_load].  Times are
    milliseconds: [now] is [new Date()] and [day_start] the local
    midnight of that day (a day is 86 400 000 ms; daylight-saving
    changes are not modelled); a date beyond 8.64e15 ms is an Invalid
    Date ([TimeClip]).  [Number] is decided where the model is exact: a
    blank string is 0, up to 15 decimal digits are their integer, and a
    string with a character that no numeric literal contains is [NaN];
    every other string (signs, points, exponents, prefixes, [Infinity],
    non-ASCII bytes) is undecided, and [scheduleLocalNotification] then
    returns [None], outside the model.  [setTimeout] converts its delay with
    WebIDL's [ToInt32] (wrap-around on 32 bits, [NaN] to 0) and clamps a
    negative result to 0; [effective_timeout] writes that out.  The text
    of [toLocaleString] depends on the locale and is kept as the time
    value it prints.  No file of [src/] calls either function. *)

From stdpp Require Import base list strings.
From Stdlib Require Import String Ascii ZArith Lia.
From S2P Require Import Prelude.
Open Scope string_scope.

Inductive NotificationPermission := Granted | Denied | Default.

#[export] Instance NotificationPermission_eq_dec : EqDecision NotificationPermission.
Proof. solve_decision. Defined.

Record NotificationEnv := mkNotificationEnv {
  notification_supported : bool;           (** ['Notification' in window] *)
  permission : NotificationPermission;
  user_answer : NotificationPermission      (** result of [requestPermission()] *)
}.

(** What the module does to the browser, in order: console messages
    (their text; the object logged beside it is left out), the
    permission prompt, the load listener and the service-worker
    registration, and the timer with the notification it shows. *)
Record NotificationSpec := mkNotificationSpec {
  ns_title : string; ns_body : string; ns_icon : string; ns_badge : string
}.

Inductive BrowserEffect :=
  | ConsoleLog (msg : string)
  | AskPermission                          (** [Notification.requestPermission()] *)
  | AddLoadListener                        (** [window.addEventListener('load', ...)] *)
  | RegisterServiceWorker (url : string)
  | SetTimeout (delay : Z) (n : NotificationSpec)
  | LogScheduled (at_ : option Z).         (** [scheduledTime.toLocaleString()]; [None] prints "Invalid Date" *)

(** The top of the file: [if ('serviceWorker' in navigator)] adds the
    load listener. *)
Definition sw_module_init (has_serviceWorker : bool) : list BrowserEffect :=
  if has_serviceWorker then [AddLoadListener] else [].

(** The load listener: [register('/sw.js')], then the message of the
    promise's outcome ([true]: resolved). *)
Definition sw_on_load (registered : bool) : list BrowserEffect :=
  [RegisterServiceWorker "/sw.js";
   ConsoleLog (if registered then "Service Worker registrado com sucesso:"
               else "Falha ao registrar Service Worker:")].

(** The value the promise resolves to, the permission afterwards, and
    the effects. *)
Definition requestNotificationPermission (e : NotificationEnv)
    : bool * NotificationPermission * list BrowserEffect :=
  if negb (notification_supported e) then
    (false, permission e, [ConsoleLog "Este navegador não suporta notificações"])
  else if bool_decide (permission e = Granted) then (true, Granted, [])
  else if bool_decide (permission e <> Denied) then
    (bool_decide (user_answer e = Granted), user_answer e, [AskPermission])
  else (false, Denied, []).

(** ** [Number] on time-input strings *)

Fixpoint trim_left (s : string) : string :=
  match s with
  | String c rest => if is_ws c then trim_left rest else s
  | EmptyString => EmptyString
  end.

Fixpoint trim_right (s : string) : string :=
  match s with
  | String c rest =>
      let r := trim_right rest in
      if String.eqb r "" && is_ws c then EmptyString else String c r
  | EmptyString => EmptyString
  end.

(** [String.prototype.trim] on ASCII white space. *)
Definition trim (s : string) : string := trim_right (trim_left s).

(** What [Number(s)] gives, as far as the model decides it. *)
Inductive JsNumber :=
  | JNum (z : Z)        (** an integer value, exact *)
  | JNaN                (** [NaN] *)
  | JUnmodelled.        (** a numeral the model does not evaluate *)

(** The characters that occur in some [StrNumericLiteral] (decimal digits,
    signs, point, exponent, the [0x]/[0o]/[0b] prefixes, hexadecimal
    digits, the letters of [Infinity]), and every non-ASCII byte, which
    may belong to a Unicode white space that [Number] strips. *)
Definition maybe_numeric (c : ascii) : bool :=
  (128 <=? Ascii.nat_of_ascii c)%nat ||
  existsb (Ascii.eqb c) (list_ascii_of_string "0123456789+-.eExXoObBaAcCdDfFInity").

Fixpoint all_chars (f : ascii -> bool) (s : string) : bool :=
  match s with
  | EmptyString => true
  | String c s' => f c && all_chars f s'
  end.

(** [Number(s)] (StringToNumber): a blank string is 0; up to 15 decimal
    digits are read exactly (below 2^53, so the double is the integer); a
    string with a character no numeric literal contains is [NaN]; any
    other string (a sign, a point, an exponent, a prefix, [Infinity],
    more digits, non-ASCII bytes) is left undecided. *)
Definition js_Number (s : string) : JsNumber :=
  let t := trim s in
  if String.eqb t "" then JNum 0
  else match digits_value 0 t with
       | Some z => if (String.length t <=? 15)%nat then JNum z else JUnmodelled
       | None => if all_chars maybe_numeric t then JUnmodelled else JNaN
       end.

(** ** [scheduleLocalNotification] *)

Definition ms_per_day : Z := 86400000.

(** [const [hours, minutes] = time.split(':').map(Number)]: the two
    numbers, or [NaN] for [setHours] (a missing minute is [undefined],
    which is [NaN]; one [NaN] argument makes the date invalid), or a
    numeral outside the model. *)
Inductive TimeParse := TimeOK (h m : Z) | TimeNaN | TimeUnmodelled.

Definition is_NaN (n : JsNumber) : bool := match n with JNaN => true | _ => false end.

Definition parse_time (time : string) : TimeParse :=
  match map js_Number (split_on ":" time) with
  | JNum h :: JNum m :: _ => TimeOK h m
  | hours :: rest =>
      let minutes := match rest with [] => JNaN | x :: _ => x end in
      if is_NaN hours || is_NaN minutes then TimeNaN else TimeUnmodelled
  | [] => TimeNaN
  end.

(** [TimeClip]: a time value beyond 8.64e15 ms is an Invalid Date. *)
Definition time_clip (t : Z) : option Z :=
  if (8640000000000000 <? Z.abs t)%Z then None else Some t.

Inductive ScheduledTime := ScheduledAt (t : Z) | ScheduledInvalid | ScheduledUnmodelled.

(** [scheduledTime.setHours(hours, minutes, 0, 0)] and, when that moment
    is not in the future, [setDate(getDate() + 1)]; each result goes
    through [TimeClip].  An Invalid Date compares false with [now]. *)
Definition scheduled_time (time : string) (now day_start : Z) : ScheduledTime :=
  match parse_time time with
  | TimeOK h m =>
      match time_clip (day_start + h * 3600000 + m * 60000)%Z with
      | None => ScheduledInvalid
      | Some t =>
          if (t <=? now)%Z then
            match time_clip (t + ms_per_day)%Z with
            | Some t' => ScheduledAt t'
            | None => ScheduledInvalid
            end
          else ScheduledAt t
      end
  | TimeNaN => ScheduledInvalid
  | TimeUnmodelled => ScheduledUnmodelled
  end.

(** WebIDL [ToInt32]: reduce modulo 2^32 into [-2^31, 2^31). *)
Definition ToInt32 (x : Z) : Z :=
  let m := (x mod 2 ^ 32)%Z in if (m >=? 2 ^ 31)%Z then (m - 2 ^ 32)%Z else m.

(** The delay [setTimeout] waits for [timeUntilNotification]: [NaN] and
    negative values become 0. *)
Definition effective_timeout (delay : option Z) : Z :=
  match delay with
  | None => 0%Z
  | Some d => let i := ToInt32 d in if (i <? 0)%Z then 0%Z else i
  end.

(** The icon and badge of the notification. *)
Definition ICON : string := "/icon-192.png".

(** Without permission, only the console message; otherwise the timer
    for [timeUntilNotification] with the notification it will show, and
    the message with the scheduled time.  [None]: a time numeral outside
    the model of [Number]. *)
Definition scheduleLocalNotification (perm : NotificationPermission) (title body time : string)
    (now day_start : Z) : option (list BrowserEffect) :=
  if bool_decide (perm <> Granted) then Some [ConsoleLog "Permissão de notificação não concedida"]
  else
    let n := mkNotificationSpec title body ICON ICON in
    match scheduled_time time now day_start with
    | ScheduledAt t => Some [SetTimeout (effective_timeout (Some (t - now)%Z)) n; LogScheduled (Some t)]
    | ScheduledInvalid => Some [SetTimeout (effective_timeout None) n; LogScheduled None]
    | ScheduledUnmodelled => None
    end.

(** ** Properties *)

Lemma ToInt32_small x : (0 <= x < 2 ^ 31)%Z -> ToInt32 x = x.
Proof.
  intros H. unfold ToInt32. rewrite Z.mod_small by lia.
  destruct (Z.geb_spec x (2 ^ 31)); lia.
Qed.

(** [setTimeout] keeps a delay below 2^31. *)
Lemma effective_timeout_small x : (0 <= x < 2 ^ 31)%Z -> effective_timeout (Some x) = x.
Proof.
  intros H. unfold effective_timeout. rewrite ToInt32_small by done.
  destruct (Z.ltb_spec x 0); lia.
Qed.

Lemma time_clip_in t : (Z.abs t <= 8640000000000000)%Z -> time_clip t = Some t.
Proof. intros H. unfold time_clip. destruct (Z.ltb_spec 8640000000000000 (Z.abs t)); [lia | done]. Qed.

(** C31. A valid time of day ([0 <= hours <= 23], [0 <= minutes <= 59])
    with the permission granted, on a day after 1970 and before the end
    of the time range, sets one timer, for a delay in (0, one day], that
    shows the notification with the given title and body and the app's
    icon, at that clock time of today or tomorrow, and logs that moment. *)
Theorem schedule_valid_time_delay title body time h m now day_start :
  parse_time time = TimeOK h m -> (0 <= h <= 23)%Z -> (0 <= m <= 59)%Z ->
  (day_start <= now < day_start + ms_per_day)%Z ->
  (0 <= day_start <= 8640000000000000 - 2 * ms_per_day)%Z ->
  exists d, scheduleLocalNotification Granted title body time now day_start =
      Some [SetTimeout d (mkNotificationSpec title body ICON ICON); LogScheduled (Some (now + d)%Z)] /\
    (0 < d <= ms_per_day)%Z /\
    ((now + d - day_start) mod ms_per_day = h * 3600000 + m * 60000)%Z.
Proof.
  intros Hp Hh Hm Hn Hds. unfold ms_per_day in *.
  set (off := (h * 3600000 + m * 60000)%Z).
  assert (Hoff : (0 <= off < 86400000)%Z) by (unfold off; lia).
  assert (Hx : exists x, scheduled_time time now day_start = ScheduledAt x /\
                 (now < x <= now + 86400000)%Z /\ ((x - day_start) mod 86400000 = off)%Z).
  { unfold scheduled_time. rewrite Hp.
    replace (day_start + h * 3600000 + m * 60000)%Z with (day_start + off)%Z by (unfold off; lia).
    rewrite time_clip_in by lia. unfold ms_per_day.
    destruct (Z.leb_spec (day_start + off) now).
    - rewrite time_clip_in by lia. eexists; split; [reflexivity|]. split; [lia|].
      replace (day_start + off + 86400000 - day_start)%Z with (off + 1 * 86400000)%Z by lia.
      rewrite Z_mod_plus_full. apply Z.mod_small. lia.
    - eexists; split; [reflexivity|]. split; [lia|].
      replace (day_start + off - day_start)%Z with off by lia. apply Z.mod_small. lia. }
  destruct Hx as (x & Hs & Hx & Hmod).
  unfold scheduleLocalNotification. rewrite bool_decide_eq_false_2 by congruence. rewrite Hs.
  exists (x - now)%Z. rewrite effective_timeout_small by lia.
  replace (now + (x - now))%Z with x by lia. split; [reflexivity|]. split; [lia|]. exact Hmod.
Qed.


(** The delay [setTimeout] waits is always in [0, 2^31 - 1]: a delay
    in that range is kept, and one in [2^31, 2^32) wraps to a negative
    32-bit value and fires at once. *)
Theorem effective_timeout_bounds d :
  (0 <= effective_timeout d <= 2 ^ 31 - 1)%Z /\
  (forall x, d = Some x -> (0 <= x < 2 ^ 31)%Z -> effective_timeout d = x) /\
  (forall x, d = Some x -> (2 ^ 31 <= x < 2 ^ 32)%Z -> effective_timeout d = 0%Z).
Proof.
  unfold effective_timeout. split; [|split].
  - destruct d as [x|]; [|lia]. unfold ToInt32.
    pose proof (Z.mod_pos_bound x (2 ^ 32) ltac:(lia)).
    destruct (Z.geb_spec (x mod 2 ^ 32) (2 ^ 31)); case_Zcmp; lia.
  - intros x -> Hx. rewrite ToInt32_small by lia. case_Zcmp; lia.
  - intros x -> Hx. unfold ToInt32. rewrite Z.mod_small by lia.
    destruct (Z.geb_spec x (2 ^ 31)); [|lia]. case_Zcmp; lia.
Qed.

(** C33. [requestNotificationPermission] prompts the user exactly when
    the API exists and the permission is still the default, resolves to
    [true] exactly when the API exists and the permission ends up
    granted, and logs its message exactly when the API is missing. *)
Theorem requestNotificationPermission_spec e r p effs :
  requestNotificationPermission e = (r, p, effs) ->
  (In AskPermission effs <-> notification_supported e = true /\ permission e = Default) /\
  (r = true <-> notification_supported e = true /\ p = Granted) /\
  (effs = [ConsoleLog "Este navegador não suporta notificações"] <-> notification_supported e = false).
Proof.
  unfold requestNotificationPermission.
  destruct (notification_supported e), (permission e), (user_answer e); cbn;
    intros [= <- <- <-]; cbn; intuition (try discriminate; try congruence).
Qed.

(** Where the model decides [Number] and where it does not: numerals with
    an exponent, a sign or a point are left undecided; a letter outside
    every numeric literal is [NaN]; two-digit pieces are read. *)
Lemma parse_time_examples :
  parse_time "1e1:00" = TimeUnmodelled /\ parse_time "+8:30" = TimeUnmodelled /\
  parse_time "8.0:30" = TimeUnmodelled /\ parse_time "hh:30" = TimeNaN /\
  parse_time " 07:05" = TimeOK 7 5 /\ parse_time "8" = TimeNaN.
Proof. split_and!; vm_compute; reflexivity. Qed.

(** ** Witnesses *)

(** The onboarding default "08:00", asked at 09:00 on 15 July 2026 (local
    midnight 1784073600000 in UTC terms): due in 23 hours. *)
Lemma schedule_valid_time_delay_witness :
  parse_time "08:00" = TimeOK 8 0 /\ (0 <= 8 <= 23)%Z /\ (0 <= 0 <= 59)%Z /\
  (1784073600000 <= 1784106000000 < 1784073600000 + ms_per_day)%Z /\
  (0 <= 1784073600000 <= 8640000000000000 - 2 * ms_per_day)%Z /\
  exists d, scheduleLocalNotification Granted "Bom dia" "Como te sentes?" "08:00" 1784106000000
              1784073600000 =
      Some [SetTimeout d (mkNotificationSpec "Bom dia" "Como te sentes?" ICON ICON);
            LogScheduled (Some (1784106000000 + d)%Z)] /\
    (0 < d <= ms_per_day)%Z /\
    ((1784106000000 + d - 1784073600000) mod ms_per_day = 8 * 3600000 + 0 * 60000)%Z.
Proof.
  split; [reflexivity|]. split; [lia|]. split; [lia|].
  split; [unfold ms_per_day; lia|]. split; [unfold ms_per_day; lia|].
  apply schedule_valid_time_delay; [reflexivity|lia|lia|unfold ms_per_day; lia|unfold ms_per_day; lia].
Defined.


Lemma requestNotificationPermission_spec_witness :
  requestNotificationPermission (mkNotificationEnv true Default Granted) = (true, Granted, [AskPermission]) /\
  ((In AskPermission [AskPermission] <->
      notification_supported (mkNotificationEnv true Default Granted) = true /\
      permission (mkNotificationEnv true Default Granted) = Default) /\
   (true = true <-> notification_supported (mkNotificationEnv true Default Granted) = true /\
                    Granted = Granted) /\
   ([AskPermission] = [ConsoleLog "Este navegador não suporta notificações"] <->
      notification_supported (mkNotificationEnv true Default Granted) = false)).
Proof.
  split; [reflexivity|]. apply requestNotificationPermission_spec. reflexivity.
Defined.
